(** * Analytics aggregation pipeline of the community dashboard

    A shallow embedding of [src/scripts/generateAnalytics.ts]: the paginated
    fetchers, the composite-key join, the review and issue aggregators and
    the orchestrator, followed by the properties the specification states
    about them.

    Conventions of the embedding.
    - A timestamp (an ISO-8601 string that the script parses with
      [new Date(..)]) is the number of milliseconds since the epoch, in [Z].
      The clock is read once: every [new Date()] of a run is the same
      instant [now].
    - A JavaScript number that holds a count is a [nat]; an item number is
      a [Z]; a number of hours is a rational in [Q] (the rounding of IEEE
      doubles is not modelled).  The item numbers of the service are safe
      integers ([Js.safeInteger]): beyond, a JavaScript number need not be
      an integer and a template literal may print it with an exponent.  The
      properties that read a number back from a key state this bound.
    - Every date field of the data holds a valid date.  On an invalid date
      [formatDate] throws; the aggregators of the embedding always return.
    - A string is a [string] of bytes; the only characters the script
      inspects are ASCII.
    - A plain object used as a dictionary is a [JsObject.t]: its own
      properties in creation order, enumerated as JavaScript does. *)

From Stdlib Require Import List String Ascii Bool Arith ZArith QArith Qround Lia.
From Stdlib Require Import Sorted Permutation.
Import ListNotations.

Local Open Scope string_scope.
Local Open Scope list_scope.
Local Open Scope Z_scope.

(* ------------------------------------------------------------------ *)
(** ** JavaScript string primitives used by the script                 *)
(* ------------------------------------------------------------------ *)

Module Js.

(** [s.split(sep)] for a one-character separator. *)
Fixpoint split_aux (sep : ascii) (cur : string) (s : string) : list string :=
  match s with
  | EmptyString => [cur]
  | String c rest =>
      if Ascii.eqb c sep then cur :: split_aux sep EmptyString rest
      else split_aux sep (cur ++ String c EmptyString)%string rest
  end.

Definition split (sep : ascii) (s : string) : list string :=
  split_aux sep EmptyString s.

(** [s.endsWith(suffix)]. *)
Definition endsWith (s suffix : string) : bool :=
  let n := String.length s in
  let m := String.length suffix in
  (m <=? n)%nat && String.eqb (substring (n - m) m s) suffix.

(** [s.toLowerCase()] on the ASCII letters.  No other character lowers to
    an ASCII letter that occurs in a recognised label name. *)
Definition lower_ascii (c : ascii) : ascii :=
  let n := nat_of_ascii c in
  if ((65 <=? n) && (n <=? 90))%nat then ascii_of_nat (n + 32) else c.

Fixpoint toLowerCase (s : string) : string :=
  match s with
  | EmptyString => EmptyString
  | String c rest => String (lower_ascii c) (toLowerCase rest)
  end.

Definition is_digit (c : ascii) : bool :=
  let n := nat_of_ascii c in ((48 <=? n) && (n <=? 57))%nat.

Definition digit_val (c : ascii) : Z := Z.of_nat (nat_of_ascii c - 48).

(** White space skipped by [parseInt] (the ASCII part of it). *)
Definition is_space (c : ascii) : bool :=
  let n := nat_of_ascii c in
  ((9 <=? n) && (n <=? 13))%nat || (n =? 32)%nat.

Fixpoint skip_spaces (s : string) : string :=
  match s with
  | String c rest => if is_space c then skip_spaces rest else s
  | EmptyString => s
  end.

(** The longest prefix of decimal digits, read as a number; [None] when the
    prefix is empty. *)
Fixpoint digits_prefix (acc : option Z) (s : string) : option Z :=
  match s with
  | String c rest =>
      if is_digit c
      then digits_prefix
             (Some (10 * match acc with Some a => a | None => 0 end + digit_val c))
             rest
      else acc
  | EmptyString => acc
  end.

(** [parseInt(s, 10)]; [None] is [NaN]. *)
Definition parseInt (s : string) : option Z :=
  match skip_spaces s with
  | String "-" rest => option_map Z.opp (digits_prefix None rest)
  | String "+" rest => digits_prefix None rest
  | t => digits_prefix None t
  end.

(** The integers that a JavaScript number holds exactly, whatever the
    arithmetic: [Number.isSafeInteger]. *)
Definition safeInteger (n : Z) : Prop :=
  - 9007199254740992 < n < 9007199254740992.

(** Decimal rendering of a safe integer, as a template literal does. *)
Fixpoint digits_of (fuel : nat) (n : Z) (acc : string) : string :=
  match fuel with
  | O => acc
  | S k =>
      let acc' := String (ascii_of_nat (48 + Z.to_nat (n mod 10))) acc in
      if n <? 10 then acc' else digits_of k (n / 10) acc'
  end.

Definition toString (n : Z) : string :=
  if n <? 0
  then String "-" (digits_of (S (Z.to_nat (Z.log2 (- n)))) (- n) EmptyString)
  else digits_of (S (Z.to_nat (Z.log2 n))) n EmptyString.

(** A property key that is an array index: the canonical decimal string of
    an integer between 0 and 2^32 - 2. *)
Fixpoint all_digits (s : string) : bool :=
  match s with
  | EmptyString => true
  | String c rest => is_digit c && all_digits rest
  end.

Definition arrayIndex (s : string) : option Z :=
  match s with
  | EmptyString => None
  | String c rest =>
      if all_digits s
         && (negb (Ascii.eqb c "0") || String.eqb rest EmptyString)
         && (String.length s <=? 10)%nat
      then match digits_prefix None s with
           | Some n => if n <=? 4294967294 then Some n else None
           | None => None
           end
      else None
  end.

End Js.

(* ------------------------------------------------------------------ *)
(** ** [Array.prototype.sort]: a stable sort                           *)
(* ------------------------------------------------------------------ *)

Section StableSort.
Context {A : Type}.
(** [before a b] holds when the comparator returns a negative number on
    [(a, b)], that is when [a] has to come first. *)
Variable before : A -> A -> bool.

(** [x] is put in front of a sorted list whose elements all came after
    [x] in the array: it only moves past the elements that have to come
    first, so that elements that compare equal keep their order. *)
Fixpoint insert (x : A) (l : list A) : list A :=
  match l with
  | [] => [x]
  | y :: l' => if before y x then y :: insert x l' else x :: y :: l'
  end.

Definition sort (l : list A) : list A := fold_right insert [] l.
End StableSort.

(** [a.slice(0, n)] *)
Definition slice0 {A : Type} (n : nat) (l : list A) : list A := firstn n l.

(* ------------------------------------------------------------------ *)
(** ** Plain objects used as dictionaries                              *)
(* ------------------------------------------------------------------ *)

Section Assoc.
Context {K V : Type}.
Variable eqb : K -> K -> bool.

Fixpoint assoc_get (o : list (K * V)) (k : K) : option V :=
  match o with
  | [] => None
  | (k', v) :: rest => if eqb k' k then Some v else assoc_get rest k
  end.

(** Assignment keeps the place of a key that exists and appends a new
    one. *)
Fixpoint assoc_set (o : list (K * V)) (k : K) (v : V) : list (K * V) :=
  match o with
  | [] => [(k, v)]
  | (k', v') :: rest =>
      if eqb k' k then (k', v) :: rest else (k', v') :: assoc_set rest k v
  end.
End Assoc.

Module JsObject.

(** The own properties, in creation order. *)
Definition t (V : Type) : Type := list (string * V).

Definition empty {V : Type} : t V := [].

(** Own-property read: [None] is [undefined]. *)
Definition get {V : Type} (o : t V) (k : string) : option V :=
  assoc_get String.eqb o k.

(** [o[k] = v] *)
Definition set {V : Type} (o : t V) (k : string) (v : V) : t V :=
  assoc_set String.eqb o k v.

(** The properties every object literal inherits from [Object.prototype];
    reading one of them on an object that has no own property of that
    name yields a function or an object, which is truthy. *)
Definition prototypeNames : list string :=
  [ "constructor"; "toString"; "toLocaleString"; "valueOf";
    "hasOwnProperty"; "isPrototypeOf"; "propertyIsEnumerable";
    "__proto__"; "__defineGetter__"; "__defineSetter__";
    "__lookupGetter__"; "__lookupSetter__" ].

Definition inheritedName (k : string) : bool :=
  existsb (String.eqb k) prototypeNames.

Inductive Lookup (V : Type) : Type :=
| Own (v : V)
| Inherited
| Undefined.
Arguments Own {V} v.
Arguments Inherited {V}.
Arguments Undefined {V}.

(** [o[k]] through the prototype chain. *)
Definition lookup {V : Type} (o : t V) (k : string) : Lookup V :=
  match get o k with
  | Some v => Own v
  | None => if inheritedName k then Inherited else Undefined
  end.

Definition isIndexKey {V : Type} (kv : string * V) : bool :=
  match Js.arrayIndex (fst kv) with Some _ => true | None => false end.

Definition indexOf {V : Type} (kv : string * V) : Z :=
  match Js.arrayIndex (fst kv) with Some n => n | None => 0 end.

(** [Object.entries(o)]: the array-index keys in ascending numeric order,
    then the other keys in creation order. *)
Definition entries {V : Type} (o : t V) : list (string * V) :=
  sort (fun a b => indexOf a <? indexOf b) (filter isIndexKey o)
  ++ filter (fun kv => negb (isIndexKey kv)) o.

(** [Object.keys(o)] *)
Definition keys {V : Type} (o : t V) : list string := map fst (entries o).

End JsObject.

(* ------------------------------------------------------------------ *)
(** ** Data model                                                      *)
(* ------------------------------------------------------------------ *)

Record GitHubUser : Type := {
  login : string;                (* the empty string when absent *)
  avatar_url : string;
  user_type : option string      (* [type?: string] *)
}.

Record GitHubPullRequest : Type := {
  pr_number : Z;
  pr_title : string;
  pr_user : GitHubUser;
  pr_created_at : Z;
  pr_updated_at : Z;
  pr_merged_at : option Z;
  pr_state : string;
  pr_html_url : string;
  pr_draft : bool
}.

Record Label : Type := { label_name : string; label_color : string }.

Record GitHubIssue : Type := {
  issue_number : Z;
  issue_title : string;
  issue_user : GitHubUser;
  issue_created_at : Z;
  issue_updated_at : Z;
  issue_closed_at : option Z;
  issue_state : string;
  issue_html_url : string;
  issue_labels : list Label;
  issue_pull_request : bool      (* the [pull_request] field is present *)
}.

Inductive ReviewState : Type :=
| APPROVED | CHANGES_REQUESTED | COMMENTED | DISMISSED.

Record GitHubReview : Type := {
  review_id : Z;
  review_user : option GitHubUser;   (* the aggregator guards [review.user] *)
  review_state : ReviewState;
  review_submitted_at : Z;
  review_pull_request_url : string
}.

Record Repository : Type := {
  repo_name : string;
  repo_owner : string;           (* [owner.login] *)
  repo_archived : bool;
  repo_disabled : bool
}.

Definition ReviewState_eqb (a b : ReviewState) : bool :=
  match a, b with
  | APPROVED, APPROVED | CHANGES_REQUESTED, CHANGES_REQUESTED
  | COMMENTED, COMMENTED | DISMISSED, DISMISSED => true
  | _, _ => false
  end.

(* ------------------------------------------------------------------ *)
(** ** Utilities of the script                                         *)
(* ------------------------------------------------------------------ *)

(** [isBotUser]: the argument is [None] for a [null] user. *)
Definition isBotUser (user : option GitHubUser) : bool :=
  match user with
  | None => true
  | Some u =>
      if String.eqb (login u) "" then true
      else match user_type u with
           | Some ty =>
               if negb (String.eqb ty "") && negb (String.eqb ty "User")
               then true
               else Js.endsWith (login u) "[bot]"
           | None => Js.endsWith (login u) "[bot]"
           end
  end.

Definition msPerHour : Z := 1000 * 60 * 60.
Definition msPerDay : Z := 24 * msPerHour.

(** [daysAgo(n)] at the instant [now]; the process runs in UTC, where a
    calendar day has 24 hours. *)
Definition daysAgo (now : Z) (n : Z) : Z := now - n * msPerDay.

(** [formatDate]: the UTC calendar day of an instant.  The day is
    represented by its number since the epoch, which determines the
    [YYYY-MM-DD] text the script uses as a key, and conversely. *)
Definition formatDate (date : Z) : Z := date / msPerDay.

(** Number of hours between two instants: [(a - b) / (1000 * 60 * 60)]. *)
Definition hoursBetween (a b : Z) : Q :=
  (inject_Z (a - b) / inject_Z msPerHour)%Q.

(** [Math.round(x * 10) / 10] *)
Definition round1 (x : Q) : Q :=
  (inject_Z (Qfloor (x * 10 + (1 # 2))) / 10)%Q.

(** [Math.round(x * 100) / 100] *)
Definition round2 (x : Q) : Q :=
  (inject_Z (Qfloor (x * 100 + (1 # 2))) / 100)%Q.

(** [smartSleep]: the number of milliseconds slept after a response whose
    [x-ratelimit-remaining] header is [remaining] ([None] when the header
    is absent).  An empty header is falsy; a header that does not parse
    gives [NaN], which fails both comparisons. *)
Definition smartSleep (remaining : option string) (defaultMs : Z) : Z :=
  match remaining with
  | Some header =>
      if String.eqb header "" then defaultMs
      else
        match Js.parseInt header with
        | Some remainingCount =>
            if remainingCount >? 500 then 200
            else if remainingCount >? 100 then 400
            else 1000
        | None => 1000
        end
  | None => defaultMs
  end.

(* ------------------------------------------------------------------ *)
(** ** Review metrics                                                  *)
(* ------------------------------------------------------------------ *)

Record ReviewerStat : Type := { count : nat; stat_avatar_url : string }.

Record DayData : Type := { day_reviews : nat; day_times : list Q }.

Record StateDistribution : Type := {
  approved : nat;
  changesRequested : nat;
  commented : nat;
  pending : nat
}.

Record TopReviewer : Type := {
  username : string;
  reviewCount : nat;
  avatarUrl : string
}.

Record DailyReview : Type := {
  dr_date : Z;
  dr_reviews : nat;
  dr_avgTimeHours : Q
}.

Record NeedingReview : Type := {
  nr_number : Z;
  nr_title : string;
  nr_author : string;
  nr_authorAvatar : string;
  nr_createdAt : Z;
  nr_url : string;
  nr_repository : string;
  nr_ageHours : Q;
  nr_isDraft : bool
}.

Record ReadyToMerge : Type := {
  rm_number : Z;
  rm_title : string;
  rm_author : string;
  rm_authorAvatar : string;
  rm_createdAt : Z;
  rm_url : string;
  rm_repository : string;
  rm_approvals : nat;
  rm_ageHours : Q
}.

Record ReviewMetrics : Type := {
  totalReviews : nat;
  reviewsLast7Days : nat;
  reviewsLast30Days : nat;
  averageReviewTimeHours : Q;
  topReviewers : list TopReviewer;
  velocity_daily : Q;
  velocity_weekly : nat;
  velocity_monthly : nat;
  dailyReviewData : list DailyReview;
  reviewStateDistribution : StateDistribution;
  prsNeedingReview : list NeedingReview;
  prsReadyToMerge : list ReadyToMerge
}.

(** The variables the review loop of [calculateReviewMetrics] updates. *)
Record ReviewAcc : Type := {
  acc_totalReviews : nat;
  acc_reviewsLast7Days : nat;
  acc_reviewsLast30Days : nat;
  acc_reviewerStats : JsObject.t ReviewerStat;
  acc_reviewTimes : list Q;
  acc_dailyReviews : list (Z * DayData);
  acc_stateDistribution : StateDistribution
}.

Definition emptyAcc : ReviewAcc := {|
  acc_totalReviews := 0;
  acc_reviewsLast7Days := 0;
  acc_reviewsLast30Days := 0;
  acc_reviewerStats := JsObject.empty;
  acc_reviewTimes := [];
  acc_dailyReviews := [];
  acc_stateDistribution :=
    {| approved := 0; changesRequested := 0; commented := 0; pending := 0 |}
|}.

(** [a.reduce((a, b) => a + b, 0)] *)
Definition sumQ (l : list Q) : Q := fold_left Qplus l 0%Q.

(** [times.length > 0 ? sum / times.length : 0] *)
Definition average (times : list Q) : Q :=
  match times with
  | [] => 0%Q
  | _ => (sumQ times / inject_Z (Z.of_nat (List.length times)))%Q
  end.

(** Lines 396-404: the entry of a reviewer is created on the first review
    seen, with the avatar of that review, then its counter is incremented.
    When the login names a property inherited from [Object.prototype] the
    test [!reviewerStats[login]] is false, no entry is created, and the
    increment lands on the inherited value. *)
Definition bumpReviewer (stats : JsObject.t ReviewerStat) (u : GitHubUser)
    : JsObject.t ReviewerStat :=
  let stats1 :=
    match JsObject.lookup stats (login u) with
    | JsObject.Undefined =>
        JsObject.set stats (login u) {| count := 0; stat_avatar_url := avatar_url u |}
    | _ => stats
    end in
  match JsObject.lookup stats1 (login u) with
  | JsObject.Own st =>
      JsObject.set stats1 (login u)
        {| count := S (count st); stat_avatar_url := stat_avatar_url st |}
  | _ => stats1
  end.

Definition bumpDay (daily : list (Z * DayData)) (dateStr : Z) (hoursToReview : Q)
    : list (Z * DayData) :=
  let daily1 :=
    match assoc_get Z.eqb daily dateStr with
    | None => assoc_set Z.eqb daily dateStr {| day_reviews := 0; day_times := [] |}
    | Some _ => daily
    end in
  match assoc_get Z.eqb daily1 dateStr with
  | Some d =>
      assoc_set Z.eqb daily1 dateStr
        {| day_reviews := S (day_reviews d);
           day_times := day_times d ++ [hoursToReview] |}
  | None => daily1
  end.

Definition bumpState (d : StateDistribution) (s : ReviewState) : StateDistribution :=
  match s with
  | APPROVED =>
      {| approved := S (approved d); changesRequested := changesRequested d;
         commented := commented d; pending := pending d |}
  | CHANGES_REQUESTED =>
      {| approved := approved d; changesRequested := S (changesRequested d);
         commented := commented d; pending := pending d |}
  | COMMENTED =>
      {| approved := approved d; changesRequested := changesRequested d;
         commented := S (commented d); pending := pending d |}
  | DISMISSED => d
  end.

Section ReviewLoop.
Variable now : Z.
Variable pullRequests : list GitHubPullRequest.
Variable allReviews : JsObject.t (list GitHubReview).
Variable repoMap : JsObject.t string.

(** Body of [reviews.forEach] (lines 386-431). *)
Definition processReview (pr : GitHubPullRequest) (acc : ReviewAcc)
    (review : GitHubReview) : ReviewAcc :=
  let reviewDate := review_submitted_at review in
  let prCreatedDate := pr_created_at pr in
  let hoursToReview := hoursBetween reviewDate prCreatedDate in
  {| acc_totalReviews := S (acc_totalReviews acc);
     acc_reviewsLast7Days :=
       if reviewDate >=? daysAgo now 7 then S (acc_reviewsLast7Days acc)
       else acc_reviewsLast7Days acc;
     acc_reviewsLast30Days :=
       if reviewDate >=? daysAgo now 30 then S (acc_reviewsLast30Days acc)
       else acc_reviewsLast30Days acc;
     acc_reviewerStats :=
       match review_user review with
       | Some u => bumpReviewer (acc_reviewerStats acc) u
       | None => acc_reviewerStats acc
       end;
     acc_reviewTimes := acc_reviewTimes acc ++ [hoursToReview];
     acc_dailyReviews :=
       bumpDay (acc_dailyReviews acc) (formatDate reviewDate) hoursToReview;
     acc_stateDistribution :=
       bumpState (acc_stateDistribution acc) (review_state review) |}.

(** Lines 368-384: the pull request a key of [allReviews] is counted
    against; [None] when the callback returns early. *)
Definition owningPullRequest (compositeKey : string) : option GitHubPullRequest :=
  match Js.split "#" compositeKey with
  | [repoPath; prNumberStr] =>
      if String.eqb repoPath "" || String.eqb prNumberStr "" then None
      else
        match Js.split "/" repoPath with
        | [_; repoName] =>
            if String.eqb repoName "" then None
            else
              match Js.parseInt prNumberStr with
              | None => None
              | Some prNumber =>
                  find (fun p =>
                          (pr_number p =? prNumber)
                          && match JsObject.lookup repoMap compositeKey with
                             | JsObject.Own name => String.eqb name repoName
                             | _ => false
                             end)
                       pullRequests
              end
        | _ => None
        end
  | _ => None
  end.

(** Body of [Object.entries(allReviews).forEach] (lines 366-432). *)
Definition processEntry (acc : ReviewAcc) (entry : string * list GitHubReview)
    : ReviewAcc :=
  match owningPullRequest (fst entry) with
  | None => acc
  | Some pr => fold_left (processReview pr) (snd entry) acc
  end.

Definition reviewLoop : ReviewAcc :=
  fold_left processEntry (JsObject.entries allReviews) emptyAcc.

(** The callback of [Object.keys(repoMap).find] (lines 440-446). *)
Definition keyHasNumber (number : Z) (key : string) : bool :=
  match Js.split "#" key with
  | [_; numberStr] =>
      if String.eqb numberStr "" then false
      else
        match Js.parseInt numberStr with
        | Some n =>
            (n =? number)
            && match JsObject.lookup repoMap key with
               | JsObject.Own name => negb (String.eqb name "")
               | JsObject.Inherited => true
               | JsObject.Undefined => false
               end
        | None => false
        end
  | _ => false
  end.

Definition findCompositeKey (number : Z) : option string :=
  find (keyHasNumber number) (JsObject.keys repoMap).

(** [compositeKey ? (allReviews[compositeKey] || []) : []].  A key that
    was found contains ['#'], so it is not empty and names no inherited
    property. *)
Definition reviewsOf (compositeKey : option string) : list GitHubReview :=
  match compositeKey with
  | Some key =>
      match JsObject.get allReviews key with
      | Some reviews => reviews
      | None => []
      end
  | None => []
  end.

(** [compositeKey ? (repoMap[compositeKey] ?? 'unknown') : 'unknown'] *)
Definition repositoryOf (compositeKey : option string) : string :=
  match compositeKey with
  | Some key =>
      match JsObject.get repoMap key with
      | Some name => name
      | None => "unknown"
      end
  | None => "unknown"
  end.

(** Line 437: the pull requests the worklists consider. *)
Definition reviewable (pr : GitHubPullRequest) : bool :=
  String.eqb (pr_state pr) "open"
  && match pr_merged_at pr with Some _ => false | None => true end
  && negb (pr_draft pr).

Definition countState (s : ReviewState) (reviews : list GitHubReview) : nat :=
  List.length (filter (fun r => ReviewState_eqb (review_state r) s) reviews).

(** Line 454 *)
Definition needsReview (prReviews : list GitHubReview) : bool :=
  (List.length prReviews =? 0)%nat
  || forallb (fun r => ReviewState_eqb (review_state r) COMMENTED) prReviews.

(** Line 469 *)
Definition readyToMerge (prReviews : list GitHubReview) : bool :=
  (0 <? countState APPROVED prReviews)%nat
  && (countState CHANGES_REQUESTED prReviews =? 0)%nat.

Definition needingReviewEntry (pr : GitHubPullRequest) (key : option string)
    : NeedingReview :=
  {| nr_number := pr_number pr;
     nr_title := pr_title pr;
     nr_author := login (pr_user pr);
     nr_authorAvatar := avatar_url (pr_user pr);
     nr_createdAt := pr_created_at pr;
     nr_url := pr_html_url pr;
     nr_repository := repositoryOf key;
     nr_ageHours := round1 (hoursBetween now (pr_created_at pr));
     nr_isDraft := pr_draft pr |}.

Definition readyToMergeEntry (pr : GitHubPullRequest) (key : option string)
    : ReadyToMerge :=
  {| rm_number := pr_number pr;
     rm_title := pr_title pr;
     rm_author := login (pr_user pr);
     rm_authorAvatar := avatar_url (pr_user pr);
     rm_createdAt := pr_created_at pr;
     rm_url := pr_html_url pr;
     rm_repository := repositoryOf key;
     rm_approvals := countState APPROVED (reviewsOf key);
     rm_ageHours := round1 (hoursBetween now (pr_created_at pr)) |}.

(** Body of the second [pullRequests.forEach] (lines 435-482), on the
    two worklists. *)
Definition classify (lists : list NeedingReview * list ReadyToMerge)
    (pr : GitHubPullRequest) : list NeedingReview * list ReadyToMerge :=
  if negb (reviewable pr) then lists
  else
    let compositeKey := findCompositeKey (pr_number pr) in
    let prReviews := reviewsOf compositeKey in
    let needing :=
      if needsReview prReviews
      then fst lists ++ [needingReviewEntry pr compositeKey]
      else fst lists in
    let ready :=
      if readyToMerge prReviews
      then snd lists ++ [readyToMergeEntry pr compositeKey]
      else snd lists in
    (needing, ready).

Definition worklists : list NeedingReview * list ReadyToMerge :=
  fold_left classify pullRequests ([], []).

(** The loop [for (let i = 13; i >= 0; i--)] (lines 488-501). *)
Definition lastFourteen : list Z := map Z.of_nat (rev (seq 0 14)).

Definition dailyReviewData_of (daily : list (Z * DayData)) : list DailyReview :=
  map (fun i =>
         let dateStr := formatDate (daysAgo now i) in
         let dayData :=
           match assoc_get Z.eqb daily dateStr with
           | Some d => d
           | None => {| day_reviews := 0; day_times := [] |}
           end in
         {| dr_date := dateStr;
            dr_reviews := day_reviews dayData;
            dr_avgTimeHours := average (day_times dayData) |})
      lastFourteen.

(** Lines 507-514 *)
Definition topReviewers_of (stats : JsObject.t ReviewerStat) : list TopReviewer :=
  map (fun e =>
         {| username := fst e;
            reviewCount := count (snd e);
            avatarUrl := stat_avatar_url (snd e) |})
      (slice0 10
         (sort (fun a b => (count (snd b) <? count (snd a))%nat)
               (JsObject.entries stats))).

Definition Qltb (a b : Q) : bool := negb (Qle_bool b a).

Definition calculateReviewMetrics : ReviewMetrics :=
  let acc := reviewLoop in
  let lists := worklists in
  let stateDistribution :=
    {| approved := approved (acc_stateDistribution acc);
       changesRequested := changesRequested (acc_stateDistribution acc);
       commented := commented (acc_stateDistribution acc);
       pending := List.length (fst lists) |} in
  {| totalReviews := acc_totalReviews acc;
     reviewsLast7Days := acc_reviewsLast7Days acc;
     reviewsLast30Days := acc_reviewsLast30Days acc;
     averageReviewTimeHours := round2 (average (acc_reviewTimes acc));
     topReviewers := topReviewers_of (acc_reviewerStats acc);
     velocity_daily := (inject_Z (Z.of_nat (acc_reviewsLast7Days acc)) / 7)%Q;
     velocity_weekly := acc_reviewsLast7Days acc;
     velocity_monthly := acc_reviewsLast30Days acc;
     dailyReviewData := dailyReviewData_of (acc_dailyReviews acc);
     reviewStateDistribution := stateDistribution;
     prsNeedingReview :=
       slice0 20 (sort (fun a b => Qltb (nr_ageHours a) (nr_ageHours b)) (fst lists));
     prsReadyToMerge :=
       slice0 20 (sort (fun a b => Qltb (rm_ageHours a) (rm_ageHours b)) (snd lists)) |}.

End ReviewLoop.

(* ------------------------------------------------------------------ *)
(** ** Issue metrics                                                   *)
(* ------------------------------------------------------------------ *)

Record AgeDistribution : Type := {
  lessThan24h : nat;
  oneToSevenDays : nat;
  sevenToThirtyDays : nat;
  moreThanThirtyDays : nat
}.

Record DailyTriage : Type := {
  dt_date : Z;
  dt_triaged : nat;
  dt_pending : nat;
  dt_total : nat
}.

Record PendingIssue : Type := {
  pi_number : Z;
  pi_title : string;
  pi_author : string;
  pi_authorAvatar : string;
  pi_createdAt : Z;
  pi_url : string;
  pi_repository : string;
  pi_ageHours : Q;
  pi_labels : list string
}.

Record IssueMetrics : Type := {
  totalIssues : nat;
  openIssues : nat;
  closedIssues : nat;
  pendingTriage : nat;
  recentlyTriaged : nat;
  triage_daily : Q;
  triage_weekly : nat;
  ageDistribution : AgeDistribution;
  dailyTriageData : list DailyTriage;
  issuesPendingTriage : list PendingIssue
}.

(** The array literal of line 545. *)
Definition recognizedLabels : list string :=
  [ "bug"; "enhancement"; "feature"; "documentation"; "question";
    "help wanted"; "good first issue" ].

(** [[...].includes(label.name.toLowerCase())] *)
Definition isRecognized (label : Label) : bool :=
  existsb (String.eqb (Js.toLowerCase (label_name label))) recognizedLabels.

(** The predicate of [openIssues.filter] (lines 542-547). *)
Definition lacksTriage (issue : GitHubIssue) : bool :=
  (List.length (issue_labels issue) =? 0)%nat
  || negb (existsb isRecognized (issue_labels issue)).

(** Lines 567-575 *)
Definition bumpAge (d : AgeDistribution) (ageInHours : Q) : AgeDistribution :=
  if Qltb ageInHours 24 then
    {| lessThan24h := S (lessThan24h d); oneToSevenDays := oneToSevenDays d;
       sevenToThirtyDays := sevenToThirtyDays d;
       moreThanThirtyDays := moreThanThirtyDays d |}
  else if Qltb ageInHours (24 * 7) then
    {| lessThan24h := lessThan24h d; oneToSevenDays := S (oneToSevenDays d);
       sevenToThirtyDays := sevenToThirtyDays d;
       moreThanThirtyDays := moreThanThirtyDays d |}
  else if Qltb ageInHours (24 * 30) then
    {| lessThan24h := lessThan24h d; oneToSevenDays := oneToSevenDays d;
       sevenToThirtyDays := S (sevenToThirtyDays d);
       moreThanThirtyDays := moreThanThirtyDays d |}
  else
    {| lessThan24h := lessThan24h d; oneToSevenDays := oneToSevenDays d;
       sevenToThirtyDays := sevenToThirtyDays d;
       moreThanThirtyDays := S (moreThanThirtyDays d) |}.

Section IssueMetrics.
Variable now : Z.
Variable issues : list GitHubIssue.
Variable repoMap : JsObject.t string.

Definition openIssues_of : list GitHubIssue :=
  filter (fun issue => String.eqb (issue_state issue) "open") issues.

Definition closedIssues_of : list GitHubIssue :=
  filter (fun issue => String.eqb (issue_state issue) "closed") issues.

Definition pendingTriage_of : list GitHubIssue :=
  filter lacksTriage openIssues_of.

Definition recentlyTriaged_of : list GitHubIssue :=
  filter (fun issue =>
            (issue_updated_at issue >=? daysAgo now 7)
            && (0 <? List.length (issue_labels issue))%nat)
         issues.

Definition ageInHours (issue : GitHubIssue) : Q :=
  hoursBetween now (issue_created_at issue).

(** The histogram after the callback of [pendingTriage.map] has run on
    every pending issue. *)
Definition ageDistribution_of : AgeDistribution :=
  fold_left (fun d issue => bumpAge d (ageInHours issue)) pendingTriage_of
    {| lessThan24h := 0; oneToSevenDays := 0;
       sevenToThirtyDays := 0; moreThanThirtyDays := 0 |}.

(** The record the callback returns (lines 577-596); the scan of the keys
    is the one of the review aggregator, repeated. *)
Definition pendingIssueEntry (issue : GitHubIssue) : PendingIssue :=
  let compositeKey := findCompositeKey repoMap (issue_number issue) in
  {| pi_number := issue_number issue;
     pi_title := issue_title issue;
     pi_author := login (issue_user issue);
     pi_authorAvatar := avatar_url (issue_user issue);
     pi_createdAt := issue_created_at issue;
     pi_url := issue_html_url issue;
     pi_repository := repositoryOf repoMap compositeKey;
     pi_ageHours := round1 (ageInHours issue);
     pi_labels := map label_name (issue_labels issue) |}.

Definition dailyTriageData_of : list DailyTriage :=
  map (fun i =>
         let dateStr := formatDate (daysAgo now i) in
         let dayTriaged :=
           List.length
             (filter (fun issue =>
                        (formatDate (issue_updated_at issue) =? dateStr)
                        && (0 <? List.length (issue_labels issue))%nat)
                     issues) in
         let dayPending :=
           List.length
             (filter (fun issue =>
                        (formatDate (issue_created_at issue) =? dateStr)
                        && (List.length (issue_labels issue) =? 0)%nat)
                     issues) in
         {| dt_date := dateStr; dt_triaged := dayTriaged;
            dt_pending := dayPending; dt_total := dayTriaged + dayPending |})
      lastFourteen.

Definition calculateIssueMetrics : IssueMetrics :=
  {| totalIssues := List.length issues;
     openIssues := List.length openIssues_of;
     closedIssues := List.length closedIssues_of;
     pendingTriage := List.length pendingTriage_of;
     recentlyTriaged := List.length recentlyTriaged_of;
     triage_daily := (inject_Z (Z.of_nat (List.length recentlyTriaged_of)) / 7)%Q;
     triage_weekly := List.length recentlyTriaged_of;
     ageDistribution := ageDistribution_of;
     dailyTriageData := dailyTriageData_of;
     issuesPendingTriage :=
       slice0 50
         (sort (fun a b => Qltb (pi_ageHours a) (pi_ageHours b))
               (map pendingIssueEntry pendingTriage_of)) |}.

End IssueMetrics.

Record AnalyticsData : Type := {
  organization : string;
  lastUpdated : Z;
  reviewMetrics : ReviewMetrics;
  issueMetrics : IssueMetrics;
  repositories : nat
}.

(* ------------------------------------------------------------------ *)
(** ** The hosting API and the effects of a run                        *)
(* ------------------------------------------------------------------ *)

Definition ORG : string := "CircuitVerse".
Definition perPage : nat := 100.

(** The four endpoints the script calls. *)
Inductive Request : Type :=
| ReqRepos (page : nat)
| ReqPulls (owner repo : string) (page : nat)
| ReqIssues (owner repo : string) (since : Z) (page : nat)
| ReqReviews (owner repo : string) (prNumber : Z).

(** The JSON value of a successful response, after the script's cast. *)
Definition Response (r : Request) : Type :=
  match r with
  | ReqRepos _ => list Repository
  | ReqPulls _ _ _ => list GitHubPullRequest
  | ReqIssues _ _ _ _ => list GitHubIssue
  | ReqReviews _ _ _ => list GitHubReview
  end.

Inductive Reply (A : Type) : Type :=
| Ok (body : A)
| NotOk (text : string).          (* [!res.ok], or the call itself fails *)
Arguments Ok {A} body.
Arguments NotOk {A} text.

(** What the hosting service answers to each request of one run. *)
Definition GitHub : Type := forall r : Request, Reply (Response r).

(** The state of a run: the requests sent so far, and the four collections
    [generateAnalytics] accumulates. *)
Record Run : Type := {
  sent : list Request;
  allPullRequests : list GitHubPullRequest;
  allIssues : list GitHubIssue;
  allReviews : JsObject.t (list GitHubReview);
  repoMap : JsObject.t string
}.

Definition start : Run := {|
  sent := [];
  allPullRequests := [];
  allIssues := [];
  allReviews := JsObject.empty;
  repoMap := JsObject.empty
|}.

Definition send (r : Request) (s : Run) : Run := {|
  sent := sent s ++ [r];
  allPullRequests := allPullRequests s;
  allIssues := allIssues s;
  allReviews := allReviews s;
  repoMap := repoMap s
|}.

(** A computation either returns, or throws, or is still looping when the
    fuel given to its [while (true)] loops runs out.  The state reached is
    kept in the first two cases. *)
Inductive Outcome (A : Type) : Type :=
| Done (a : A) (s : Run)
| Threw (error : string) (s : Run)
| OutOfFuel.
Arguments Done {A} a s.
Arguments Threw {A} error s.
Arguments OutOfFuel {A}.

Definition M (A : Type) : Type := Run -> Outcome A.

Definition ret {A : Type} (a : A) : M A := fun s => Done a s.

Definition bind {A B : Type} (m : M A) (k : A -> M B) : M B :=
  fun s =>
    match m s with
    | Done a s' => k a s'
    | Threw e s' => Threw e s'
    | OutOfFuel => OutOfFuel
    end.

Definition outOfFuel {A : Type} : M A := fun _ => OutOfFuel.

Definition modify (f : Run -> Run) : M unit := fun s => Done tt (f s).

Definition current : M Run := fun s => Done s s.

(** [try { m } catch (error) { handler }] *)
Definition tryCatch {A : Type} (m : M A) (handler : string -> M A) : M A :=
  fun s =>
    match m s with
    | Done a s' => Done a s'
    | Threw e s' => handler e s'
    | OutOfFuel => OutOfFuel
    end.

Declare Scope run_scope.
Delimit Scope run_scope with run.
Notation "x <- m ;; k" := (bind m (fun x => k))
  (at level 61, m at next level, right associativity) : run_scope.
Notation "m ;;; k" := (bind m (fun _ => k))
  (at level 61, right associativity) : run_scope.

(** [for (const x of l) { body }] *)
Fixpoint forEach {A : Type} (l : list A) (body : A -> M unit) : M unit :=
  match l with
  | [] => ret tt
  | x :: rest => (body x ;;; forEach rest body)%run
  end.

Section Fetchers.
Variable api : GitHub.

(** [fetchFromGitHub]: throws on a response that is not ok. *)
Definition fetchFromGitHub (r : Request) : M (Response r) :=
  fun s =>
    match api r with
    | Ok body => Done body (send r s)
    | NotOk text => Threw ("GitHub API: " ++ text)%string (send r s)
    end.

(** The loop of [getRepositories], started at [page]. *)
Fixpoint getRepositories_loop (fuel : nat) (page : nat)
    (allRepos : list Repository) : M (list Repository) :=
  match fuel with
  | O => outOfFuel
  | S fuel' =>
      (repos <- fetchFromGitHub (ReqRepos page) ;;
       if (List.length repos =? 0)%nat then ret allRepos
       else
         let allRepos := allRepos ++ repos in
         if (List.length repos <? perPage)%nat then ret allRepos
         else getRepositories_loop fuel' (S page) allRepos)%run
  end.

Definition getRepositories (fuel : nat) : M (list Repository) :=
  (allRepos <- getRepositories_loop fuel 1 [] ;;
   ret (filter (fun repo => negb (repo_archived repo) && negb (repo_disabled repo))
               allRepos))%run.

(** The per-page filter of [getPullRequests]. *)
Definition keepPullRequest (since : Z) (pr : GitHubPullRequest) : bool :=
  negb (isBotUser (Some (pr_user pr))) && (pr_updated_at pr >=? since).

(** The test that ends [getPullRequests] after a page (line 269). *)
Definition lastPullRequestPage (since : Z) (prs : list GitHubPullRequest) : bool :=
  (List.length prs <? perPage)%nat
  || existsb (fun pr => pr_updated_at pr <? since) prs.

(** The loop of [getPullRequests], started at [page]. *)
Fixpoint getPullRequests_loop (fuel : nat) (owner repo : string) (since : Z)
    (page : nat) (allPrs : list GitHubPullRequest) : M (list GitHubPullRequest) :=
  match fuel with
  | O => outOfFuel
  | S fuel' =>
      (prs <- fetchFromGitHub (ReqPulls owner repo page) ;;
       if (List.length prs =? 0)%nat then ret allPrs
       else
         let filteredPrs := filter (keepPullRequest since) prs in
         let allPrs := allPrs ++ filteredPrs in
         if lastPullRequestPage since prs then ret allPrs
         else getPullRequests_loop fuel' owner repo since (S page) allPrs)%run
  end.

Definition getPullRequests (fuel : nat) (owner repo : string) (since : Z)
    : M (list GitHubPullRequest) :=
  getPullRequests_loop fuel owner repo since 1%nat [].

Definition keepIssue (since : Z) (issue : GitHubIssue) : bool :=
  negb (issue_pull_request issue)
  && negb (isBotUser (Some (issue_user issue)))
  && (issue_updated_at issue >=? since).

Fixpoint getIssues_loop (fuel : nat) (owner repo : string) (since : Z)
    (page : nat) (allIssues : list GitHubIssue) : M (list GitHubIssue) :=
  match fuel with
  | O => outOfFuel
  | S fuel' =>
      (issues <- fetchFromGitHub (ReqIssues owner repo since page) ;;
       if (List.length issues =? 0)%nat then ret allIssues
       else
         let allIssues := allIssues ++ filter (keepIssue since) issues in
         if (List.length issues <? perPage)%nat then ret allIssues
         else getIssues_loop fuel' owner repo since (S page) allIssues)%run
  end.

Definition getIssues (fuel : nat) (owner repo : string) (since : Z)
    : M (list GitHubIssue) :=
  getIssues_loop fuel owner repo since 1%nat [].

(** [getReviews]: the whole body is inside [try], the handler returns the
    empty array. *)
Definition getReviews (owner repo : string) (prNumber : Z) : M (list GitHubReview) :=
  tryCatch
    (reviews <- fetchFromGitHub (ReqReviews owner repo prNumber) ;;
     ret (filter (fun review => negb (isBotUser (review_user review))) reviews))%run
    (fun _ => ret []).

(* ---------------------------------------------------------------- *)
(** *** The orchestrator                                            *)
(* ---------------------------------------------------------------- *)

(** [`${repo.owner.login}/${repo.name}#${number}`] *)
Definition compositeKeyOf (repo : Repository) (number : Z) : string :=
  (repo_owner repo ++ "/" ++ repo_name repo ++ "#" ++ Js.toString number)%string.

Definition pushPullRequests (prs : list GitHubPullRequest) (s : Run) : Run := {|
  sent := sent s;
  allPullRequests := allPullRequests s ++ prs;
  allIssues := allIssues s;
  allReviews := allReviews s;
  repoMap := repoMap s
|}.

Definition pushIssues (issues : list GitHubIssue) (s : Run) : Run := {|
  sent := sent s;
  allPullRequests := allPullRequests s;
  allIssues := allIssues s ++ issues;
  allReviews := allReviews s;
  repoMap := repoMap s
|}.

(** [repoMap[key] = name] *)
Definition setRepoMap (key name : string) (s : Run) : Run := {|
  sent := sent s;
  allPullRequests := allPullRequests s;
  allIssues := allIssues s;
  allReviews := allReviews s;
  repoMap := JsObject.set (repoMap s) key name
|}.

(** [allReviews[key] = reviews] *)
Definition setReviews (key : string) (reviews : list GitHubReview) (s : Run) : Run := {|
  sent := sent s;
  allPullRequests := allPullRequests s;
  allIssues := allIssues s;
  allReviews := JsObject.set (allReviews s) key reviews;
  repoMap := repoMap s
|}.

(** Body of [for (const pr of recentPRs)] (lines 683-689). *)
Definition collectReviews (repo : Repository) (pr : GitHubPullRequest) : M unit :=
  (reviews <- getReviews (repo_owner repo) (repo_name repo) (pr_number pr) ;;
   if (0 <? List.length reviews)%nat
   then modify (setReviews (compositeKeyOf repo (pr_number pr)) reviews)
   else ret tt)%run.

(** Body of [for (const repo of mainRepos)] (lines 665-707). *)
Definition processRepository (fuel : nat) (since : Z) (repo : Repository) : M unit :=
  tryCatch
    (pullRequests <- getPullRequests fuel (repo_owner repo) (repo_name repo) since ;;
     modify (pushPullRequests pullRequests) ;;;
     forEach pullRequests
       (fun pr => modify (setRepoMap (compositeKeyOf repo (pr_number pr)) (repo_name repo))) ;;;
     let recentPRs := slice0 30 pullRequests in
     forEach recentPRs (collectReviews repo) ;;;
     issues <- getIssues fuel (repo_owner repo) (repo_name repo) since ;;
     modify (pushIssues issues) ;;;
     forEach issues
       (fun issue =>
          modify (setRepoMap (compositeKeyOf repo (issue_number issue)) (repo_name repo))))%run
    (fun _ => ret tt).

(** [generateAnalytics], up to the value it writes to the output file.
    An exception that reaches the outer [catch] ends the process with
    status 1: it is the [Threw] outcome.  The dates of the data being
    valid, the two aggregators return; what the script does when an
    aggregator throws on an invalid date is not part of the embedding. *)
Definition generateAnalytics (now : Z) (fuel : nat) : M AnalyticsData :=
  (repositories <- getRepositories fuel ;;
   let mainRepos := slice0 15 repositories in
   let since := daysAgo now 180 in
   forEach mainRepos (processRepository fuel since) ;;;
   s <- current ;;
   let reviewMetrics :=
     calculateReviewMetrics now (allPullRequests s) (allReviews s) (repoMap s) in
   let issueMetrics := calculateIssueMetrics now (allIssues s) (repoMap s) in
   ret {| organization := ORG;
          lastUpdated := now;
          reviewMetrics := reviewMetrics;
          issueMetrics := issueMetrics;
          repositories := List.length mainRepos |})%run.

End Fetchers.

(* ================================================================== *)
(** * Vocabulary of the properties                                    *)
(* ================================================================== *)

(** ** Classification of a pull request *)

Section Classification.
Variable allReviews : JsObject.t (list GitHubReview).
Variable repoMap : JsObject.t string.

(** The reviews the aggregator attributes to a pull request. *)
Definition resolvedReviews (pr : GitHubPullRequest) : list GitHubReview :=
  reviewsOf allReviews (findCompositeKey repoMap (pr_number pr)).

Definition classifiedNeedingReview (pr : GitHubPullRequest) : bool :=
  reviewable pr && needsReview (resolvedReviews pr).

Definition classifiedReadyToMerge (pr : GitHubPullRequest) : bool :=
  reviewable pr && readyToMerge (resolvedReviews pr).
End Classification.

(** ** The review events of the review loop *)

(** The review events the review loop counts, each with the pull request
    it is counted against, in the order of the loop. *)
Definition countedReviews (pullRequests : list GitHubPullRequest)
    (allReviews : JsObject.t (list GitHubReview)) (repoMap : JsObject.t string)
    : list (GitHubPullRequest * GitHubReview) :=
  flat_map (fun entry =>
              match owningPullRequest pullRequests repoMap (fst entry) with
              | Some pr => map (pair pr) (snd entry)
              | None => []
              end)
           (JsObject.entries allReviews).

Definition countReview (now : Z) (acc : ReviewAcc)
    (e : GitHubPullRequest * GitHubReview) : ReviewAcc :=
  processReview now (fst e) acc (snd e).

Definition eventsIn (s : ReviewState) (l : list (GitHubPullRequest * GitHubReview)) : nat :=
  List.length (filter (fun e => ReviewState_eqb (review_state (snd e)) s) l).

(** Hours from the creation of the pull request to the review, as the
    review loop computes them. *)
Definition latency (e : GitHubPullRequest * GitHubReview) : Q :=
  hoursBetween (review_submitted_at (snd e)) (pr_created_at (fst e)).

(** The counted reviews submitted on a day. *)
Definition onDay (day : Z) (l : list (GitHubPullRequest * GitHubReview))
    : list (GitHubPullRequest * GitHubReview) :=
  filter (fun e => formatDate (review_submitted_at (snd e)) =? day) l.

Definition dayOf (daily : list (Z * DayData)) (day : Z) : DayData :=
  match assoc_get Z.eqb daily day with
  | Some d => d
  | None => {| day_reviews := 0; day_times := [] |}
  end.

(** ** Labels and ages *)

(** Two characters are the same up to case: they are equal, or one is an
    upper-case ASCII letter and the other the lower-case letter 32 places
    after it. *)
Definition sameLetter (a b : ascii) : bool :=
  let x := nat_of_ascii a in
  let y := nat_of_ascii b in
  ((x =? y) || ((65 <=? x) && (x <=? 90) && (y =? x + 32))
   || ((65 <=? y) && (y <=? 90) && (x =? y + 32)))%nat.

(** Two label names are the same when compared case-insensitively. *)
Fixpoint equalIgnoringCase (a b : string) : bool :=
  match a, b with
  | EmptyString, EmptyString => true
  | String x a', String y b' => sameLetter x y && equalIgnoringCase a' b'
  | _, _ => false
  end.

(** The 256 characters. *)
Definition allAscii : list ascii := map ascii_of_nat (seq 0 256).

(** A character that is not an upper-case ASCII letter, and a string of
    such characters. *)
Definition noUpper (c : ascii) : bool :=
  negb ((65 <=? nat_of_ascii c) && (nat_of_ascii c <=? 90))%nat.

Fixpoint noUpperCase (s : string) : bool :=
  match s with
  | EmptyString => true
  | String c rest => noUpper c && noUpperCase rest
  end.

(** The half-open range [lo <= a < hi]; a bound that is [None] is absent. *)
Definition inRange (lo hi : option Q) (a : Q) : bool :=
  match lo with Some l => Qle_bool l a | None => true end
  && match hi with Some h => negb (Qle_bool h a) | None => true end.

Definition countIn (lo hi : option Q) (ages : list Q) : nat :=
  List.length (filter (inRange lo hi) ages).

Definition zeroAges : AgeDistribution :=
  {| lessThan24h := 0; oneToSevenDays := 0;
     sevenToThirtyDays := 0; moreThanThirtyDays := 0 |}.

(** ** Requests *)

(** The state after a sequence of requests. *)
Definition sendAll (rs : list Request) (s : Run) : Run :=
  fold_left (fun s r => send r s) rs s.

(** ** Ranking *)

Definition higher {A : Type} (key : A -> nat) (a b : A) : bool :=
  (key b <? key a)%nat.

Definition notBelow {A : Type} (key : A -> nat) (a b : A) : Prop :=
  (key b <= key a)%nat.

(** The distinct elements of a list, each at the place of its first
    occurrence. *)
Definition firstSeen (l : list string) : list string :=
  rev (nodup string_dec (rev l)).


(** The users of the reviews, in the order of the review loop. *)
Definition reviewers (l : list (GitHubPullRequest * GitHubReview)) : list GitHubUser :=
  flat_map (fun e => match review_user (snd e) with Some u => [u] | None => [] end) l.








(** ** Specifications of computations *)

(** The four collections of a run, without the log of requests. *)
Definition collections (s : Run)
    : list GitHubPullRequest * list GitHubIssue
      * JsObject.t (list GitHubReview) * JsObject.t string :=
  (allPullRequests s, allIssues s, allReviews s, repoMap s).

(** From a state that satisfies [P], the computation returns a value and
    a state that satisfy [Q], or throws in a state that satisfies [E]. *)
Definition triple {A : Type} (P : Run -> Prop) (m : M A)
    (Q : A -> Run -> Prop) (E : Run -> Prop) : Prop :=
  forall s, P s ->
    match m s with
    | Done a s' => Q a s'
    | Threw _ s' => E s'
    | OutOfFuel => True
    end.

(** The collections of the state are [c]. *)
Definition untouched
    (c : list GitHubPullRequest * list GitHubIssue
         * JsObject.t (list GitHubReview) * JsObject.t string)
    (s : Run) : Prop :=
  collections s = c.

(** The filters of the fetchers, as properties. *)
Definition activeRepository (repo : Repository) : bool :=
  negb (repo_archived repo) && negb (repo_disabled repo).

(** The dates of the two daily series: the fourteen days that end with the
    day of the run, oldest first. *)
Definition fourteenDays (now : Z) : list Z :=
  map (fun k => formatDate now - 13 + Z.of_nat k) (seq 0 14).

(** The number of issues in the four age buckets. *)
Definition bucketsTotal (d : AgeDistribution) : nat :=
  lessThan24h d + oneToSevenDays d + sevenToThirtyDays d + moreThanThirtyDays d.

(** ** Names and keys *)

(** The character occurs in the string. *)
Fixpoint hasChar (c : ascii) (s : string) : bool :=
  match s with
  | EmptyString => false
  | String x rest => Ascii.eqb x c || hasChar c rest
  end.

(** A name that is not empty and holds neither ['#'] nor ['/'], as the
    names of accounts and repositories are. *)
Definition plainName (name : string) : Prop :=
  name <> "" /\ hasChar "#" name = false /\ hasChar "/" name = false.

Definition plainRepository (repo : Repository) : Prop :=
  plainName (repo_owner repo) /\ plainName (repo_name repo).

(** The service lists the repository on some page. *)
Definition listed (api : GitHub) (repo : Repository) : Prop :=
  exists page repos, api (ReqRepos page) = Ok repos /\ In repo repos.

(** The numbers of the pull requests and of the issues that the service
    returns are safe integers. *)
Definition safeNumbers (api : GitHub) : Prop :=
  (forall owner repo page prs,
      api (ReqPulls owner repo page) = Ok prs ->
      Forall (fun pr => Js.safeInteger (pr_number pr)) prs)
  /\ (forall owner repo since page issues,
        api (ReqIssues owner repo since page) = Ok issues ->
        Forall (fun issue => Js.safeInteger (issue_number issue)) issues).

(** ** The collections of a run *)

(** The repository map holds some name under the key. *)
Definition keyPresent (s : Run) (key : string) : Prop :=
  exists name, In (key, name) (repoMap s).

Section WellKeyed.
Variable api : GitHub.

(** The key is the key of an item of a listed repository, and the name is
    the name of that repository. *)
Definition keyOfListed (key name : string) : Prop :=
  exists repo n, listed api repo /\ key = compositeKeyOf repo n /\ name = repo_name repo.

(** The repository map holds the key of item [number] of some listed
    repository. *)
Definition hasKey (s : Run) (number : Z) : Prop :=
  exists repo, listed api repo /\ keyPresent s (compositeKeyOf repo number).

(** The state of the collections between two steps of the orchestrator;
    [pending] lists the numbers of the items that were pushed and whose key
    is not written yet. *)
Definition wellKeyedBut (pending : list Z) (s : Run) : Prop :=
  (forall key name, In (key, name) (repoMap s) -> keyOfListed key name)
  /\ (forall pr, In pr (allPullRequests s) ->
        In (pr_number pr) pending \/ hasKey s (pr_number pr))
  /\ (forall issue, In issue (allIssues s) ->
        In (issue_number issue) pending \/ hasKey s (issue_number issue))
  /\ (forall key reviews, In (key, reviews) (allReviews s) ->
        reviews <> []
        /\ Forall (fun r => isBotUser (review_user r) = false) reviews
        /\ keyPresent s key
        /\ exists repo pr, listed api repo
                           /\ key = compositeKeyOf repo (pr_number pr)
                           /\ In pr (allPullRequests s)).

Definition wellKeyed (s : Run) : Prop := wellKeyedBut [] s.

(** What holds while the reviews of the pull requests [prs] of [repo] are
    fetched: the keys of [prs] are written and [prs] are collected. *)
Definition fetchingReviews (repo : Repository) (prs : list GitHubPullRequest)
    (s : Run) : Prop :=
  wellKeyed s
  /\ Forall (keyPresent s) ([] ++ map (fun pr => compositeKeyOf repo (pr_number pr)) prs)
  /\ (forall pr, In pr prs -> In pr (allPullRequests s)).
End WellKeyed.

(** ** The requests of a run *)

(** From page [n] on, every list request is answered with an error or with
    a page that is not full. *)
Definition pagesEndBy (api : GitHub) (n : nat) : Prop :=
  forall page, (n <= page)%nat ->
    (forall repos, api (ReqRepos page) = Ok repos -> (List.length repos < perPage)%nat)
    /\ (forall owner repo prs,
          api (ReqPulls owner repo page) = Ok prs -> (List.length prs < perPage)%nat)
    /\ (forall owner repo since issues,
          api (ReqIssues owner repo since page) = Ok issues ->
          (List.length issues < perPage)%nat).

(** [m1] ends in every state, and [m2] does as [m1]. *)
Definition settled {A : Type} (m1 m2 : M A) : Prop :=
  forall s, m1 s <> OutOfFuel /\ m2 s = m1 s.

(** The requests for the reviews of a pull request among those sent. *)
Definition isReviewRequest (r : Request) : bool :=
  match r with
  | ReqReviews _ _ _ => true
  | _ => false
  end.

Definition reviewRequests (s : Run) : nat :=
  List.length (filter isReviewRequest (sent s)).

(** The repository of the request is one the service listed as neither
    archived nor disabled. *)
Definition ofActiveRepository (api : GitHub) (owner name : string) : Prop :=
  exists repo, listed api repo /\ activeRepository repo = true
               /\ owner = repo_owner repo /\ name = repo_name repo.

(** What a run at [now] may ask the service. *)
Definition expected (api : GitHub) (now : Z) (r : Request) : Prop :=
  match r with
  | ReqRepos _ => True
  | ReqPulls owner name _ => ofActiveRepository api owner name
  | ReqIssues owner name since _ =>
      ofActiveRepository api owner name /\ since = daysAgo now 180
  | ReqReviews owner name _ => ofActiveRepository api owner name
  end.

(** ** Concrete runs *)

Module Sample.

Definition now : Z := 1700000000000.

Definition user (name : string) : GitHubUser :=
  {| login := name;
     avatar_url := ("https://avatars.example/" ++ name)%string;
     user_type := Some "User" |}.

(** A pull request of repository [repo], created [age] hours ago. *)
Definition pull (repo : string) (number : Z) (state : string)
    (merged : option Z) (age : Z) : GitHubPullRequest :=
  {| pr_number := number;
     pr_title := "Update";
     pr_user := user "alice";
     pr_created_at := now - age * msPerHour;
     pr_updated_at := now - msPerHour;
     pr_merged_at := merged;
     pr_state := state;
     pr_html_url :=
       ("https://github.com/CircuitVerse/" ++ repo ++ "/pull/" ++ Js.toString number)%string;
     pr_draft := false |}.

Definition review (id : Z) (reviewer : string) (state : ReviewState) (submitted : Z)
    : GitHubReview :=
  {| review_id := id;
     review_user := Some (user reviewer);
     review_state := state;
     review_submitted_at := submitted;
     review_pull_request_url := "" |}.

Definition issue (number : Z) (state : string) (labels : list string) (age : Z)
    : GitHubIssue :=
  {| issue_number := number;
     issue_title := "Report";
     issue_user := user "carol";
     issue_created_at := now - age * msPerHour;
     issue_updated_at := now - msPerHour;
     issue_closed_at := None;
     issue_state := state;
     issue_html_url := "";
     issue_labels := map (fun n => {| label_name := n; label_color := "ededed" |}) labels;
     issue_pull_request := false |}.

Definition repository (name : string) : Repository :=
  {| repo_name := name; repo_owner := ORG;
     repo_archived := false; repo_disabled := false |}.

(** Repository [A] has one merged pull request, number 1, with one
    approval.  Repository [B] has one open pull request, also number 1,
    that nobody reviewed. *)
Definition mergedA1 : GitHubPullRequest := pull "A" 1 "closed" (Some (now - msPerDay)) 72.
Definition openB1 : GitHubPullRequest := pull "B" 1 "open" None 48.
Definition approvalA1 : GitHubReview := review 900 "bob" APPROVED (now - 2 * msPerDay).

Definition twoRepositories : GitHub := fun r =>
  match r as r0 return Reply (Response r0) with
  | ReqRepos 1%nat => Ok [repository "A"; repository "B"]
  | ReqRepos _ => Ok []
  | ReqPulls _ repo 1%nat =>
      if String.eqb repo "A" then Ok [mergedA1]
      else if String.eqb repo "B" then Ok [openB1]
      else Ok []
  | ReqPulls _ _ _ => Ok []
  | ReqIssues _ _ _ _ => Ok []
  | ReqReviews _ repo n =>
      if String.eqb repo "A" && (n =? 1) then Ok [approvalA1] else Ok []
  end.

(** Repository [B] now has 31 open pull requests, numbers 31 down to 1 in
    the order of the response; number 1 is the 31st. *)
Definition thirtyOneInB : list GitHubPullRequest :=
  map (fun k => pull "B" (Z.of_nat k) "open" None (Z.of_nat (100 - k))) (rev (seq 1 31)).

Definition crowdedB : GitHub := fun r =>
  match r as r0 return Reply (Response r0) with
  | ReqRepos 1%nat => Ok [repository "A"; repository "B"]
  | ReqRepos _ => Ok []
  | ReqPulls _ repo 1%nat =>
      if String.eqb repo "A" then Ok [mergedA1]
      else if String.eqb repo "B" then Ok thirtyOneInB
      else Ok []
  | ReqPulls _ _ _ => Ok []
  | ReqIssues _ _ _ _ => Ok []
  | ReqReviews _ repo n =>
      if String.eqb repo "A" && (n =? 1) then Ok [approvalA1] else Ok []
  end.

(** What a run publishes and the state it ends in. *)
Definition published (api : GitHub) : option (AnalyticsData * Run) :=
  match generateAnalytics api now 5 start with
  | Done data s => Some (data, s)
  | _ => None
  end.

End Sample.

Module Scenario.
Import Sample.

Definition since : Z := daysAgo now 180.

Definition fresh : GitHubPullRequest := pull "A" 7 "open" None 48.

(** Updated 200 days ago. *)
Definition stale : GitHubPullRequest :=
  {| pr_number := 3; pr_title := "Old"; pr_user := user "alice";
     pr_created_at := now - 300 * msPerDay;
     pr_updated_at := now - 200 * msPerDay;
     pr_merged_at := None; pr_state := "open";
     pr_html_url := ""; pr_draft := false |}.

Definition fullPage : list GitHubPullRequest := repeat fresh 100.

(** A full page whose last pull request is older than the cutoff. *)
Definition fullPageWithStale : list GitHubPullRequest := repeat fresh 99 ++ [stale].

(** The third page is never answered. *)
Definition paged : GitHub := fun r =>
  match r as r0 return Reply (Response r0) with
  | ReqPulls _ _ 1%nat => Ok fullPage
  | ReqPulls _ _ 2%nat => Ok fullPageWithStale
  | ReqPulls _ _ _ => NotOk "no such page"
  | ReqRepos _ => Ok []
  | ReqIssues _ _ _ _ => Ok []
  | ReqReviews _ _ _ => Ok []
  end.

Definition reviewed : GitHubPullRequest := pull "A" 1 "open" None 48.

Definition repeated (reviewer : string) (n : nat) : list GitHubReview :=
  repeat (review 1 reviewer COMMENTED (now - msPerHour)) n.

(** Thirteen reviews of one pull request: five by [bob], who is seen
    first, five by [ann] and three by [cy]. *)
Definition thirteen : list GitHubReview :=
  repeated "bob" 1 ++ repeated "ann" 5 ++ repeated "cy" 3 ++ repeated "bob" 4.

Definition reviewsOfA1 : JsObject.t (list GitHubReview) :=
  JsObject.set JsObject.empty "CircuitVerse/A#1" thirteen.

Definition mapOfA1 : JsObject.t string :=
  JsObject.set JsObject.empty "CircuitVerse/A#1" "A".

End Scenario.

Module Case.
Import Sample.

(** Two pages of repositories: a full page, then an active and an
    archived repository. *)
Definition hundredRepositories : list Repository := repeat (repository "A") 100.

Definition archived : Repository :=
  {| repo_name := "old"; repo_owner := ORG; repo_archived := true; repo_disabled := false |}.

Definition lastRepositories : list Repository := [repository "B"; archived].

(** A full page of issues whose last two entries are an issue older than
    the cutoff and a pull request, then a page of one issue. *)
Definition staleIssue : GitHubIssue :=
  {| issue_number := 2; issue_title := "Old"; issue_user := user "carol";
     issue_created_at := now - 300 * msPerDay;
     issue_updated_at := now - 200 * msPerDay;
     issue_closed_at := None; issue_state := "open"; issue_html_url := "";
     issue_labels := []; issue_pull_request := false |}.

Definition pullRequestAsIssue : GitHubIssue :=
  {| issue_number := 3; issue_title := "Update"; issue_user := user "alice";
     issue_created_at := now - msPerDay;
     issue_updated_at := now - msPerHour;
     issue_closed_at := None; issue_state := "open"; issue_html_url := "";
     issue_labels := []; issue_pull_request := true |}.

Definition fullPageOfIssues : list GitHubIssue :=
  repeat (issue 1 "open" ["bug"] 5) 98 ++ [staleIssue; pullRequestAsIssue].

Definition lastPageOfIssues : list GitHubIssue := [issue 4 "open" [] 5].

Definition paged : GitHub := fun r =>
  match r as r0 return Reply (Response r0) with
  | ReqRepos 1%nat => Ok hundredRepositories
  | ReqRepos 2%nat => Ok lastRepositories
  | ReqRepos _ => NotOk "no such page"
  | ReqIssues _ _ _ 1%nat => Ok fullPageOfIssues
  | ReqIssues _ _ _ 2%nat => Ok lastPageOfIssues
  | ReqIssues _ _ _ _ => NotOk "no such page"
  | ReqPulls _ _ 1%nat => Ok Scenario.fullPage
  | ReqPulls _ _ _ => NotOk "Bad Gateway"
  | ReqReviews _ _ _ => Ok []
  end.

(** Pull requests cannot be fetched. *)
Definition pullsDown : GitHub := fun r =>
  match r as r0 return Reply (Response r0) with
  | ReqRepos 1%nat => Ok [repository "B"]
  | ReqRepos _ => Ok []
  | ReqPulls _ _ _ => NotOk "Service Unavailable"
  | ReqIssues _ _ _ _ => Ok []
  | ReqReviews _ _ _ => Ok []
  end.

(** Issues cannot be fetched. *)
Definition issuesDown : GitHub := fun r =>
  match r as r0 return Reply (Response r0) with
  | ReqRepos 1%nat => Ok [repository "B"]
  | ReqRepos _ => Ok []
  | ReqPulls _ _ 1%nat => Ok [openB1]
  | ReqPulls _ _ _ => Ok []
  | ReqIssues _ _ _ _ => NotOk "Service Unavailable"
  | ReqReviews _ _ _ => Ok []
  end.

(** Two repositories with pull requests, reviews and issues of distinct
    numbers: pull request 1 of [A] is approved, pull requests 2 of [A] and
    3 of [B] have no review; issues 4 of [A] and 6 of [B] lack a recognised
    label. *)
Definition busy : GitHub := fun r =>
  match r as r0 return Reply (Response r0) with
  | ReqRepos 1%nat => Ok [repository "A"; repository "B"]
  | ReqRepos _ => Ok []
  | ReqPulls _ repo 1%nat =>
      if String.eqb repo "A"
      then Ok [pull "A" 1 "open" None 48; pull "A" 2 "open" None 24]
      else Ok [pull "B" 3 "open" None 12]
  | ReqPulls _ _ _ => Ok []
  | ReqIssues _ repo _ 1%nat =>
      if String.eqb repo "A"
      then Ok [issue 4 "open" [] 5; issue 5 "open" ["bug"] 6]
      else Ok [issue 6 "open" ["wontfix"] 7]
  | ReqIssues _ _ _ _ => Ok []
  | ReqReviews _ _ n =>
      if n =? 1 then Ok [review 900 "bob" APPROVED (now - msPerDay)] else Ok []
  end.

(** A repository map with the keys of three items of two repositories,
    and two pull requests numbered 12. *)
Definition keyed : JsObject.t string :=
  JsObject.set
    (JsObject.set (JsObject.set JsObject.empty "CircuitVerse/A#1" "A")
                  "CircuitVerse/B#12" "B")
    "CircuitVerse/A#12" "A".

Definition twelves : list GitHubPullRequest :=
  [pull "A" 1 "open" None 48; pull "B" 12 "open" None 24; pull "A" 12 "open" None 12].

(** Repositories [A] and [B] each have an open pull request number 1, of
    [A] created 100 hours ago and of [B] created 10 hours ago.  The only
    review is a review of the pull request of [B], submitted 30 hours ago:
    20 hours before the creation of its pull request. *)
Definition olderA1 : GitHubPullRequest := pull "A" 1 "open" None 100.
Definition lateB1 : GitHubPullRequest := pull "B" 1 "open" None 10.
Definition earlyReview : GitHubReview := review 901 "bob" APPROVED (now - 30 * msPerHour).

Definition earlyReviewInB : GitHub := fun r =>
  match r as r0 return Reply (Response r0) with
  | ReqRepos 1%nat => Ok [repository "A"; repository "B"]
  | ReqRepos _ => Ok []
  | ReqPulls _ repo 1%nat =>
      if String.eqb repo "A" then Ok [olderA1]
      else if String.eqb repo "B" then Ok [lateB1]
      else Ok []
  | ReqPulls _ _ _ => Ok []
  | ReqIssues _ _ _ _ => Ok []
  | ReqReviews _ repo n =>
      if String.eqb repo "B" && (n =? 1) then Ok [earlyReview] else Ok []
  end.

End Case.

(* ================================================================== *)
(** * Properties                                                      *)
(* ================================================================== *)

(** ** The primitives on examples *)

Example split_key : Js.split "#" "org/repo#12" = ["org/repo"; "12"].
Proof. reflexivity. Qed.

Example split_empty : Js.split "#" "" = [""].
Proof. reflexivity. Qed.

Example parseInt_prefix : Js.parseInt "12abc" = Some 12.
Proof. reflexivity. Qed.

Example parseInt_nan : Js.parseInt "abc" = None.
Proof. reflexivity. Qed.

Example toString_ex : Js.toString 1205 = "1205" /\ Js.toString 0 = "0" /\ Js.toString 9 = "9".
Proof. repeat split; reflexivity. Qed.

Example arrayIndex_ex :
  Js.arrayIndex "7" = Some 7 /\ Js.arrayIndex "07" = None
  /\ Js.arrayIndex "zed" = None /\ Js.arrayIndex "4294967295" = None.
Proof. repeat split; reflexivity. Qed.

Example entries_order :
  JsObject.keys (JsObject.set (JsObject.set (JsObject.set JsObject.empty "zed" 1) "10" 2) "7" 3)
  = ["7"; "10"; "zed"].
Proof. reflexivity. Qed.

Example isBotUser_ex :
  isBotUser (Some {| login := "dependabot[bot]"; avatar_url := ""; user_type := Some "Bot" |}) = true
  /\ isBotUser (Some {| login := "alice"; avatar_url := ""; user_type := Some "User" |}) = false
  /\ isBotUser (Some {| login := "renovate[bot]"; avatar_url := ""; user_type := None |}) = true
  /\ isBotUser None = true.
Proof. repeat split; reflexivity. Qed.

Example firstSeen_ex : firstSeen ["bob"; "ann"; "bob"; "cy"; "ann"] = ["bob"; "ann"; "cy"].
Proof. reflexivity. Qed.

(** ** Sorting and slicing *)

Section SortFacts.
Context {A : Type}.
Variable before : A -> A -> bool.

Lemma insert_length (x : A) (l : list A) :
  List.length (insert before x l) = S (List.length l).
Proof.
  induction l as [|y l IH]; simpl; [reflexivity|].
  destruct (before y x); simpl; [rewrite IH|]; reflexivity.
Qed.

Lemma sort_length (l : list A) : List.length (sort before l) = List.length l.
Proof.
  induction l as [|x l IH]; simpl; [reflexivity|].
  rewrite insert_length, IH. reflexivity.
Qed.

Lemma insert_perm (x : A) (l : list A) : Permutation (x :: l) (insert before x l).
Proof.
  induction l as [|y l IH]; simpl; [apply Permutation_refl|].
  destruct (before y x); [|apply Permutation_refl].
  eapply Permutation_trans; [apply perm_swap|].
  apply perm_skip, IH.
Qed.

Lemma sort_perm (l : list A) : Permutation l (sort before l).
Proof.
  induction l as [|x l IH]; simpl; [apply perm_nil|].
  eapply Permutation_trans; [apply perm_skip, IH|apply insert_perm].
Qed.

Lemma In_sort (x : A) (l : list A) : In x (sort before l) <-> In x l.
Proof.
  split; apply Permutation_in;
    [apply Permutation_sym|]; apply sort_perm.
Qed.

Lemma In_slice0_sort (n : nat) (x : A) (l : list A) :
  In x (slice0 n (sort before l)) -> In x l.
Proof.
  intros H. apply In_sort. unfold slice0 in H.
  rewrite <- (firstn_skipn n (sort before l)).
  apply in_or_app. left. exact H.
Qed.

Lemma slice0_sort_length (n : nat) (l : list A) :
  List.length (slice0 n (sort before l)) = Nat.min n (List.length l).
Proof.
  unfold slice0. rewrite length_firstn, sort_length. reflexivity.
Qed.
End SortFacts.

(** ** The two worklists *)

Section WorklistFacts.
Variable now : Z.
Variable allReviews : JsObject.t (list GitHubReview).
Variable repoMap : JsObject.t string.

Lemma classify_fold (prs : list GitHubPullRequest) lists :
  fold_left (classify now allReviews repoMap) prs lists =
  (fst lists ++
     map (fun pr => needingReviewEntry now repoMap pr
                      (findCompositeKey repoMap (pr_number pr)))
         (filter (classifiedNeedingReview allReviews repoMap) prs),
   snd lists ++
     map (fun pr => readyToMergeEntry now allReviews repoMap pr
                      (findCompositeKey repoMap (pr_number pr)))
         (filter (classifiedReadyToMerge allReviews repoMap) prs)).
Proof.
  revert lists. induction prs as [|pr prs IH]; intros [needing ready]; simpl.
  - rewrite !app_nil_r. reflexivity.
  - rewrite IH. unfold classify, classifiedNeedingReview, classifiedReadyToMerge,
      resolvedReviews. simpl.
    destruct (reviewable pr); simpl; [|reflexivity].
    destruct (needsReview _), (readyToMerge _); simpl;
      rewrite <- ?app_assoc; reflexivity.
Qed.

Lemma worklists_eq (prs : list GitHubPullRequest) :
  worklists now prs allReviews repoMap =
  (map (fun pr => needingReviewEntry now repoMap pr
                    (findCompositeKey repoMap (pr_number pr)))
       (filter (classifiedNeedingReview allReviews repoMap) prs),
   map (fun pr => readyToMergeEntry now allReviews repoMap pr
                    (findCompositeKey repoMap (pr_number pr)))
       (filter (classifiedReadyToMerge allReviews repoMap) prs)).
Proof. unfold worklists. rewrite classify_fold. reflexivity. Qed.
End WorklistFacts.

Lemma needsReview_no_approval (reviews : list GitHubReview) :
  needsReview reviews = true -> countState APPROVED reviews = 0%nat.
Proof.
  unfold needsReview, countState. intros H.
  apply orb_true_iff in H. destruct H as [H|H].
  - destruct reviews; [reflexivity|discriminate].
  - induction reviews as [|r rs IH]; simpl in *; [reflexivity|].
    apply andb_true_iff in H. destruct H as [Hr Hrs].
    destruct (review_state r); simpl in *; try discriminate.
    apply IH, Hrs.
Qed.

Lemma needs_ready_exclusive (reviews : list GitHubReview) :
  needsReview reviews && readyToMerge reviews = false.
Proof.
  destruct (needsReview reviews) eqn:Hn; simpl; [|reflexivity].
  unfold readyToMerge. rewrite (needsReview_no_approval _ Hn). reflexivity.
Qed.

(** C3.  The predicate "needing review" and the predicate "ready to merge"
    are never both true of the review list resolved for a pull request,
    and no pull request has an entry in both published worklists: an entry
    of [prsNeedingReview] and an entry of [prsReadyToMerge] never carry
    the same pull-request number, and no pull request contributes its entry
    to both. *)
Theorem worklists_never_conflict
    (now : Z) (pullRequests : list GitHubPullRequest)
    (allReviews : JsObject.t (list GitHubReview)) (repoMap : JsObject.t string) :
  let m := calculateReviewMetrics now pullRequests allReviews repoMap in
  (forall pr, classifiedNeedingReview allReviews repoMap pr
              && classifiedReadyToMerge allReviews repoMap pr = false)
  /\ (forall a b, In a (prsNeedingReview m) -> In b (prsReadyToMerge m) ->
                  nr_number a <> rm_number b)
  /\ (forall pr key,
        ~ (In (needingReviewEntry now repoMap pr key) (prsNeedingReview m)
           /\ In (readyToMergeEntry now allReviews repoMap pr key) (prsReadyToMerge m))).
Proof.
  intros m.
  assert (Hex : forall pr, classifiedNeedingReview allReviews repoMap pr
                           && classifiedReadyToMerge allReviews repoMap pr = false).
  { intros pr. unfold classifiedNeedingReview, classifiedReadyToMerge.
    destruct (reviewable pr); simpl; [apply needs_ready_exclusive|reflexivity]. }
  assert (Hnum : forall a b, In a (prsNeedingReview m) -> In b (prsReadyToMerge m) ->
                             nr_number a <> rm_number b).
  { intros a b Ha Hb Heq. subst m. unfold calculateReviewMetrics in Ha, Hb.
    cbn [prsNeedingReview prsReadyToMerge] in Ha, Hb.
    apply In_slice0_sort in Ha. apply In_slice0_sort in Hb.
    rewrite worklists_eq in Ha, Hb. cbn [fst snd] in Ha, Hb.
    apply in_map_iff in Ha. destruct Ha as [p [Hp Ha]].
    apply in_map_iff in Hb. destruct Hb as [q [Hq Hb]].
    apply filter_In in Ha. destruct Ha as [_ Ha].
    apply filter_In in Hb. destruct Hb as [_ Hb].
    subst a b. simpl in Heq.
    unfold classifiedNeedingReview, classifiedReadyToMerge, resolvedReviews in Ha, Hb.
    rewrite <- Heq in Hb.
    apply andb_true_iff in Ha. destruct Ha as [_ Ha].
    apply andb_true_iff in Hb. destruct Hb as [_ Hb].
    pose proof (needs_ready_exclusive
                  (reviewsOf allReviews (findCompositeKey repoMap (pr_number p)))) as E.
    rewrite Ha, Hb in E. discriminate. }
  split; [exact Hex|]. split; [exact Hnum|].
  intros pr key [Ha Hb]. exact (Hnum _ _ Ha Hb eq_refl).
Qed.

(** ** The review fetcher *)

(** C7.  [getReviews] always returns: with the non-bot reviews when the
    call succeeds and with the empty list when it fails.  The loop of the
    orchestrator that fetches the reviews of the recent pull requests
    therefore always runs to its end, whatever the service answers. *)
Theorem getReviews_never_throws (api : GitHub) (owner repo : string) (prNumber : Z)
    (s : Run) :
  getReviews api owner repo prNumber s =
    Done (match api (ReqReviews owner repo prNumber) with
          | Ok reviews =>
              filter (fun review => negb (isBotUser (review_user review))) reviews
          | NotOk _ => []
          end)
         (send (ReqReviews owner repo prNumber) s)
  /\ (forall (r : Repository) (recentPRs : list GitHubPullRequest),
        exists s', forEach recentPRs (collectReviews api r) s = Done tt s').
Proof.
  assert (H : forall o r n s0,
             getReviews api o r n s0 =
             Done (match api (ReqReviews o r n) with
                   | Ok reviews =>
                       filter (fun review => negb (isBotUser (review_user review))) reviews
                   | NotOk _ => []
                   end)
                  (send (ReqReviews o r n) s0)).
  { intros o r n s0. unfold getReviews, tryCatch, bind, fetchFromGitHub, ret.
    destruct (api (ReqReviews o r n)); reflexivity. }
  split; [apply H|].
  intros r recentPRs. revert s.
  induction recentPRs as [|pr prs IH]; intros s; simpl.
  - eexists. reflexivity.
  - unfold bind at 1. unfold collectReviews at 1. unfold bind at 1.
    rewrite H.
    destruct (0 <? List.length _)%nat; unfold modify, ret; apply IH.
Qed.

(** ** The state distribution *)

Section Counted.
Variable pullRequests : list GitHubPullRequest.
Variable allReviews : JsObject.t (list GitHubReview).
Variable repoMap : JsObject.t string.
Variable now : Z.

Lemma processEntry_counted (entries : list (string * list GitHubReview)) acc :
  fold_left (processEntry now pullRequests repoMap) entries acc =
  fold_left (countReview now)
    (flat_map (fun entry =>
                 match owningPullRequest pullRequests repoMap (fst entry) with
                 | Some pr => map (pair pr) (snd entry)
                 | None => []
                 end) entries)
    acc.
Proof.
  revert acc. induction entries as [|e es IH]; intros acc; simpl; [reflexivity|].
  rewrite fold_left_app, IH. f_equal.
  unfold processEntry. destruct (owningPullRequest _ _ _); [|reflexivity].
  generalize (snd e) acc. intros rs. induction rs as [|r rs IHr]; intros a; simpl;
    [reflexivity|apply IHr].
Qed.

Lemma reviewLoop_counted :
  reviewLoop now pullRequests allReviews repoMap =
  fold_left (countReview now) (countedReviews pullRequests allReviews repoMap) emptyAcc.
Proof. apply processEntry_counted. Qed.

Lemma countReview_states (l : list (GitHubPullRequest * GitHubReview)) acc :
  let d := acc_stateDistribution acc in
  let d' := acc_stateDistribution (fold_left (countReview now) l acc) in
  approved d' = (approved d + eventsIn APPROVED l)%nat
  /\ changesRequested d' = (changesRequested d + eventsIn CHANGES_REQUESTED l)%nat
  /\ commented d' = (commented d + eventsIn COMMENTED l)%nat
  /\ acc_totalReviews (fold_left (countReview now) l acc)
     = (acc_totalReviews acc + List.length l)%nat.
Proof.
  revert acc. induction l as [|[pr r] l IH]; intros acc; simpl.
  - unfold eventsIn; simpl. repeat split; lia.
  - specialize (IH (countReview now acc (pr, r))).
    simpl in IH. destruct IH as (Ha & Hc & Hm & Ht).
    rewrite Ha, Hc, Hm, Ht. unfold eventsIn, countReview. simpl.
    destruct (review_state r); simpl; repeat split; lia.
Qed.
End Counted.

(** C4.  The [pending] bucket is the number of pull requests classified as
    needing review, counted on the whole worklist; the published worklist
    keeps at most 20 of them.  The three other buckets count the review
    events of the review loop. *)
Theorem pending_counts_pull_requests
    (now : Z) (pullRequests : list GitHubPullRequest)
    (allReviews : JsObject.t (list GitHubReview)) (repoMap : JsObject.t string) :
  let m := calculateReviewMetrics now pullRequests allReviews repoMap in
  let d := reviewStateDistribution m in
  let events := countedReviews pullRequests allReviews repoMap in
  pending d
    = List.length (filter (classifiedNeedingReview allReviews repoMap) pullRequests)
  /\ List.length (prsNeedingReview m) = Nat.min 20 (pending d)
  /\ approved d = eventsIn APPROVED events
  /\ changesRequested d = eventsIn CHANGES_REQUESTED events
  /\ commented d = eventsIn COMMENTED events.
Proof.
  intros m d events. subst d m. unfold calculateReviewMetrics.
  cbn [reviewStateDistribution prsNeedingReview pending approved changesRequested commented].
  rewrite slice0_sort_length, worklists_eq. cbn [fst]. rewrite length_map.
  split; [reflexivity|]. split; [reflexivity|].
  rewrite reviewLoop_counted.
  pose proof (countReview_states now
                (countedReviews pullRequests allReviews repoMap) emptyAcc) as H.
  cbn zeta in H. destruct H as (Ha & Hc & Hm & _). fold events in Ha, Hc, Hm |- *.
  rewrite Ha, Hc, Hm. simpl. repeat split; reflexivity.
Qed.

(** ** Pending triage *)

Lemma every_ascii (P : ascii -> bool) :
  forallb P allAscii = true -> forall a, P a = true.
Proof.
  intros H a. rewrite forallb_forall in H. apply H.
  rewrite <- (ascii_nat_embedding a). apply in_map. apply in_seq.
  pose proof (nat_ascii_bounded a). lia.
Qed.

Lemma lower_sameLetter (x y : ascii) :
  noUpper y = true -> Ascii.eqb (Js.lower_ascii x) y = sameLetter x y.
Proof.
  revert y.
  assert (H : forall x y, (negb (noUpper y)
                           || Bool.eqb (Ascii.eqb (Js.lower_ascii x) y) (sameLetter x y))
                          = true).
  { intros x0. pattern x0. revert x0.
    assert (G : forall x0, forallb (fun y =>
                   negb (noUpper y)
                   || Bool.eqb (Ascii.eqb (Js.lower_ascii x0) y) (sameLetter x0 y))
                 allAscii = true).
    { apply (every_ascii (fun x0 => forallb (fun y =>
                   negb (noUpper y)
                   || Bool.eqb (Ascii.eqb (Js.lower_ascii x0) y) (sameLetter x0 y))
                 allAscii)).
      vm_compute. reflexivity. }
    intros x0 y. exact (every_ascii _ (G x0) y). }
  intros y Hy. specialize (H x y). rewrite Hy in H. simpl in H.
  apply Bool.eqb_prop in H. exact H.
Qed.

Lemma toLowerCase_equal (a w : string) :
  noUpperCase w = true ->
  String.eqb (Js.toLowerCase a) w = equalIgnoringCase a w.
Proof.
  revert w. induction a as [|x a IH]; intros [|y w] Hw; simpl; try reflexivity.
  simpl in Hw. apply andb_true_iff in Hw. destruct Hw as [Hy Hw].
  rewrite (lower_sameLetter x y Hy), (IH w Hw). reflexivity.
Qed.

Lemma isRecognized_spec (label : Label) :
  isRecognized label
  = existsb (equalIgnoringCase (label_name label))
      ["bug"; "enhancement"; "feature"; "documentation"; "question";
       "help wanted"; "good first issue"].
Proof.
  unfold isRecognized, recognizedLabels. cbn [existsb].
  rewrite !toLowerCase_equal by reflexivity. reflexivity.
Qed.

Lemma negb_existsb {A : Type} (p : A -> bool) (l : list A) :
  negb (existsb p l) = forallb (fun x => negb (p x)) l.
Proof.
  induction l as [|x l IH]; simpl; [reflexivity|].
  rewrite negb_orb, IH. reflexivity.
Qed.

Lemma forallb_pointwise {A : Type} (p q : A -> bool) (l : list A) :
  (forall x, p x = q x) -> forallb p l = forallb q l.
Proof.
  intros H. induction l as [|x l IH]; simpl; [reflexivity|].
  rewrite H, IH. reflexivity.
Qed.

Lemma filter_twice {A : Type} (p q : A -> bool) (l : list A) :
  filter p (filter q l) = filter (fun x => q x && p x) l.
Proof.
  induction l as [|x l IH]; simpl; [reflexivity|].
  destruct (q x); simpl; [destruct (p x); rewrite IH; reflexivity|exact IH].
Qed.

Lemma lacksTriage_spec (issue : GitHubIssue) :
  lacksTriage issue
  = forallb (fun label =>
               forallb (fun name => negb (equalIgnoringCase (label_name label) name))
                 ["bug"; "enhancement"; "feature"; "documentation"; "question";
                  "help wanted"; "good first issue"])
            (issue_labels issue).
Proof.
  unfold lacksTriage. rewrite negb_existsb.
  destruct (issue_labels issue) as [|label labels]; [reflexivity|].
  cbn [List.length Nat.eqb orb]. apply forallb_pointwise. intros l.
  rewrite isRecognized_spec, negb_existsb. reflexivity.
Qed.

(** C6.  An issue is pending triage exactly when it is open and either has
    no label or has no label whose name, compared case-insensitively, is
    one of [bug], [enhancement], [feature], [documentation], [question],
    [help wanted], [good first issue]; [pendingTriage] is the number of such
    issues.  An open issue whose only label is [wontfix] is pending triage,
    an issue labelled [bug] and [wontfix] is not, and an issue that is not
    open never is. *)
Theorem pending_triage_iff
    (now : Z) (issues : list GitHubIssue) (repoMap : JsObject.t string) :
  let names :=
    ["bug"; "enhancement"; "feature"; "documentation"; "question";
     "help wanted"; "good first issue"] in
  let labelled (issue : GitHubIssue) (l : list string) :=
    map label_name (issue_labels issue) = l in
  (forall issue,
      In issue (pendingTriage_of issues) <->
      In issue issues
      /\ issue_state issue = "open"
      /\ (issue_labels issue = []
          \/ forall label name, In label (issue_labels issue) -> In name names ->
                                equalIgnoringCase (label_name label) name = false))
  /\ pendingTriage (calculateIssueMetrics now issues repoMap)
     = List.length
         (filter (fun issue =>
                    String.eqb (issue_state issue) "open"
                    && forallb (fun label =>
                                  forallb (fun name =>
                                             negb (equalIgnoringCase (label_name label) name))
                                          names)
                               (issue_labels issue))
                 issues)
  /\ (forall issue, In issue issues -> issue_state issue = "open" ->
                    labelled issue ["wontfix"] -> In issue (pendingTriage_of issues))
  /\ (forall issue, labelled issue ["bug"; "wontfix"] ->
                    ~ In issue (pendingTriage_of issues))
  /\ (forall issue, issue_state issue <> "open" -> ~ In issue (pendingTriage_of issues)).
Proof.
  intros names labelled.
  assert (Hin : forall issue,
            In issue (pendingTriage_of issues) <->
            In issue issues /\ issue_state issue = "open"
            /\ forallb (fun label =>
                          forallb (fun name =>
                                     negb (equalIgnoringCase (label_name label) name))
                                  names)
                       (issue_labels issue) = true).
  { intros issue. unfold pendingTriage_of, openIssues_of.
    rewrite !filter_In, String.eqb_eq, lacksTriage_spec. tauto. }
  split; [|split; [|split; [|split]]].
  - intros issue. rewrite Hin. split.
    + intros (H1 & H2 & H3). split; [exact H1|]. split; [exact H2|].
      right. intros label name Hl Hn.
      rewrite forallb_forall in H3. specialize (H3 label Hl).
      rewrite forallb_forall in H3. specialize (H3 name Hn).
      apply negb_true_iff in H3. exact H3.
    + intros (H1 & H2 & H3). split; [exact H1|]. split; [exact H2|].
      destruct H3 as [H3|H3]; [rewrite H3; reflexivity|].
      apply forallb_forall. intros label Hl.
      apply forallb_forall. intros name Hn.
      apply negb_true_iff. exact (H3 label name Hl Hn).
  - unfold calculateIssueMetrics. cbn [pendingTriage].
    unfold pendingTriage_of, openIssues_of. rewrite filter_twice. f_equal.
    apply filter_ext. intros issue. rewrite lacksTriage_spec. reflexivity.
  - intros issue H1 H2 H3. apply Hin. split; [exact H1|]. split; [exact H2|].
    unfold labelled in H3.
    destruct (issue_labels issue) as [|l1 [|l2 ls]]; try discriminate.
    injection H3 as H3. cbn [forallb]. rewrite H3. reflexivity.
  - intros issue H3 Hp. apply Hin in Hp. destruct Hp as (_ & _ & Hp).
    unfold labelled in H3.
    destruct (issue_labels issue) as [|l1 [|l2 [|l3 ls]]]; try discriminate.
    injection H3 as H3 H4. cbn [forallb] in Hp. rewrite H3, H4 in Hp. discriminate.
  - intros issue H Hp. apply Hin in Hp. destruct Hp as (_ & Hp & _). contradiction.
Qed.

(** ** Age buckets *)

Lemma Qltb_lt (a b : Q) : Qltb a b = true <-> (a < b)%Q.
Proof.
  unfold Qltb. rewrite negb_true_iff. split.
  - intros H. apply Qnot_le_lt. intros Hle.
    apply Qle_bool_iff in Hle. rewrite Hle in H. discriminate.
  - intros H. destruct (Qle_bool b a) eqn:E; [|reflexivity].
    apply Qle_bool_iff in E. exfalso. exact (Qlt_not_le _ _ H E).
Qed.

Lemma Qltb_ge (a b : Q) : Qltb a b = false <-> (b <= a)%Q.
Proof.
  unfold Qltb. rewrite negb_false_iff. apply Qle_bool_iff.
Qed.

Lemma inRange_iff (lo hi : Q) (a : Q) :
  inRange (Some lo) (Some hi) a = true <-> (lo <= a /\ a < hi)%Q.
Proof.
  unfold inRange. rewrite andb_true_iff, Qle_bool_iff.
  change (negb (Qle_bool hi a)) with (Qltb a hi). rewrite Qltb_lt. tauto.
Qed.

Lemma bumpAge_ranges (d : AgeDistribution) (a : Q) :
  let b (t : bool) := if t then 1%nat else 0%nat in
  lessThan24h (bumpAge d a) = (lessThan24h d + b (inRange None (Some 24%Q) a))%nat
  /\ oneToSevenDays (bumpAge d a)
     = (oneToSevenDays d + b (inRange (Some 24%Q) (Some 168%Q) a))%nat
  /\ sevenToThirtyDays (bumpAge d a)
     = (sevenToThirtyDays d + b (inRange (Some 168%Q) (Some 720%Q) a))%nat
  /\ moreThanThirtyDays (bumpAge d a)
     = (moreThanThirtyDays d + b (inRange (Some 720%Q) None a))%nat.
Proof.
  intros b. unfold bumpAge, inRange.
  assert (E7 : forall x, Qltb x (24 * 7) = Qltb x 168).
  { intros x. unfold Qltb, Qle_bool. reflexivity. }
  assert (E30 : forall x, Qltb x (24 * 30) = Qltb x 720).
  { intros x. unfold Qltb, Qle_bool. reflexivity. }
  rewrite E7, E30.
  change (negb (Qle_bool 24 a)) with (Qltb a 24).
  change (negb (Qle_bool 168 a)) with (Qltb a 168).
  change (negb (Qle_bool 720 a)) with (Qltb a 720).
  assert (L1 : Qltb a 24 = true -> Qle_bool 24 a = false /\ Qle_bool 168 a = false
                                   /\ Qle_bool 720 a = false /\ Qltb a 168 = true
                                   /\ Qltb a 720 = true).
  { intros H. apply Qltb_lt in H.
    assert (H1 : (a < 168)%Q) by (eapply Qlt_trans; [exact H|reflexivity]).
    assert (H2 : (a < 720)%Q) by (eapply Qlt_trans; [exact H|reflexivity]).
    repeat split; try (apply Qltb_lt; assumption);
      apply negb_true_iff; apply Qltb_lt; assumption. }
  assert (L2 : Qltb a 168 = true -> Qle_bool 168 a = false /\ Qle_bool 720 a = false
                                    /\ Qltb a 720 = true).
  { intros H. apply Qltb_lt in H.
    assert (H2 : (a < 720)%Q) by (eapply Qlt_trans; [exact H|reflexivity]).
    repeat split; try (apply Qltb_lt; assumption);
      apply negb_true_iff; apply Qltb_lt; assumption. }
  assert (L3 : Qltb a 720 = true -> Qle_bool 720 a = false).
  { intros H. apply negb_true_iff. exact H. }
  assert (N1 : Qltb a 24 = false -> Qle_bool 24 a = true).
  { intros H. apply negb_false_iff. exact H. }
  assert (N2 : Qltb a 168 = false -> Qle_bool 168 a = true).
  { intros H. apply negb_false_iff. exact H. }
  assert (N3 : Qltb a 720 = false -> Qle_bool 720 a = true).
  { intros H. apply negb_false_iff. exact H. }
  destruct (Qltb a 24) eqn:T1.
  { destruct (L1 eq_refl) as (A1 & A2 & A3 & A4 & A5).
    rewrite ?A1, ?A2, ?A3, ?A4, ?A5. subst b. simpl. repeat split; lia. }
  rewrite (N1 eq_refl).
  destruct (Qltb a 168) eqn:T2.
  { destruct (L2 eq_refl) as (A2 & A3 & A5).
    rewrite ?A2, ?A3, ?A5. subst b. simpl. repeat split; lia. }
  rewrite (N2 eq_refl).
  destruct (Qltb a 720) eqn:T3.
  { rewrite (L3 eq_refl). subst b. simpl. repeat split; lia. }
  rewrite (N3 eq_refl). subst b. simpl. repeat split; lia.
Qed.

Lemma ages_fold (now : Z) (l : list GitHubIssue) (d : AgeDistribution) :
  let d' := fold_left (fun d issue => bumpAge d (ageInHours now issue)) l d in
  let ages := map (ageInHours now) l in
  lessThan24h d' = (lessThan24h d + countIn None (Some 24%Q) ages)%nat
  /\ oneToSevenDays d' = (oneToSevenDays d + countIn (Some 24%Q) (Some 168%Q) ages)%nat
  /\ sevenToThirtyDays d'
     = (sevenToThirtyDays d + countIn (Some 168%Q) (Some 720%Q) ages)%nat
  /\ moreThanThirtyDays d' = (moreThanThirtyDays d + countIn (Some 720%Q) None ages)%nat.
Proof.
  revert d. induction l as [|issue l IH]; intros d; simpl.
  - unfold countIn; simpl. repeat split; lia.
  - specialize (IH (bumpAge d (ageInHours now issue))). simpl in IH.
    destruct IH as (I1 & I2 & I3 & I4).
    destruct (bumpAge_ranges d (ageInHours now issue)) as (B1 & B2 & B3 & B4).
    rewrite I1, I2, I3, I4, B1, B2, B3, B4. unfold countIn. simpl.
    destruct (inRange None (Some 24%Q) _), (inRange (Some 24%Q) (Some 168%Q) _),
      (inRange (Some 168%Q) (Some 720%Q) _), (inRange (Some 720%Q) None _);
      simpl; repeat split; lia.
Qed.

(** C8.  Each bucket of the age distribution counts the pending-triage
    issues whose age in hours lies in a half-open range: below 24, from 24
    to below 168, from 168 to below 720, and 720 or more.  The ages 24,
    168 and 720 belong to the bucket they open. *)
Theorem age_buckets_half_open
    (now : Z) (issues : list GitHubIssue) (repoMap : JsObject.t string) :
  let d := ageDistribution (calculateIssueMetrics now issues repoMap) in
  let ages := map (ageInHours now) (pendingTriage_of issues) in
  (lessThan24h d = countIn None (Some 24%Q) ages
   /\ oneToSevenDays d = countIn (Some 24%Q) (Some 168%Q) ages
   /\ sevenToThirtyDays d = countIn (Some 168%Q) (Some 720%Q) ages
   /\ moreThanThirtyDays d = countIn (Some 720%Q) None ages)
  /\ (forall a, inRange None (Some 24%Q) a = true <-> (a < 24)%Q)
  /\ (forall a, inRange (Some 24%Q) (Some 168%Q) a = true <-> (24 <= a /\ a < 168)%Q)
  /\ (forall a, inRange (Some 168%Q) (Some 720%Q) a = true <-> (168 <= a /\ a < 720)%Q)
  /\ (forall a, inRange (Some 720%Q) None a = true <-> (720 <= a)%Q).
Proof.
  intros d ages. split.
  - subst d ages. unfold calculateIssueMetrics, ageDistribution_of.
    cbn [ageDistribution].
    pose proof (ages_fold now (pendingTriage_of issues) zeroAges) as H.
    cbn zeta in H. exact H.
  - split; [|split; [|split]]; intros a.
    + unfold inRange. simpl. change (negb (Qle_bool 24 a)) with (Qltb a 24).
      apply Qltb_lt.
    + apply inRange_iff.
    + apply inRange_iff.
    + unfold inRange. rewrite andb_true_r. apply Qle_bool_iff.
Qed.

(** ** Pagination of pull requests *)

Lemma lastPullRequestPage_false (since : Z) (prs : list GitHubPullRequest) :
  lastPullRequestPage since prs = false <->
  (perPage <= List.length prs)%nat /\ Forall (fun pr => since <= pr_updated_at pr) prs.
Proof.
  unfold lastPullRequestPage. rewrite orb_false_iff, Nat.ltb_ge.
  split; intros [H1 H2]; (split; [exact H1|]).
  - apply Forall_forall. intros pr Hin.
    destruct (pr_updated_at pr <? since) eqn:E; [|apply Z.ltb_ge in E; exact E].
    assert (X : existsb (fun pr => pr_updated_at pr <? since) prs = true)
      by (apply existsb_exists; exists pr; split; assumption).
    rewrite X in H2. discriminate.
  - destruct (existsb _ prs) eqn:E; [|reflexivity].
    apply existsb_exists in E. destruct E as [pr [Hin Hlt]].
    rewrite Forall_forall in H2. specialize (H2 pr Hin).
    apply Z.ltb_lt in Hlt. lia.
Qed.

Lemma lastPullRequestPage_true (since : Z) (prs : list GitHubPullRequest) :
  lastPullRequestPage since prs = true <->
  (List.length prs < perPage)%nat \/ Exists (fun pr => pr_updated_at pr < since) prs.
Proof.
  unfold lastPullRequestPage. rewrite orb_true_iff, Nat.ltb_lt, existsb_exists, Exists_exists.
  split; (intros [H|[pr [Hin H]]]; [left; exact H|right; exists pr; split; [exact Hin|]]).
  - apply Z.ltb_lt, H.
  - apply Z.ltb_lt, H.
Qed.

Section PullRequestPages.
Variable api : GitHub.
Variables owner repo : string.
Variable since : Z.

Lemma getPullRequests_loop_run (pages : list (list GitHubPullRequest))
    (last : list GitHubPullRequest) :
  forall (fuel page : nat) (allPrs : list GitHubPullRequest) (s : Run),
    (forall i prs, nth_error (pages ++ [last]) i = Some prs ->
                   api (ReqPulls owner repo (page + i)) = Ok prs) ->
    Forall (fun prs => lastPullRequestPage since prs = false) pages ->
    lastPullRequestPage since last = true ->
    (List.length pages < fuel)%nat ->
    getPullRequests_loop api fuel owner repo since page allPrs s =
      Done (allPrs ++ filter (keepPullRequest since) (List.concat (pages ++ [last])))
           (sendAll (map (ReqPulls owner repo) (seq page (S (List.length pages)))) s).
Proof.
  induction pages as [|p ps IH]; intros fuel page allPrs s Hapi Hfull Hlast Hfuel.
  - destruct fuel as [|fuel]; [simpl in Hfuel; lia|].
    assert (E : api (ReqPulls owner repo page) = Ok last).
    { rewrite <- (Nat.add_0_r page). apply Hapi. reflexivity. }
    simpl. unfold bind, fetchFromGitHub. rewrite E.
    rewrite app_nil_r.
    destruct (List.length last =? 0)%nat eqn:E0.
    + apply Nat.eqb_eq in E0. destruct last; [|discriminate].
      simpl. rewrite app_nil_r. reflexivity.
    + rewrite Hlast. reflexivity.
  - destruct fuel as [|fuel]; [simpl in Hfuel; lia|].
    assert (E : api (ReqPulls owner repo page) = Ok p).
    { rewrite <- (Nat.add_0_r page). apply Hapi. reflexivity. }
    inversion Hfull as [|? ? Hp Hps]; subst.
    cbn [getPullRequests_loop]. unfold bind at 1, fetchFromGitHub at 1. rewrite E.
    destruct (List.length p =? 0)%nat eqn:E0.
    { apply Nat.eqb_eq in E0. apply lastPullRequestPage_false in Hp.
      unfold perPage in Hp. lia. }
    rewrite Hp.
    rewrite (IH fuel (S page) (allPrs ++ filter (keepPullRequest since) p)
                (send (ReqPulls owner repo page) s)).
    + change (List.concat ((p :: ps) ++ [last])) with (p ++ List.concat (ps ++ [last])).
      rewrite filter_app, app_assoc. reflexivity.
    + intros i prs Hi. replace (S page + i)%nat with (page + S i)%nat by lia.
      apply Hapi. exact Hi.
    + exact Hps.
    + exact Hlast.
    + simpl in Hfuel. lia.
Qed.
End PullRequestPages.

(** C2.  When the service answers a sequence of full pages without any
    pull request older than the cutoff, followed by a page that is short or
    holds a pull request older than the cutoff, [getPullRequests] requests
    exactly these pages, in order, and returns their concatenation filtered
    to the non-bot authors updated at or after the cutoff.  Nothing is
    assumed of the answers to later pages, and this last page may be
    full. *)
Theorem getPullRequests_stops
    (api : GitHub) (owner repo : string) (since : Z)
    (pages : list (list GitHubPullRequest)) (last : list GitHubPullRequest)
    (fuel : nat) (s : Run) :
  (forall i prs, nth_error (pages ++ [last]) i = Some prs ->
                 api (ReqPulls owner repo (S i)) = Ok prs) ->
  Forall (fun prs => (100 <= List.length prs)%nat
                     /\ Forall (fun pr => since <= pr_updated_at pr) prs) pages ->
  ((List.length last < 100)%nat \/ Exists (fun pr => pr_updated_at pr < since) last) ->
  (List.length pages < fuel)%nat ->
  getPullRequests api fuel owner repo since s =
    Done (filter (fun pr => negb (isBotUser (Some (pr_user pr)))
                            && (pr_updated_at pr >=? since))
                 (List.concat (pages ++ [last])))
         (sendAll (map (ReqPulls owner repo) (seq 1 (S (List.length pages)))) s).
Proof.
  intros Hapi Hfull Hlast Hfuel. unfold getPullRequests.
  rewrite (getPullRequests_loop_run api owner repo since pages last fuel 1 [] s).
  - reflexivity.
  - exact Hapi.
  - eapply Forall_impl; [|exact Hfull]. intros prs H.
    apply lastPullRequestPage_false. exact H.
  - apply lastPullRequestPage_true. exact Hlast.
  - exact Hfuel.
Qed.

(** ** Dictionaries: reading after writing *)

Section AssocFacts.
Context {K V : Type}.
Variable eqb : K -> K -> bool.
Hypothesis eqb_eq : forall a b, eqb a b = true <-> a = b.

Lemma eqb_refl_true (a : K) : eqb a a = true.
Proof. apply eqb_eq. reflexivity. Qed.

Lemma assoc_get_set (o : list (K * V)) (k j : K) (v : V) :
  assoc_get eqb (assoc_set eqb o k v) j =
  if eqb k j then Some v else assoc_get eqb o j.
Proof.
  induction o as [|[k0 v0] rest IH]; simpl; [reflexivity|].
  destruct (eqb k0 k) eqn:E0; simpl.
  - apply eqb_eq in E0. subst k0. destruct (eqb k j); reflexivity.
  - destruct (eqb k0 j) eqn:E1; [|exact IH].
    apply eqb_eq in E1. subst k0.
    destruct (eqb k j) eqn:E2; [|reflexivity].
    apply eqb_eq in E2. subst k. rewrite eqb_refl_true in E0. discriminate.
Qed.
End AssocFacts.

(** ** Review latency *)

Lemma dayOf_bumpDay (daily : list (Z * DayData)) (day j : Z) (h : Q) :
  dayOf (bumpDay daily day h) j =
  if day =? j
  then {| day_reviews := S (day_reviews (dayOf daily day));
          day_times := day_times (dayOf daily day) ++ [h] |}
  else dayOf daily j.
Proof.
  unfold bumpDay, dayOf.
  destruct (assoc_get Z.eqb daily day) as [d|] eqn:E.
  - rewrite E, (assoc_get_set Z.eqb Z.eqb_eq). destruct (day =? j); reflexivity.
  - rewrite (assoc_get_set Z.eqb Z.eqb_eq), Z.eqb_refl.
    rewrite !(assoc_get_set Z.eqb Z.eqb_eq).
    destruct (day =? j); reflexivity.
Qed.

Section LatencyFacts.
Variable now : Z.

Lemma countReview_times (l : list (GitHubPullRequest * GitHubReview)) (acc : ReviewAcc) :
  acc_reviewTimes (fold_left (countReview now) l acc)
  = acc_reviewTimes acc ++ map latency l.
Proof.
  revert acc. induction l as [|e l IH]; intros acc; simpl.
  - rewrite app_nil_r. reflexivity.
  - rewrite IH. unfold countReview, processReview.
    cbn [acc_reviewTimes]. rewrite <- app_assoc. reflexivity.
Qed.

Lemma countReview_daily (l : list (GitHubPullRequest * GitHubReview)) (acc : ReviewAcc)
    (day : Z) :
  let d := dayOf (acc_dailyReviews acc) day in
  let d' := dayOf (acc_dailyReviews (fold_left (countReview now) l acc)) day in
  day_reviews d' = (day_reviews d + List.length (onDay day l))%nat
  /\ day_times d' = day_times d ++ map latency (onDay day l).
Proof.
  revert acc. induction l as [|e l IH]; intros acc; simpl.
  - rewrite app_nil_r. split; [lia|reflexivity].
  - specialize (IH (countReview now acc e)). simpl in IH. destruct IH as [I1 I2].
    rewrite I1, I2. unfold countReview, processReview.
    cbn [acc_dailyReviews]. rewrite dayOf_bumpDay. unfold onDay. cbn [filter].
    destruct (formatDate (review_submitted_at (snd e)) =? day) eqn:E; simpl.
    + apply Z.eqb_eq in E. rewrite E. rewrite <- app_assoc. split; [lia|reflexivity].
    + split; reflexivity.
Qed.
End LatencyFacts.

(** C9.  The only review of the run is a review of pull request 1 of
    repository [B], submitted 20 hours before the creation of that pull
    request.  The review loop resolves its key to the first pull request
    numbered 1, the one of repository [A], created 70 hours before the
    review: the latency that enters the global average and the average of
    the day is 70 hours, not minus 20. *)
Theorem early_review_measured_against_other_repository :
  exists data s,
    Sample.published Case.earlyReviewInB = Some (data, s)
    /\ allPullRequests s = [Case.olderA1; Case.lateB1]
    /\ allReviews s = [("CircuitVerse/B#1", [Case.earlyReview])]
    /\ review_submitted_at Case.earlyReview < pr_created_at Case.lateB1
    /\ (hoursBetween (review_submitted_at Case.earlyReview) (pr_created_at Case.lateB1)
        == -20)%Q
    /\ owningPullRequest (allPullRequests s) (repoMap s) "CircuitVerse/B#1"
       = Some Case.olderA1
    /\ totalReviews (reviewMetrics data) = 1%nat
    /\ (averageReviewTimeHours (reviewMetrics data) == 70)%Q
    /\ map (fun d => (dr_reviews d, Qred (dr_avgTimeHours d)))
           (filter (fun d => (0 <? dr_reviews d)%nat) (dailyReviewData (reviewMetrics data)))
       = [(1%nat, 70%Q)].
Proof.
  eexists. eexists. split; [vm_compute; reflexivity|].
  repeat split; vm_compute; reflexivity.
Qed.

(** ** The composite-key lookup *)

(** An item whose number matches no key is published under the repository
    ["unknown"]. *)
Lemma unknown_without_key (now : Z) (allReviews : JsObject.t (list GitHubReview))
    (repoMap : JsObject.t string) (pr : GitHubPullRequest) :
  findCompositeKey repoMap (pr_number pr) = None ->
  nr_repository (needingReviewEntry now repoMap pr (findCompositeKey repoMap (pr_number pr)))
  = "unknown"
  /\ resolvedReviews allReviews repoMap pr = [].
Proof.
  intros H. unfold resolvedReviews. rewrite H. split; reflexivity.
Qed.

(** The reviews stored under a key that resolves to no pull request leave
    every counter as it was. *)
Lemma unresolved_reviews_discarded (now : Z) (pullRequests : list GitHubPullRequest)
    (repoMap : JsObject.t string) (acc : ReviewAcc) (key : string)
    (reviews : list GitHubReview) :
  owningPullRequest pullRequests repoMap key = None ->
  processEntry now pullRequests repoMap acc (key, reviews) = acc.
Proof.
  intros H. unfold processEntry. simpl. rewrite H. reflexivity.
Qed.

(** A key that names an inherited property holds no ['#'] and is never
    found by the scan, which is why the reads under a found key are reads
    of own properties. *)
Lemma inherited_key_never_found (repoMap : JsObject.t string) (number : Z) (key : string) :
  JsObject.inheritedName key = true -> keyHasNumber repoMap number key = false.
Proof.
  unfold JsObject.inheritedName, JsObject.prototypeNames. intros H.
  apply existsb_exists in H. destruct H as [name [Hin Heq]].
  apply String.eqb_eq in Heq. subst name. simpl in Hin.
  repeat (destruct Hin as [Hin|Hin]; [subst key; reflexivity|]).
  destruct Hin.
Qed.

(** C1.  Two repositories have a pull request number 1.  The open one, of
    repository [B], has no review; the scan of the keys stops at the key of
    repository [A], so that it is published as ready to merge with one
    approval, under repository [A], and is absent from the pull requests
    needing review.  The reviews stored under the key of [B] would likewise
    be counted against the pull request of [A]. *)
Theorem lookup_ignores_repository :
  exists data s,
    Sample.published Sample.twoRepositories = Some (data, s)
    /\ JsObject.keys (repoMap s) = ["CircuitVerse/A#1"; "CircuitVerse/B#1"]
    /\ JsObject.get (allReviews s) "CircuitVerse/B#1" = None
    /\ findCompositeKey (repoMap s) (pr_number Sample.openB1) = Some "CircuitVerse/A#1"
    /\ map (fun e => (rm_url e, rm_repository e, rm_approvals e))
           (prsReadyToMerge (reviewMetrics data))
       = [("https://github.com/CircuitVerse/B/pull/1", "A", 1%nat)]
    /\ prsNeedingReview (reviewMetrics data) = []
    /\ owningPullRequest (allPullRequests s) (repoMap s) "CircuitVerse/B#1"
       = Some Sample.mergedA1.
Proof.
  eexists. eexists. split; [vm_compute; reflexivity|].
  repeat split; vm_compute; reflexivity.
Qed.

(** C10.  Repository [B] has 31 pull requests; the reviews of the 31st,
    number 1, are not requested and the reviews map has no entry under its
    key.  It is open, not merged and not a draft, and yet it is not
    classified as needing review: the scan of the keys finds the key of
    pull request 1 of repository [A], whose approval makes it ready to
    merge. *)
Theorem unfetched_pull_request_not_needing_review :
  exists data s,
    Sample.published Sample.crowdedB = Some (data, s)
    /\ List.length (filter (fun r => match r with ReqReviews _ _ _ => true | _ => false end)
                           (sent s)) = 31%nat
    /\ existsb (fun r => match r with
                         | ReqReviews _ repo n => String.eqb repo "B" && (n =? 1)
                         | _ => false
                         end) (sent s) = false
    /\ JsObject.get (allReviews s) "CircuitVerse/B#1" = None
    /\ reviewable (Sample.pull "B" 1 "open" None 99) = true
    /\ In (Sample.pull "B" 1 "open" None 99) (allPullRequests s)
    /\ existsb (fun e => String.eqb (nr_url e) "https://github.com/CircuitVerse/B/pull/1")
               (fst (worklists Sample.now (allPullRequests s) (allReviews s) (repoMap s)))
       = false
    /\ existsb (fun e => String.eqb (rm_url e) "https://github.com/CircuitVerse/B/pull/1")
               (prsReadyToMerge (reviewMetrics data))
       = true
    /\ pending (reviewStateDistribution (reviewMetrics data)) = 30%nat.
Proof.
  eexists. eexists. split; [vm_compute; reflexivity|].
  repeat split; try (vm_compute; reflexivity).
  vm_compute. do 31 right. left. reflexivity.
Qed.

(** ** The ranking of reviewers: a stable sort by descending count *)

Section RankFacts.
Context {A : Type}.
Variable key : A -> nat.

Lemma insert_HdRel (a x : A) (l : list A) :
  HdRel (notBelow key) a l -> notBelow key a x ->
  HdRel (notBelow key) a (insert (higher key) x l).
Proof.
  intros Hl Hx. destruct l as [|y l]; simpl; [constructor; exact Hx|].
  destruct (higher key y x); constructor; [|exact Hx].
  inversion Hl; assumption.
Qed.

Lemma insert_Sorted (x : A) (l : list A) :
  Sorted (notBelow key) l -> Sorted (notBelow key) (insert (higher key) x l).
Proof.
  induction l as [|y l IH]; intros Hs; simpl.
  - constructor; constructor.
  - inversion Hs as [|? ? Hl Hhd]; subst.
    destruct (higher key y x) eqn:E.
    + constructor; [apply IH, Hl|].
      apply insert_HdRel; [exact Hhd|].
      unfold higher in E. apply Nat.ltb_lt in E. unfold notBelow. lia.
    + constructor; [exact Hs|]. constructor.
      unfold higher in E. apply Nat.ltb_ge in E. exact E.
Qed.

Lemma sort_Sorted (l : list A) : Sorted (notBelow key) (sort (higher key) l).
Proof.
  induction l as [|x l IH]; simpl; [constructor|apply insert_Sorted, IH].
Qed.


End RankFacts.

(** ** First-seen order *)




(** ** A dictionary listed key by key *)

Section TableFacts.
Context {V : Type}.





End TableFacts.


Lemma get_set {V : Type} (o : JsObject.t V) (k j : string) (v : V) :
  JsObject.get (JsObject.set o k v) j
  = if String.eqb k j then Some v else JsObject.get o j.
Proof. apply (assoc_get_set String.eqb String.eqb_eq). Qed.

(** ** The table of reviewers *)








Lemma countReview_stats (now : Z) (l : list (GitHubPullRequest * GitHubReview))
    (acc : ReviewAcc) :
  acc_reviewerStats (fold_left (countReview now) l acc)
  = fold_left bumpReviewer (reviewers l) (acc_reviewerStats acc).
Proof.
  revert acc. induction l as [|e l IH]; intros acc; simpl; [reflexivity|].
  rewrite IH. unfold countReview, processReview. cbn [acc_reviewerStats].
  rewrite fold_left_app. destruct (review_user (snd e)); reflexivity.
Qed.


Lemma Sorted_map {A B : Type} (R : B -> B -> Prop) (f : A -> B) (l : list A) :
  Sorted (fun a b => R (f a) (f b)) l -> Sorted R (map f l).
Proof.
  induction 1 as [|a l Hl IH Hhd]; simpl; constructor; [exact IH|].
  destruct Hhd; simpl; constructor. assumption.
Qed.



(** ** The properties on concrete runs *)

Lemma getPullRequests_stops_witness :
  (List.length Scenario.fullPageWithStale = 100)%nat
  /\ getPullRequests Scenario.paged 2 ORG "A" Scenario.since start
     = Done (filter (fun pr => negb (isBotUser (Some (pr_user pr)))
                               && (pr_updated_at pr >=? Scenario.since))
                    (List.concat ([Scenario.fullPage] ++ [Scenario.fullPageWithStale])))
            (sendAll (map (ReqPulls ORG "A") (seq 1 2)) start).
Proof.
  split; [reflexivity|].
  apply (getPullRequests_stops Scenario.paged ORG "A" Scenario.since
           [Scenario.fullPage] Scenario.fullPageWithStale 2 start).
  - intros i prs H. destruct i as [|[|i]]; simpl in H.
    + injection H as <-. reflexivity.
    + injection H as <-. reflexivity.
    + destruct i; discriminate.
  - constructor; [|constructor]. split; [vm_compute; lia|].
    apply Forall_forall. intros pr Hin. apply repeat_spec in Hin. subst pr.
    apply Z.leb_le. vm_compute. reflexivity.
  - right. apply Exists_exists. exists Scenario.stale. split.
    + apply in_or_app. right. left. reflexivity.
    + apply Z.ltb_lt. vm_compute. reflexivity.
  - simpl. lia.
Defined.


(** With counts 5, 5 and 3 the reviewers of five reviews stand in first-seen
    order. *)
Example top_reviewers_5_5_3 :
  map (fun t => (username t, reviewCount t))
      (topReviewers (calculateReviewMetrics Sample.now [Scenario.reviewed]
                       Scenario.reviewsOfA1 Scenario.mapOfA1))
  = [("bob", 5%nat); ("ann", 5%nat); ("cy", 3%nat)].
Proof. vm_compute. reflexivity. Qed.

(** A reviewer whose login names an inherited property gets no entry. *)
Example inherited_login_not_ranked :
  topReviewers (calculateReviewMetrics Sample.now [Scenario.reviewed]
                  (JsObject.set JsObject.empty "CircuitVerse/A#1" (Scenario.repeated "constructor" 3))
                  Scenario.mapOfA1)
  = [].
Proof. vm_compute. reflexivity. Qed.

(** Thirty-one pull requests need a review: [pending] is 31 and the
    published worklist has 20 entries. *)
Example pending_exceeds_worklist :
  let m := calculateReviewMetrics Sample.now Sample.thirtyOneInB
             JsObject.empty JsObject.empty in
  pending (reviewStateDistribution m) = 31%nat
  /\ List.length (prsNeedingReview m) = 20%nat
  /\ map nr_repository (firstn 1 (prsNeedingReview m)) = ["unknown"].
Proof. repeat split; vm_compute; reflexivity. Qed.

Example pending_triage_examples :
  pendingTriage (calculateIssueMetrics Sample.now
                   [Sample.issue 1 "open" ["wontfix"] 5] JsObject.empty) = 1%nat
  /\ pendingTriage (calculateIssueMetrics Sample.now
                      [Sample.issue 2 "open" ["bug"; "wontfix"] 5] JsObject.empty) = 0%nat
  /\ pendingTriage (calculateIssueMetrics Sample.now
                      [Sample.issue 3 "open" ["Good First Issue"] 5] JsObject.empty) = 0%nat
  /\ pendingTriage (calculateIssueMetrics Sample.now
                      [Sample.issue 4 "closed" [] 5] JsObject.empty) = 0%nat
  /\ pendingTriage (calculateIssueMetrics Sample.now
                      [Sample.issue 5 "open" [] 5] JsObject.empty) = 1%nat.
Proof. repeat split; vm_compute; reflexivity. Qed.

(** Issues aged 23, 24, 168 and 720 hours. *)
Example age_bucket_edges :
  ageDistribution (calculateIssueMetrics Sample.now
                     [Sample.issue 1 "open" [] 24] JsObject.empty)
  = {| lessThan24h := 0; oneToSevenDays := 1;
       sevenToThirtyDays := 0; moreThanThirtyDays := 0 |}
  /\ ageDistribution (calculateIssueMetrics Sample.now
                        [Sample.issue 1 "open" [] (7 * 24)] JsObject.empty)
     = {| lessThan24h := 0; oneToSevenDays := 0;
          sevenToThirtyDays := 1; moreThanThirtyDays := 0 |}
  /\ ageDistribution (calculateIssueMetrics Sample.now
                        [Sample.issue 1 "open" [] (30 * 24)] JsObject.empty)
     = {| lessThan24h := 0; oneToSevenDays := 0;
          sevenToThirtyDays := 0; moreThanThirtyDays := 1 |}
  /\ ageDistribution (calculateIssueMetrics Sample.now
                        [Sample.issue 1 "open" [] 23] JsObject.empty)
     = {| lessThan24h := 1; oneToSevenDays := 0;
          sevenToThirtyDays := 0; moreThanThirtyDays := 0 |}.
Proof. repeat split; vm_compute; reflexivity. Qed.

(** A review submitted one hour before the creation of its pull request,
    two hours ago: the global average and the average of the day are
    minus one hour. *)
Example early_review :
  let pr := Sample.pull "A" 1 "open" None 1 in
  let m := calculateReviewMetrics Sample.now [pr]
             (JsObject.set JsObject.empty "CircuitVerse/A#1"
                [Sample.review 1 "bob" APPROVED (Sample.now - 2 * msPerHour)])
             Scenario.mapOfA1 in
  (averageReviewTimeHours m == -1)%Q
  /\ map (fun d => Qred (dr_avgTimeHours d)) (skipn 13 (dailyReviewData m)) = [(-1)%Q]
  /\ totalReviews m = 1%nat.
Proof. repeat split; vm_compute; reflexivity. Qed.

(* ================================================================== *)
(** * Further properties of the script                                *)
(* ================================================================== *)

(** ** Strings *)

Lemma append_empty_r (s : string) : (s ++ "")%string = s.
Proof. induction s as [|c s IH]; simpl; [reflexivity|rewrite IH; reflexivity]. Qed.

Lemma append_assoc (a b c : string) : ((a ++ b) ++ c)%string = (a ++ (b ++ c))%string.
Proof. induction a as [|x a IH]; simpl; [reflexivity|rewrite IH; reflexivity]. Qed.

Lemma length_append (a b : string) :
  String.length (a ++ b) = (String.length a + String.length b)%nat.
Proof. induction a as [|x a IH]; simpl; [reflexivity|rewrite IH; reflexivity]. Qed.

Lemma substring_whole (s : string) : substring 0 (String.length s) s = s.
Proof. induction s as [|c s IH]; simpl; [reflexivity|rewrite IH; reflexivity]. Qed.

Lemma substring_suffix (p q : string) :
  substring (String.length p) (String.length q) (p ++ q) = q.
Proof.
  induction p as [|c p IH]; simpl; [apply substring_whole|exact IH].
Qed.

Lemma substring_split (s : string) :
  forall n m, (n + m = String.length s)%nat ->
              s = (substring 0 n s ++ substring n m s)%string.
Proof.
  induction s as [|c s IH]; intros n m H; simpl in H.
  - destruct n, m; try discriminate. reflexivity.
  - destruct n as [|n].
    + simpl in H. subst m. simpl. rewrite substring_whole. reflexivity.
    + simpl. f_equal. apply IH. lia.
Qed.

Lemma endsWith_suffix (s suffix : string) :
  Js.endsWith s suffix = true <-> exists prefix, s = (prefix ++ suffix)%string.
Proof.
  unfold Js.endsWith. rewrite andb_true_iff, Nat.leb_le, String.eqb_eq. split.
  - intros [Hle Hsub].
    exists (substring 0 (String.length s - String.length suffix) s).
    rewrite <- Hsub at 2. apply substring_split. lia.
  - intros [prefix ->]. rewrite length_append. split; [lia|].
    replace (String.length prefix + String.length suffix - String.length suffix)%nat
      with (String.length prefix) by lia.
    apply substring_suffix.
Qed.

(** X1.  [isBotUser] holds of a missing user, and of a user exactly when its
    login is empty, or its account kind is present, not empty and not
    ["User"], or its login is some text followed by ["[bot]"]. *)
Theorem isBotUser_iff (u : GitHubUser) :
  isBotUser None = true
  /\ (isBotUser (Some u) = true <->
      login u = ""
      \/ (exists kind, user_type u = Some kind /\ kind <> "" /\ kind <> "User")
      \/ (exists prefix, login u = (prefix ++ "[bot]")%string)).
Proof.
  split; [reflexivity|].
  unfold isBotUser. rewrite <- endsWith_suffix.
  destruct (String.eqb (login u) "") eqn:El.
  - apply String.eqb_eq in El. tauto.
  - apply String.eqb_neq in El.
    destruct (user_type u) as [kind|].
    + destruct (String.eqb kind "") eqn:E1; destruct (String.eqb kind "User") eqn:E2; simpl.
      * apply String.eqb_eq in E1. split; [tauto|].
        intros [H|[[k [Hk [H1 H2]]]|H]]; [contradiction| |exact H].
        injection Hk as <-. contradiction.
      * apply String.eqb_eq in E1. split; [tauto|].
        intros [H|[[k [Hk [H1 H2]]]|H]]; [contradiction| |exact H].
        injection Hk as <-. contradiction.
      * apply String.eqb_eq in E2. split; [tauto|].
        intros [H|[[k [Hk [H1 H2]]]|H]]; [contradiction| |exact H].
        injection Hk as <-. contradiction.
      * apply String.eqb_neq in E1, E2. split; [|reflexivity].
        intros _. right. left. exists kind. auto.
    + split; [tauto|].
      intros [H|[[k [Hk _]]|H]]; [contradiction|discriminate|exact H].
Qed.

(** ** Rate-limit pacing *)

(** X2.  With a header that is present and not empty the pause is 200, 400 or
    1000 ms, and 1000 ms when the header is not a number; of two headers
    that are numbers, the one with less quota left never gets the shorter
    pause.  Without a header, or with an empty one, the pause is the
    default. *)
Theorem smartSleep_paces (defaultMs : Z) (h1 h2 : string) (n1 n2 : Z) :
  h1 <> "" -> h2 <> "" ->
  Js.parseInt h1 = Some n1 -> Js.parseInt h2 = Some n2 -> n1 <= n2 ->
  smartSleep (Some h2) defaultMs <= smartSleep (Some h1) defaultMs
  /\ (smartSleep (Some h1) defaultMs = 200 <-> 500 < n1)
  /\ (smartSleep (Some h1) defaultMs = 400 <-> 100 < n1 <= 500)
  /\ (smartSleep (Some h1) defaultMs = 1000 <-> n1 <= 100)
  /\ smartSleep None defaultMs = defaultMs
  /\ smartSleep (Some "") defaultMs = defaultMs
  /\ (forall h, h <> "" -> Js.parseInt h = None -> smartSleep (Some h) defaultMs = 1000).
Proof.
  intros H1 H2 P1 P2 Hle.
  assert (S1 : smartSleep (Some h1) defaultMs
               = if n1 >? 500 then 200 else if n1 >? 100 then 400 else 1000).
  { unfold smartSleep. apply String.eqb_neq in H1. rewrite H1, P1. reflexivity. }
  assert (S2 : smartSleep (Some h2) defaultMs
               = if n2 >? 500 then 200 else if n2 >? 100 then 400 else 1000).
  { unfold smartSleep. apply String.eqb_neq in H2. rewrite H2, P2. reflexivity. }
  rewrite S1, S2.
  repeat split; try reflexivity;
    try (intros h Hh Hp; unfold smartSleep; apply String.eqb_neq in Hh;
         rewrite Hh, Hp; reflexivity);
    destruct (Z.gtb_spec n1 500), (Z.gtb_spec n1 100), (Z.gtb_spec n2 500),
      (Z.gtb_spec n2 100); try lia; intros; try lia.
Qed.

(** ** Rules for the computations of a run *)

Lemma triple_ret {A : Type} (P : Run -> Prop) (a : A) (Q : A -> Run -> Prop)
    (E : Run -> Prop) :
  (forall s, P s -> Q a s) -> triple P (ret a) Q E.
Proof. intros H s Hs. apply H, Hs. Qed.

Lemma triple_bind {A B : Type} (P : Run -> Prop) (m : M A) (k : A -> M B)
    (R : A -> Run -> Prop) (Q : B -> Run -> Prop) (E : Run -> Prop) :
  triple P m R E -> (forall a, triple (R a) (k a) Q E) -> triple P (bind m k) Q E.
Proof.
  intros Hm Hk s Hs. unfold bind. specialize (Hm s Hs).
  destruct (m s) as [a s'|e s'|]; [apply (Hk a s' Hm)|exact Hm|exact I].
Qed.

Lemma triple_modify (P : Run -> Prop) (f : Run -> Run) (Q : unit -> Run -> Prop)
    (E : Run -> Prop) :
  (forall s, P s -> Q tt (f s)) -> triple P (modify f) Q E.
Proof. intros H s Hs. apply H, Hs. Qed.

Lemma triple_current (P : Run -> Prop) (Q : Run -> Run -> Prop) (E : Run -> Prop) :
  (forall s, P s -> Q s s) -> triple P current Q E.
Proof. intros H s Hs. apply H, Hs. Qed.

Lemma triple_tryCatch {A : Type} (P : Run -> Prop) (m : M A) (handler : string -> M A)
    (Q : A -> Run -> Prop) (E' E : Run -> Prop) :
  triple P m Q E' -> (forall e, triple E' (handler e) Q E) ->
  triple P (tryCatch m handler) Q E.
Proof.
  intros Hm Hh s Hs. unfold tryCatch. specialize (Hm s Hs).
  destruct (m s) as [a s'|e s'|]; [exact Hm|apply (Hh e s' Hm)|exact I].
Qed.

Lemma triple_weaken {A : Type} (P P' : Run -> Prop) (m : M A)
    (Q Q' : A -> Run -> Prop) (E E' : Run -> Prop) :
  triple P' m Q' E' ->
  (forall s, P s -> P' s) -> (forall a s, Q' a s -> Q a s) -> (forall s, E' s -> E s) ->
  triple P m Q E.
Proof.
  intros Hm HP HQ HE s Hs. specialize (Hm s (HP s Hs)).
  destruct (m s) as [a s'|e s'|]; [apply HQ, Hm|apply HE, Hm|exact I].
Qed.

Lemma triple_forEach {A : Type} (Inv : Run -> Prop) (l : list A) (body : A -> M unit)
    (E : Run -> Prop) :
  (forall x, In x l -> triple Inv (body x) (fun _ => Inv) E) ->
  triple Inv (forEach l body) (fun _ => Inv) E.
Proof.
  induction l as [|x l IH]; intros H; simpl.
  - apply triple_ret. auto.
  - eapply triple_bind; [apply H; left; reflexivity|].
    intros u. apply IH. intros y Hy. apply H. right. exact Hy.
Qed.

(** A request changes the log only. *)
Lemma triple_fetch (api : GitHub) (r : Request) (P : Run -> Prop) :
  (forall s, P s -> P (send r s)) ->
  triple P (fetchFromGitHub api r) (fun _ => P) P.
Proof.
  intros H s Hs. unfold fetchFromGitHub. destruct (api r); apply H, Hs.
Qed.

(** ** The fetchers, whatever the service answers *)

Section FetcherSafety.
Variable api : GitHub.
Variable c : list GitHubPullRequest * list GitHubIssue
             * JsObject.t (list GitHubReview) * JsObject.t string.

Lemma untouched_send (r : Request) (s : Run) : untouched c s -> untouched c (send r s).
Proof. intros H. exact H. Qed.

Lemma fetch_untouched (r : Request) :
  triple (untouched c) (fetchFromGitHub api r) (fun _ => untouched c) (untouched c).
Proof. apply triple_fetch. intros s. apply untouched_send. Qed.

Lemma getPullRequests_loop_safe (owner repo : string) (since : Z) :
  forall (fuel page : nat) (allPrs : list GitHubPullRequest),
    Forall (fun pr => keepPullRequest since pr = true) allPrs ->
    triple (untouched c) (getPullRequests_loop api fuel owner repo since page allPrs)
      (fun prs s => Forall (fun pr => keepPullRequest since pr = true) prs /\ untouched c s)
      (untouched c).
Proof.
  induction fuel as [|fuel IH]; intros page allPrs Hall; simpl.
  - intros s _. exact I.
  - apply triple_bind with (R := fun _ => untouched c); [exact (fetch_untouched (ReqPulls owner repo page))|].
    intros prs. destruct (List.length prs =? 0)%nat.
    + apply triple_ret. auto.
    + assert (Hall' : Forall (fun pr => keepPullRequest since pr = true)
                        (allPrs ++ filter (keepPullRequest since) prs)).
      { apply Forall_app. split; [exact Hall|].
        apply Forall_forall. intros pr Hin. apply filter_In in Hin. tauto. }
      destruct (lastPullRequestPage since prs).
      * apply triple_ret. auto.
      * apply IH, Hall'.
Qed.

Lemma getIssues_loop_safe (owner repo : string) (since : Z) :
  forall (fuel page : nat) (acc : list GitHubIssue),
    Forall (fun issue => keepIssue since issue = true) acc ->
    triple (untouched c) (getIssues_loop api fuel owner repo since page acc)
      (fun issues s => Forall (fun issue => keepIssue since issue = true) issues
                       /\ untouched c s)
      (untouched c).
Proof.
  induction fuel as [|fuel IH]; intros page acc Hall; simpl.
  - intros s _. exact I.
  - apply triple_bind with (R := fun _ => untouched c); [exact (fetch_untouched (ReqIssues owner repo since page))|].
    intros issues. destruct (List.length issues =? 0)%nat.
    + apply triple_ret. auto.
    + assert (Hall' : Forall (fun issue => keepIssue since issue = true)
                        (acc ++ filter (keepIssue since) issues)).
      { apply Forall_app. split; [exact Hall|].
        apply Forall_forall. intros issue Hin. apply filter_In in Hin. tauto. }
      destruct (List.length issues <? perPage)%nat.
      * apply triple_ret. auto.
      * apply IH, Hall'.
Qed.

Lemma getRepositories_loop_safe :
  forall (fuel page : nat) (acc : list Repository),
    triple (untouched c) (getRepositories_loop api fuel page acc)
      (fun _ s => untouched c s) (untouched c).
Proof.
  induction fuel as [|fuel IH]; intros page acc; simpl.
  - intros s _. exact I.
  - apply triple_bind with (R := fun _ => untouched c); [exact (fetch_untouched (ReqRepos page))|].
    intros repos. destruct (List.length repos =? 0)%nat.
    + apply triple_ret. auto.
    + destruct (List.length repos <? perPage)%nat.
      * apply triple_ret. auto.
      * apply IH.
Qed.

Lemma getReviews_safe (owner repo : string) (prNumber : Z) :
  triple (untouched c) (getReviews api owner repo prNumber)
    (fun reviews s => Forall (fun r => isBotUser (review_user r) = false) reviews
                      /\ untouched c s)
    (fun _ => False).
Proof.
  unfold getReviews.
  apply triple_tryCatch with (E' := untouched c).
  - apply triple_bind with (R := fun _ => untouched c); [exact (fetch_untouched (ReqReviews owner repo prNumber))|].
    intros reviews. apply triple_ret. intros s Hs. split; [|exact Hs].
    apply Forall_forall. intros r Hin. apply filter_In in Hin.
    destruct Hin as [_ H]. apply negb_true_iff in H. exact H.
  - intros e. apply triple_ret. intros s Hs. split; [constructor|exact Hs].
Qed.
End FetcherSafety.

Lemma keepPullRequest_iff (since : Z) (pr : GitHubPullRequest) :
  keepPullRequest since pr = true <->
  isBotUser (Some (pr_user pr)) = false /\ since <= pr_updated_at pr.
Proof.
  unfold keepPullRequest. rewrite andb_true_iff, negb_true_iff, Z.geb_le. tauto.
Qed.

Lemma keepIssue_iff (since : Z) (issue : GitHubIssue) :
  keepIssue since issue = true <->
  issue_pull_request issue = false
  /\ isBotUser (Some (issue_user issue)) = false
  /\ since <= issue_updated_at issue.
Proof.
  unfold keepIssue. rewrite !andb_true_iff, !negb_true_iff, Z.geb_le. tauto.
Qed.

(** X4.  Whatever the service answers, a pull request that [getPullRequests]
    returns is by a non-bot author and was updated at or after the cutoff;
    the fetcher changes nothing of the collections of the run, whether it
    returns or throws. *)
Theorem getPullRequests_only_recent_humans
    (api : GitHub) (fuel : nat) (owner repo : string) (since : Z) (s : Run) :
  match getPullRequests api fuel owner repo since s with
  | Done prs s' =>
      Forall (fun pr => isBotUser (Some (pr_user pr)) = false
                        /\ since <= pr_updated_at pr) prs
      /\ collections s' = collections s
  | Threw _ s' => collections s' = collections s
  | OutOfFuel => True
  end.
Proof.
  pose proof (getPullRequests_loop_safe api (collections s) owner repo since
                fuel 1%nat [] (Forall_nil _) s eq_refl) as H.
  unfold getPullRequests.
  destruct (getPullRequests_loop api fuel owner repo since 1 [] s) as [prs s'|e s'|];
    [|exact H|exact I].
  destruct H as [H1 H2]. split; [|exact H2].
  eapply Forall_impl; [|exact H1]. intros pr. apply keepPullRequest_iff.
Qed.

(** X7.  Whatever the service answers, an issue that [getIssues] returns is not
    a pull request, is by a non-bot author and was updated at or after the
    cutoff; the fetcher changes nothing of the collections of the run. *)
Theorem getIssues_only_recent_human_issues
    (api : GitHub) (fuel : nat) (owner repo : string) (since : Z) (s : Run) :
  match getIssues api fuel owner repo since s with
  | Done issues s' =>
      Forall (fun issue => issue_pull_request issue = false
                           /\ isBotUser (Some (issue_user issue)) = false
                           /\ since <= issue_updated_at issue) issues
      /\ collections s' = collections s
  | Threw _ s' => collections s' = collections s
  | OutOfFuel => True
  end.
Proof.
  pose proof (getIssues_loop_safe api (collections s) owner repo since
                fuel 1%nat [] (Forall_nil _) s eq_refl) as H.
  unfold getIssues.
  destruct (getIssues_loop api fuel owner repo since 1 [] s) as [issues s'|e s'|];
    [|exact H|exact I].
  destruct H as [H1 H2]. split; [|exact H2].
  eapply Forall_impl; [|exact H1]. intros issue. apply keepIssue_iff.
Qed.

(** ** Pagination of repositories and issues *)

Section OtherPages.
Variable api : GitHub.

Lemma getRepositories_loop_run (pages : list (list Repository)) (last : list Repository) :
  forall (fuel page : nat) (acc : list Repository) (s : Run),
    (forall i repos, nth_error (pages ++ [last]) i = Some repos ->
                     api (ReqRepos (page + i)) = Ok repos) ->
    Forall (fun repos => (perPage <= List.length repos)%nat) pages ->
    (List.length last < perPage)%nat ->
    (List.length pages < fuel)%nat ->
    getRepositories_loop api fuel page acc s =
      Done (acc ++ List.concat (pages ++ [last]))
           (sendAll (map ReqRepos (seq page (S (List.length pages)))) s).
Proof.
  induction pages as [|p ps IH]; intros fuel page acc s Hapi Hfull Hlast Hfuel.
  - destruct fuel as [|fuel]; [simpl in Hfuel; lia|].
    assert (E : api (ReqRepos page) = Ok last).
    { rewrite <- (Nat.add_0_r page). apply Hapi. reflexivity. }
    simpl. unfold bind, fetchFromGitHub. rewrite E. rewrite app_nil_r.
    destruct (List.length last =? 0)%nat eqn:E0.
    + apply Nat.eqb_eq in E0. destruct last; [|discriminate].
      rewrite app_nil_r. reflexivity.
    + apply Nat.ltb_lt in Hlast. rewrite Hlast. reflexivity.
  - destruct fuel as [|fuel]; [simpl in Hfuel; lia|].
    assert (E : api (ReqRepos page) = Ok p).
    { rewrite <- (Nat.add_0_r page). apply Hapi. reflexivity. }
    inversion Hfull as [|? ? Hp Hps]; subst.
    cbn [getRepositories_loop]. unfold bind at 1, fetchFromGitHub at 1. rewrite E.
    destruct (List.length p =? 0)%nat eqn:E0.
    { apply Nat.eqb_eq in E0. unfold perPage in Hp. lia. }
    apply Nat.ltb_ge in Hp. rewrite Hp.
    rewrite (IH fuel (S page) (acc ++ p) (send (ReqRepos page) s)).
    + change (List.concat ((p :: ps) ++ [last])) with (p ++ List.concat (ps ++ [last])).
      rewrite app_assoc. reflexivity.
    + intros i repos Hi. replace (S page + i)%nat with (page + S i)%nat by lia.
      apply Hapi. exact Hi.
    + exact Hps.
    + exact Hlast.
    + simpl in Hfuel. lia.
Qed.

Lemma getIssues_loop_run (owner repo : string) (since : Z)
    (pages : list (list GitHubIssue)) (last : list GitHubIssue) :
  forall (fuel page : nat) (acc : list GitHubIssue) (s : Run),
    (forall i issues, nth_error (pages ++ [last]) i = Some issues ->
                      api (ReqIssues owner repo since (page + i)) = Ok issues) ->
    Forall (fun issues => (perPage <= List.length issues)%nat) pages ->
    (List.length last < perPage)%nat ->
    (List.length pages < fuel)%nat ->
    getIssues_loop api fuel owner repo since page acc s =
      Done (acc ++ filter (keepIssue since) (List.concat (pages ++ [last])))
           (sendAll (map (ReqIssues owner repo since) (seq page (S (List.length pages)))) s).
Proof.
  induction pages as [|p ps IH]; intros fuel page acc s Hapi Hfull Hlast Hfuel.
  - destruct fuel as [|fuel]; [simpl in Hfuel; lia|].
    assert (E : api (ReqIssues owner repo since page) = Ok last).
    { rewrite <- (Nat.add_0_r page). apply Hapi. reflexivity. }
    simpl. unfold bind, fetchFromGitHub. rewrite E. rewrite app_nil_r.
    destruct (List.length last =? 0)%nat eqn:E0.
    + apply Nat.eqb_eq in E0. destruct last; [|discriminate].
      simpl. rewrite app_nil_r. reflexivity.
    + apply Nat.ltb_lt in Hlast. rewrite Hlast. reflexivity.
  - destruct fuel as [|fuel]; [simpl in Hfuel; lia|].
    assert (E : api (ReqIssues owner repo since page) = Ok p).
    { rewrite <- (Nat.add_0_r page). apply Hapi. reflexivity. }
    inversion Hfull as [|? ? Hp Hps]; subst.
    cbn [getIssues_loop]. unfold bind at 1, fetchFromGitHub at 1. rewrite E.
    destruct (List.length p =? 0)%nat eqn:E0.
    { apply Nat.eqb_eq in E0. unfold perPage in Hp. lia. }
    apply Nat.ltb_ge in Hp. rewrite Hp.
    rewrite (IH fuel (S page) (acc ++ filter (keepIssue since) p)
                (send (ReqIssues owner repo since page) s)).
    + change (List.concat ((p :: ps) ++ [last])) with (p ++ List.concat (ps ++ [last])).
      rewrite filter_app, app_assoc. reflexivity.
    + intros i issues Hi. replace (S page + i)%nat with (page + S i)%nat by lia.
      apply Hapi. exact Hi.
    + exact Hps.
    + exact Hlast.
    + simpl in Hfuel. lia.
Qed.

(** A page that fails after full pages without any stale pull request. *)
Lemma getPullRequests_loop_fails (owner repo : string) (since : Z)
    (pages : list (list GitHubPullRequest)) (text : string) :
  forall (fuel page : nat) (acc : list GitHubPullRequest) (s : Run),
    (forall i prs, nth_error pages i = Some prs ->
                   api (ReqPulls owner repo (page + i)) = Ok prs) ->
    api (ReqPulls owner repo (page + List.length pages)) = NotOk text ->
    Forall (fun prs => lastPullRequestPage since prs = false) pages ->
    (List.length pages < fuel)%nat ->
    getPullRequests_loop api fuel owner repo since page acc s =
      Threw ("GitHub API: " ++ text)%string
            (sendAll (map (ReqPulls owner repo) (seq page (S (List.length pages)))) s).
Proof.
  induction pages as [|p ps IH]; intros fuel page acc s Hapi Hfail Hfull Hfuel.
  - destruct fuel as [|fuel]; [simpl in Hfuel; lia|].
    simpl in Hfail. rewrite Nat.add_0_r in Hfail.
    simpl. unfold bind, fetchFromGitHub. rewrite Hfail. reflexivity.
  - destruct fuel as [|fuel]; [simpl in Hfuel; lia|].
    assert (E : api (ReqPulls owner repo page) = Ok p).
    { rewrite <- (Nat.add_0_r page). apply Hapi. reflexivity. }
    inversion Hfull as [|? ? Hp Hps]; subst.
    cbn [getPullRequests_loop]. unfold bind at 1, fetchFromGitHub at 1. rewrite E.
    destruct (List.length p =? 0)%nat eqn:E0.
    { apply Nat.eqb_eq in E0. apply lastPullRequestPage_false in Hp.
      unfold perPage in Hp. lia. }
    rewrite Hp.
    rewrite (IH fuel (S page) (acc ++ filter (keepPullRequest since) p)
                (send (ReqPulls owner repo page) s)).
    + reflexivity.
    + intros i prs Hi. replace (S page + i)%nat with (page + S i)%nat by lia.
      apply Hapi. exact Hi.
    + replace (S page + List.length ps)%nat with (page + List.length (p :: ps))%nat
        by (simpl; lia).
      exact Hfail.
    + exact Hps.
    + simpl in Hfuel. lia.
Qed.
End OtherPages.

(** X3.  [getRepositories] requests the pages up to the first one that holds
    fewer than 100 repositories, and returns the repositories of these
    pages that are neither archived nor disabled, in the order of the
    pages. *)
Theorem getRepositories_stops
    (api : GitHub) (pages : list (list Repository)) (last : list Repository)
    (fuel : nat) (s : Run) :
  (forall i repos, nth_error (pages ++ [last]) i = Some repos ->
                   api (ReqRepos (S i)) = Ok repos) ->
  Forall (fun repos => (100 <= List.length repos)%nat) pages ->
  (List.length last < 100)%nat ->
  (List.length pages < fuel)%nat ->
  getRepositories api fuel s =
    Done (filter (fun repo => negb (repo_archived repo) && negb (repo_disabled repo))
                 (List.concat (pages ++ [last])))
         (sendAll (map ReqRepos (seq 1 (S (List.length pages)))) s).
Proof.
  intros Hapi Hfull Hlast Hfuel. unfold getRepositories, bind.
  rewrite (getRepositories_loop_run api pages last fuel 1 [] s Hapi Hfull Hlast Hfuel).
  reflexivity.
Qed.

(** X6.  [getIssues] requests the pages up to the first one that holds fewer
    than 100 entries, a page with entries older than the cutoff included,
    and returns the entries of these pages that are not pull requests, are
    by non-bot authors and were updated at or after the cutoff. *)
Theorem getIssues_stops
    (api : GitHub) (owner repo : string) (since : Z)
    (pages : list (list GitHubIssue)) (last : list GitHubIssue)
    (fuel : nat) (s : Run) :
  (forall i issues, nth_error (pages ++ [last]) i = Some issues ->
                    api (ReqIssues owner repo since (S i)) = Ok issues) ->
  Forall (fun issues => (100 <= List.length issues)%nat) pages ->
  (List.length last < 100)%nat ->
  (List.length pages < fuel)%nat ->
  getIssues api fuel owner repo since s =
    Done (filter (fun issue => negb (issue_pull_request issue)
                               && negb (isBotUser (Some (issue_user issue)))
                               && (issue_updated_at issue >=? since))
                 (List.concat (pages ++ [last])))
         (sendAll (map (ReqIssues owner repo since) (seq 1 (S (List.length pages)))) s).
Proof.
  intros Hapi Hfull Hlast Hfuel. unfold getIssues.
  rewrite (getIssues_loop_run api owner repo since pages last fuel 1 [] s
             Hapi Hfull Hlast Hfuel).
  reflexivity.
Qed.

(** X5.  When a page fails after full pages without any pull request older than
    the cutoff, [getPullRequests] throws after the request of that page:
    the pull requests of the pages already read are not returned. *)
Theorem getPullRequests_fails_whole
    (api : GitHub) (owner repo : string) (since : Z)
    (pages : list (list GitHubPullRequest)) (text : string) (fuel : nat) (s : Run) :
  (forall i prs, nth_error pages i = Some prs ->
                 api (ReqPulls owner repo (S i)) = Ok prs) ->
  api (ReqPulls owner repo (S (List.length pages))) = NotOk text ->
  Forall (fun prs => (100 <= List.length prs)%nat
                     /\ Forall (fun pr => since <= pr_updated_at pr) prs) pages ->
  (List.length pages < fuel)%nat ->
  exists error,
    getPullRequests api fuel owner repo since s =
      Threw error (sendAll (map (ReqPulls owner repo) (seq 1 (S (List.length pages)))) s).
Proof.
  intros Hapi Hfail Hfull Hfuel. unfold getPullRequests.
  eexists.
  apply (getPullRequests_loop_fails api owner repo since pages text fuel 1 [] s).
  - exact Hapi.
  - exact Hfail.
  - eapply Forall_impl; [|exact Hfull]. intros prs H.
    apply lastPullRequestPage_false. exact H.
  - exact Hfuel.
Qed.

(** ** Composite keys: writing and reading back *)

Lemma hasChar_append (c : ascii) (a b : string) :
  hasChar c (a ++ b) = hasChar c a || hasChar c b.
Proof.
  induction a as [|x a IH]; simpl; [reflexivity|].
  rewrite IH, orb_assoc. reflexivity.
Qed.

Lemma split_aux_skip (sep : ascii) (a : string) :
  forall cur rest, hasChar sep a = false ->
    Js.split_aux sep cur (a ++ rest) = Js.split_aux sep (cur ++ a) rest.
Proof.
  induction a as [|x a IH]; intros cur rest H; simpl.
  - rewrite append_empty_r. reflexivity.
  - simpl in H. apply orb_false_iff in H. destruct H as [Hx Ha].
    rewrite Hx. rewrite (IH _ _ Ha). rewrite append_assoc. reflexivity.
Qed.

Lemma split_two (sep : ascii) (a b : string) :
  hasChar sep a = false -> hasChar sep b = false ->
  Js.split sep (a ++ String sep b) = [a; b].
Proof.
  intros Ha Hb. unfold Js.split. rewrite (split_aux_skip sep a _ _ Ha). simpl.
  rewrite Ascii.eqb_refl. f_equal.
  rewrite <- (append_empty_r b) at 1. rewrite (split_aux_skip sep b _ _ Hb). reflexivity.
Qed.

Lemma digit_char (n : Z) :
  let c := ascii_of_nat (48 + Z.to_nat (n mod 10)) in
  Js.is_digit c = true /\ Js.digit_val c = n mod 10
  /\ Js.is_space c = false /\ Ascii.eqb c "#" = false /\ Ascii.eqb c "/" = false
  /\ Ascii.eqb c "-" = false /\ Ascii.eqb c "+" = false.
Proof.
  pose proof (Z.mod_pos_bound n 10 ltac:(lia)) as Hb.
  intros c. subst c. remember (Z.to_nat (n mod 10)) as d eqn:Hd.
  assert (E : n mod 10 = Z.of_nat d) by lia. rewrite E.
  assert (Hlt : (d < 10)%nat) by lia. clear Hd E Hb.
  destruct d as [|[|[|[|[|[|[|[|[|[|d]]]]]]]]]];
    try (repeat split; reflexivity).
  lia.
Qed.

Lemma digits_of_step (fuel : nat) (n : Z) (acc : string) :
  Js.digits_of (S fuel) n acc =
  if n <? 10 then String (ascii_of_nat (48 + Z.to_nat (n mod 10))) acc
  else Js.digits_of fuel (n / 10) (String (ascii_of_nat (48 + Z.to_nat (n mod 10))) acc).
Proof. reflexivity. Qed.

Lemma digits_of_head (n : Z) (acc : string) :
  forall fuel, exists c rest,
    Js.digits_of (S fuel) n acc = String c rest /\ Js.is_digit c = true
    /\ Js.is_space c = false /\ Ascii.eqb c "-" = false /\ Ascii.eqb c "+" = false.
Proof.
  intros fuel. revert n acc. induction fuel as [|fuel IH]; intros n acc;
    rewrite digits_of_step.
  - destruct (digit_char n) as (H1 & _ & H3 & _ & _ & H6 & H7).
    simpl. destruct (n <? 10); eexists; eexists; (split; [reflexivity|auto]).
  - destruct (n <? 10).
    + destruct (digit_char n) as (H1 & _ & H3 & _ & _ & H6 & H7).
      eexists; eexists; (split; [reflexivity|auto]).
    + apply IH.
Qed.

Lemma digits_prefix_digit (st : option Z) (n : Z) (acc : string) :
  0 <= n < 10 ->
  Js.digits_prefix st (String (ascii_of_nat (48 + Z.to_nat (n mod 10))) acc)
  = Js.digits_prefix (Some (10 * match st with Some a => a | None => 0 end + n)) acc.
Proof.
  intros Hn. destruct (digit_char n) as (H1 & H2 & _). cbv zeta in H1, H2.
  cbn [Js.digits_prefix]. rewrite H1, H2, Z.mod_small by lia. reflexivity.
Qed.

Lemma digits_of_value :
  forall fuel n acc, 0 <= n < 2 ^ Z.of_nat (S fuel) ->
    Js.digits_prefix None (Js.digits_of (S fuel) n acc) = Js.digits_prefix (Some n) acc.
Proof.
  induction fuel as [|fuel IH]; intros n acc Hn; rewrite digits_of_step.
  - assert (Hlt : n < 10) by (simpl in Hn; lia).
    apply Z.ltb_lt in Hlt as Hb. rewrite Hb.
    rewrite digits_prefix_digit by lia. reflexivity.
  - destruct (n <? 10) eqn:Hlt.
    + apply Z.ltb_lt in Hlt. rewrite digits_prefix_digit by lia. reflexivity.
    + apply Z.ltb_ge in Hlt.
      rewrite IH.
      * destruct (digit_char n) as (H1 & H2 & _). cbv zeta in H1, H2.
        cbn [Js.digits_prefix]. rewrite H1, H2.
        f_equal. f_equal. pose proof (Z.div_mod n 10 ltac:(lia)). lia.
      * replace (Z.of_nat (S (S fuel))) with (Z.of_nat (S fuel) + 1) in Hn by lia.
        rewrite Z.pow_add_r in Hn by lia.
        split; [apply Z.div_pos; lia|].
        apply Z.div_lt_upper_bound; lia.
Qed.

Lemma digits_of_chars (c : ascii) :
  Js.is_digit c = false ->
  forall fuel n acc, hasChar c acc = false -> hasChar c (Js.digits_of fuel n acc) = false.
Proof.
  intros Hc. induction fuel as [|fuel IH]; intros n acc Hacc; [exact Hacc|].
  rewrite digits_of_step.
  assert (Hnew : hasChar c (String (ascii_of_nat (48 + Z.to_nat (n mod 10))) acc) = false).
  { cbn [hasChar]. rewrite Hacc, orb_false_r.
    destruct (Ascii.eqb _ c) eqn:E; [|reflexivity].
    apply Ascii.eqb_eq in E. subst c.
    destruct (digit_char n) as (H1 & _). cbv zeta in H1. rewrite H1 in Hc. discriminate. }
  destruct (n <? 10); [exact Hnew|apply IH, Hnew].
Qed.

Lemma log2_fuel (n : Z) : 0 <= n -> 0 <= n < 2 ^ Z.of_nat (S (Z.to_nat (Z.log2 n))).
Proof.
  intros Hn. split; [exact Hn|].
  destruct (Z.eq_dec n 0) as [->|Hz]; [reflexivity|].
  pose proof (Z.log2_nonneg n) as H0. pose proof (Z.log2_spec n ltac:(lia)) as [_ H].
  replace (Z.of_nat (S (Z.to_nat (Z.log2 n)))) with (Z.succ (Z.log2 n)) by lia.
  exact H.
Qed.

Lemma parseInt_digits (c : ascii) (rest : string) :
  Js.is_space c = false -> Ascii.eqb c "-" = false -> Ascii.eqb c "+" = false ->
  Js.parseInt (String c rest) = Js.digits_prefix None (String c rest).
Proof.
  intros Hs Hm Hp. unfold Js.parseInt. cbn [Js.skip_spaces]. rewrite Hs.
  destruct c as [b0 b1 b2 b3 b4 b5 b6 b7].
  destruct b0, b1, b2, b3, b4, b5, b6, b7; try reflexivity; discriminate.
Qed.

(** A number written in a key is read back by [parseInt]. *)
Lemma parseInt_toString (n : Z) : Js.parseInt (Js.toString n) = Some n.
Proof.
  unfold Js.toString. destruct (n <? 0) eqn:E.
  - apply Z.ltb_lt in E. unfold Js.parseInt. cbn [Js.skip_spaces].
    change (Js.is_space "-") with false. cbv iota.
    rewrite digits_of_value by (apply log2_fuel; lia).
    simpl. f_equal. lia.
  - apply Z.ltb_ge in E.
    destruct (digits_of_head n EmptyString (Z.to_nat (Z.log2 n)))
      as (c & rest & Heq & _ & Hs & Hm & Hp).
    rewrite Heq, (parseInt_digits c rest Hs Hm Hp), <- Heq.
    rewrite digits_of_value by (apply log2_fuel; lia). reflexivity.
Qed.

Lemma toString_chars (c : ascii) (n : Z) :
  Js.is_digit c = false -> Ascii.eqb "-" c = false -> hasChar c (Js.toString n) = false.
Proof.
  intros Hd Hm. unfold Js.toString. destruct (n <? 0).
  - cbn [hasChar]. rewrite Hm. cbn [orb]. apply digits_of_chars; [exact Hd|reflexivity].
  - apply digits_of_chars; [exact Hd|reflexivity].
Qed.

Lemma toString_not_empty (n : Z) : Js.toString n <> "".
Proof.
  unfold Js.toString. destruct (n <? 0); [discriminate|].
  destruct (digits_of_head n EmptyString (Z.to_nat (Z.log2 n))) as (c & rest & Heq & _).
  rewrite Heq. discriminate.
Qed.

Lemma compositeKey_shape (repo : Repository) (n : Z) :
  compositeKeyOf repo n
  = ((repo_owner repo ++ String "/" (repo_name repo)) ++ String "#" (Js.toString n))%string.
Proof.
  unfold compositeKeyOf. rewrite append_assoc. reflexivity.
Qed.

Lemma compositeKey_split (repo : Repository) (n : Z) :
  hasChar "#" (repo_owner repo) = false -> hasChar "#" (repo_name repo) = false ->
  Js.split "#" (compositeKeyOf repo n)
  = [(repo_owner repo ++ String "/" (repo_name repo))%string; Js.toString n].
Proof.
  intros Ho Hn. rewrite compositeKey_shape. apply split_two.
  - rewrite hasChar_append. cbn [hasChar]. rewrite Ho, Hn. reflexivity.
  - apply toString_chars; reflexivity.
Qed.

Lemma keyHasNumber_written
    (repoMap : JsObject.t string) (repo : Repository) (n m : Z) (name : string) :
  hasChar "#" (repo_owner repo) = false -> hasChar "#" (repo_name repo) = false ->
  JsObject.get repoMap (compositeKeyOf repo n) = Some name -> name <> "" ->
  (keyHasNumber repoMap m (compositeKeyOf repo n) = true <-> m = n).
Proof.
  intros Ho Hn Hget Hname. unfold keyHasNumber.
  rewrite (compositeKey_split repo n Ho Hn).
  pose proof (toString_not_empty n) as Hne. apply String.eqb_neq in Hne. rewrite Hne.
  rewrite parseInt_toString. unfold JsObject.lookup. rewrite Hget.
  apply String.eqb_neq in Hname. rewrite Hname. simpl. rewrite andb_true_r.
  rewrite Z.eqb_eq. split; intros H; symmetry; exact H.
Qed.

Lemma owningPullRequest_written
    (pullRequests : list GitHubPullRequest) (repoMap : JsObject.t string)
    (repo : Repository) (n : Z) :
  plainRepository repo ->
  JsObject.get repoMap (compositeKeyOf repo n) = Some (repo_name repo) ->
  owningPullRequest pullRequests repoMap (compositeKeyOf repo n)
  = find (fun p => pr_number p =? n) pullRequests.
Proof.
  intros [(Ho1 & Ho2 & Ho3) (Hn1 & Hn2 & Hn3)] Hget. unfold owningPullRequest.
  rewrite (compositeKey_split repo n Ho2 Hn2).
  assert (E1 : String.eqb (repo_owner repo ++ String "/" (repo_name repo)) "" = false).
  { apply String.eqb_neq. destruct (repo_owner repo); discriminate. }
  rewrite E1. pose proof (toString_not_empty n) as Hne.
  apply String.eqb_neq in Hne. rewrite Hne. cbn [orb].
  rewrite (split_two "/" _ _ Ho3 Hn3).
  apply String.eqb_neq in Hn1. rewrite Hn1.
  rewrite parseInt_toString. unfold JsObject.lookup. rewrite Hget.
  rewrite String.eqb_refl.
  induction pullRequests as [|p ps IH]; simpl; [reflexivity|].
  rewrite andb_true_r. destruct (pr_number p =? n); [reflexivity|exact IH].
Qed.

Lemma compositeKey_number_inj (repo repo' : Repository) (n n' : Z) :
  plainRepository repo -> plainRepository repo' ->
  compositeKeyOf repo n = compositeKeyOf repo' n' -> n = n'.
Proof.
  intros [(_ & Ho & _) (_ & Hn & _)] [(_ & Ho' & _) (_ & Hn' & _)] Heq.
  pose proof (compositeKey_split repo n Ho Hn) as S1.
  pose proof (compositeKey_split repo' n' Ho' Hn') as S2.
  rewrite Heq, S2 in S1. injection S1 as _ Ht.
  pose proof (parseInt_toString n) as P1. rewrite <- Ht, parseInt_toString in P1.
  injection P1 as ->. reflexivity.
Qed.

(** X8.  The key the orchestrator writes for item [n], a safe integer, of
    a repository whose owner and name hold no ['#'] is read back by the scan
    of the aggregators as the number [n] and no other, when the map holds a
    name that is not empty under it. *)
Theorem compositeKey_read_back
    (repoMap : JsObject.t string) (repo : Repository) (n : Z) (name : string) :
  Js.safeInteger n ->
  hasChar "#" (repo_owner repo) = false -> hasChar "#" (repo_name repo) = false ->
  JsObject.get repoMap (compositeKeyOf repo n) = Some name -> name <> "" ->
  forall m, keyHasNumber repoMap m (compositeKeyOf repo n) = true <-> m = n.
Proof.
  intros _ Ho Hn Hget Hname m.
  apply (keyHasNumber_written repoMap repo n m name Ho Hn Hget Hname).
Qed.

(** X9.  The reviews stored under the key of pull request [n], a safe
    integer, of a repository whose owner and name are not empty and hold
    neither ['#'] nor ['/'] are counted against the first pull request of
    number [n] in the list, of whatever repository, when the map holds the
    name of the repository under the key. *)
Theorem compositeKey_owner
    (pullRequests : list GitHubPullRequest) (repoMap : JsObject.t string)
    (repo : Repository) (n : Z) :
  Js.safeInteger n ->
  plainRepository repo ->
  JsObject.get repoMap (compositeKeyOf repo n) = Some (repo_name repo) ->
  owningPullRequest pullRequests repoMap (compositeKeyOf repo n)
  = find (fun p => pr_number p =? n) pullRequests.
Proof.
  intros _ Hplain Hget.
  apply (owningPullRequest_written pullRequests repoMap repo n Hplain Hget).
Qed.

(** ** Membership in a dictionary *)

Lemma in_set_inv {V : Type} (o : JsObject.t V) (j k : string) (v x : V) :
  In (k, x) (JsObject.set o j v) -> (k = j /\ x = v) \/ In (k, x) o.
Proof.
  unfold JsObject.set. induction o as [|[k0 v0] rest IH]; simpl.
  - intros [H|[]]. injection H as <- <-. left. auto.
  - destruct (String.eqb k0 j) eqn:E; simpl.
    + apply String.eqb_eq in E. subst k0.
      intros [H|H]; [injection H as <- <-; left; auto|right; right; exact H].
    + intros [H|H]; [right; left; exact H|].
      destruct (IH H) as [H'|H']; [left; exact H'|right; right; exact H'].
Qed.

Lemma in_set_key {V : Type} (o : JsObject.t V) (j k : string) (v x : V) :
  In (k, x) o -> exists x', In (k, x') (JsObject.set o j v).
Proof.
  unfold JsObject.set. induction o as [|[k0 v0] rest IH]; simpl; [tauto|].
  intros [H|H].
  - injection H as -> ->. destruct (String.eqb k j); eexists; left; reflexivity.
  - destruct (String.eqb k0 j).
    + exists x. right. exact H.
    + destruct (IH H) as [x' Hx']. exists x'. right. exact Hx'.
Qed.

Lemma in_set_new {V : Type} (o : JsObject.t V) (j : string) (v : V) :
  In (j, v) (JsObject.set o j v).
Proof.
  unfold JsObject.set. induction o as [|[k0 v0] rest IH]; simpl; [left; reflexivity|].
  destruct (String.eqb k0 j) eqn:E.
  - apply String.eqb_eq in E. subst k0. left. reflexivity.
  - right. exact IH.
Qed.

Lemma get_In {V : Type} (o : JsObject.t V) (k : string) (v : V) :
  JsObject.get o k = Some v -> In (k, v) o.
Proof.
  unfold JsObject.get. induction o as [|[k0 v0] rest IH]; simpl; [discriminate|].
  destruct (String.eqb k0 k) eqn:E.
  - apply String.eqb_eq in E. subst k0. intros H. injection H as <-. left. reflexivity.
  - intros H. right. apply IH, H.
Qed.

Lemma In_get {V : Type} (o : JsObject.t V) (k : string) (v : V) :
  In (k, v) o -> exists v', JsObject.get o k = Some v'.
Proof.
  unfold JsObject.get. induction o as [|[k0 v0] rest IH]; simpl; [tauto|].
  intros [H|H].
  - injection H as -> ->. rewrite String.eqb_refl. eexists. reflexivity.
  - destruct (String.eqb k0 k); [eexists; reflexivity|apply IH, H].
Qed.

Lemma filter_split_perm {A : Type} (p : A -> bool) (l : list A) :
  Permutation (filter p l ++ filter (fun x => negb (p x)) l) l.
Proof.
  induction l as [|x l IH]; simpl; [constructor|].
  destruct (p x); simpl.
  - constructor. exact IH.
  - eapply Permutation_trans; [apply Permutation_sym, Permutation_middle|].
    constructor. exact IH.
Qed.

(** [Object.entries] lists every own property once. *)
Lemma entries_perm {V : Type} (o : JsObject.t V) : Permutation (JsObject.entries o) o.
Proof.
  unfold JsObject.entries.
  eapply Permutation_trans; [|apply (filter_split_perm JsObject.isIndexKey)].
  apply Permutation_app_tail. apply Permutation_sym, sort_perm.
Qed.

Lemma In_keys {V : Type} (o : JsObject.t V) (k : string) :
  In k (JsObject.keys o) <-> exists v, In (k, v) o.
Proof.
  unfold JsObject.keys. rewrite in_map_iff. split.
  - intros [[k0 v] [Hk Hin]]. simpl in Hk. subst k0. exists v.
    eapply Permutation_in; [apply entries_perm|exact Hin].
  - intros [v Hin]. exists (k, v). split; [reflexivity|].
    eapply Permutation_in; [apply Permutation_sym, entries_perm|exact Hin].
Qed.

Lemma find_found {A : Type} (f : A -> bool) (l : list A) (x : A) :
  In x l -> f x = true -> exists y, find f l = Some y.
Proof.
  intros Hin Hf. destruct (find f l) as [y|] eqn:E; [eexists; reflexivity|].
  rewrite (find_none f l E x Hin) in Hf. discriminate.
Qed.

(** ** The orchestrator keeps its collections consistent *)

Lemma triple_frame {A : Type} (m : M A) (Q : A -> Prop) (P : Run -> Prop) :
  (forall c, triple (untouched c) m (fun a s => Q a /\ untouched c s) (untouched c)) ->
  (forall s s', collections s = collections s' -> P s -> P s') ->
  triple P m (fun a s => Q a /\ P s) P.
Proof.
  intros H HP s Hs. specialize (H (collections s) s eq_refl).
  destruct (m s) as [a s'|e s'|]; [|apply (HP s s'); [symmetry; exact H|exact Hs]|exact I].
  destruct H as [Hq Hc]. split; [exact Hq|].
  apply (HP s s'); [symmetry; exact Hc|exact Hs].
Qed.

Lemma triple_frame_total {A : Type} (m : M A) (Q : A -> Prop) (P E : Run -> Prop) :
  (forall c, triple (untouched c) m (fun a s => Q a /\ untouched c s) (fun _ => False)) ->
  (forall s s', collections s = collections s' -> P s -> P s') ->
  triple P m (fun a s => Q a /\ P s) E.
Proof.
  intros H HP s Hs. specialize (H (collections s) s eq_refl).
  destruct (m s) as [a s'|e s'|]; [|destruct H|exact I].
  destruct H as [Hq Hc]. split; [exact Hq|].
  apply (HP s s'); [symmetry; exact Hc|exact Hs].
Qed.

Ltac same_collections :=
  let Hc := fresh "Hc" in
  let H1 := fresh "H" in let H2 := fresh "H" in
  let H3 := fresh "H" in let H4 := fresh "H" in
  intros ? ? Hc; unfold collections in Hc; injection Hc as H1 H2 H3 H4;
  unfold wellKeyed, wellKeyedBut, hasKey, keyPresent;
  rewrite <- ?H1, <- ?H2, <- ?H3, <- ?H4; auto.

Section RunFacts.
Variable api : GitHub.

Lemma wellKeyedBut_collections (pending : list Z) (s s' : Run) :
  collections s = collections s' ->
  wellKeyedBut api pending s -> wellKeyedBut api pending s'.
Proof. revert s s'. same_collections. Qed.

Lemma keyPresent_setRepoMap (s : Run) (j v key : string) :
  keyPresent s key -> keyPresent (setRepoMap j v s) key.
Proof.
  intros [name H]. unfold keyPresent. simpl. apply (in_set_key _ j key v name H).
Qed.

Lemma hasKey_setRepoMap (s : Run) (j v : string) (n : Z) :
  hasKey api s n -> hasKey api (setRepoMap j v s) n.
Proof.
  intros [repo [Hl Hk]]. exists repo. split; [exact Hl|].
  apply keyPresent_setRepoMap, Hk.
Qed.

(** Writing the key of item [n]. *)
Lemma wellKeyedBut_setRepoMap (repo : Repository) (n : Z) (pending : list Z) (s : Run) :
  listed api repo ->
  wellKeyedBut api (n :: pending) s ->
  wellKeyedBut api pending (setRepoMap (compositeKeyOf repo n) (repo_name repo) s).
Proof.
  intros Hl (H1 & H2 & H3 & H4).
  assert (Hnew : hasKey api (setRepoMap (compositeKeyOf repo n) (repo_name repo) s) n).
  { exists repo. split; [exact Hl|]. exists (repo_name repo). simpl. apply in_set_new. }
  split; [|split; [|split]].
  - intros key name Hin. simpl in Hin. apply in_set_inv in Hin.
    destruct Hin as [[-> ->]|Hin]; [|apply H1, Hin].
    exists repo, n. auto.
  - intros pr Hpr. simpl in Hpr. destruct (H2 pr Hpr) as [[Hn|Hp]|Hk].
    + right. rewrite <- Hn. exact Hnew.
    + left. exact Hp.
    + right. apply hasKey_setRepoMap, Hk.
  - intros issue Hi. simpl in Hi. destruct (H3 issue Hi) as [[Hn|Hp]|Hk].
    + right. rewrite <- Hn. exact Hnew.
    + left. exact Hp.
    + right. apply hasKey_setRepoMap, Hk.
  - intros key reviews Hin. simpl in Hin.
    destruct (H4 key reviews Hin) as (Ha & Hb & Hc & Hd).
    repeat split; [exact Ha|exact Hb|apply keyPresent_setRepoMap, Hc|exact Hd].
Qed.

(** The loops that write the keys of the items just pushed. *)
Lemma writeKeys_spec {X : Type} (number : X -> Z) (repo : Repository)
    (F : Run -> Prop) (E : Run -> Prop) :
  listed api repo ->
  (forall j v s, F s -> F (setRepoMap j v s)) ->
  forall (l : list X) (pending : list Z) (keys : list string),
    triple (fun s => wellKeyedBut api (map number l ++ pending) s
                     /\ Forall (keyPresent s) keys /\ F s)
           (forEach l (fun x => modify (setRepoMap (compositeKeyOf repo (number x))
                                                   (repo_name repo))))
           (fun _ s => wellKeyedBut api pending s
                       /\ Forall (keyPresent s)
                            (keys ++ map (fun x => compositeKeyOf repo (number x)) l)
                       /\ F s)
           E.
Proof.
  intros Hl HF. induction l as [|x l IH]; intros pending keys; simpl.
  - apply triple_ret. intros s (H1 & H2 & H3). rewrite app_nil_r. auto.
  - apply triple_bind with
      (R := fun _ s => wellKeyedBut api (map number l ++ pending) s
                       /\ Forall (keyPresent s) (keys ++ [compositeKeyOf repo (number x)])
                       /\ F s).
    + apply triple_modify. intros s (H1 & H2 & H3). split; [|split].
      * apply wellKeyedBut_setRepoMap; assumption.
      * apply Forall_app. split.
        -- eapply Forall_impl; [|exact H2]. intros key. apply keyPresent_setRepoMap.
        -- constructor; [|constructor]. exists (repo_name repo). simpl. apply in_set_new.
      * apply HF, H3.
    + intros u. eapply triple_weaken; [apply (IH pending (keys ++ [compositeKeyOf repo (number x)]))| | |].
      * auto.
      * intros a s (H1 & H2 & H3). rewrite <- app_assoc in H2. auto.
      * auto.
Qed.

Lemma wellKeyedBut_pushPullRequests (prs : list GitHubPullRequest) (s : Run) :
  wellKeyed api s ->
  wellKeyedBut api (map pr_number prs ++ []) (pushPullRequests prs s).
Proof.
  intros (H1 & H2 & H3 & H4). split; [|split; [|split]].
  - exact H1.
  - intros pr Hpr. simpl in Hpr. apply in_app_or in Hpr. destruct Hpr as [Hpr|Hpr].
    + destruct (H2 pr Hpr) as [[]|H]. right. exact H.
    + left. rewrite app_nil_r. apply in_map, Hpr.
  - intros issue Hi. destruct (H3 issue Hi) as [[]|H]. right. exact H.
  - intros key reviews Hin. destruct (H4 key reviews Hin) as (Ha & Hb & Hc & repo & pr & Hd & He & Hf).
    repeat split; [exact Ha|exact Hb|exact Hc|].
    exists repo, pr. repeat split; [exact Hd|exact He|].
    simpl. apply in_or_app. left. exact Hf.
Qed.

Lemma wellKeyedBut_pushIssues (issues : list GitHubIssue) (s : Run) :
  wellKeyed api s ->
  wellKeyedBut api (map issue_number issues ++ []) (pushIssues issues s).
Proof.
  intros (H1 & H2 & H3 & H4). split; [|split; [|split]].
  - exact H1.
  - intros pr Hpr. destruct (H2 pr Hpr) as [[]|H]. right. exact H.
  - intros issue Hi. simpl in Hi. apply in_app_or in Hi. destruct Hi as [Hi|Hi].
    + destruct (H3 issue Hi) as [[]|H]. right. exact H.
    + left. rewrite app_nil_r. apply in_map, Hi.
  - exact H4.
Qed.

Lemma wellKeyed_setReviews (repo : Repository) (pr : GitHubPullRequest)
    (reviews : list GitHubReview) (s : Run) :
  listed api repo -> In pr (allPullRequests s) ->
  keyPresent s (compositeKeyOf repo (pr_number pr)) ->
  reviews <> [] -> Forall (fun r => isBotUser (review_user r) = false) reviews ->
  wellKeyed api s ->
  wellKeyed api (setReviews (compositeKeyOf repo (pr_number pr)) reviews s).
Proof.
  intros Hl Hpr Hk Hne Hbot (H1 & H2 & H3 & H4). split; [|split; [|split]].
  - exact H1.
  - exact H2.
  - exact H3.
  - intros key rs Hin. simpl in Hin. apply in_set_inv in Hin.
    destruct Hin as [[-> ->]|Hin].
    + repeat split; [exact Hne|exact Hbot|exact Hk|]. exists repo, pr. auto.
    + apply (H4 key rs Hin).
Qed.
Lemma getPullRequests_keeps (P : Run -> Prop) (fuel : nat) (owner repo : string)
    (since : Z) :
  (forall s s', collections s = collections s' -> P s -> P s') ->
  triple P (getPullRequests api fuel owner repo since)
    (fun prs s => Forall (fun pr => keepPullRequest since pr = true) prs /\ P s) P.
Proof.
  intros HP. unfold getPullRequests.
  apply (triple_frame _ (fun prs => Forall (fun pr => keepPullRequest since pr = true) prs));
    [|exact HP].
  intros c. apply getPullRequests_loop_safe. constructor.
Qed.

Lemma getIssues_keeps (P : Run -> Prop) (fuel : nat) (owner repo : string) (since : Z) :
  (forall s s', collections s = collections s' -> P s -> P s') ->
  triple P (getIssues api fuel owner repo since)
    (fun issues s => Forall (fun issue => keepIssue since issue = true) issues /\ P s) P.
Proof.
  intros HP. unfold getIssues.
  apply (triple_frame _ (fun issues =>
                           Forall (fun issue => keepIssue since issue = true) issues));
    [|exact HP].
  intros c. apply getIssues_loop_safe. constructor.
Qed.

Lemma collectReviews_keeps (repo : Repository) (prs : list GitHubPullRequest)
    (pr : GitHubPullRequest) (E : Run -> Prop) :
  listed api repo -> In pr prs ->
  triple (fetchingReviews api repo prs) (collectReviews api repo pr)
    (fun _ => fetchingReviews api repo prs) E.
Proof.
  intros Hl Hpr. unfold collectReviews.
  apply triple_bind with
    (R := fun reviews s => Forall (fun r => isBotUser (review_user r) = false) reviews
                           /\ fetchingReviews api repo prs s).
  - apply (triple_frame_total _
             (fun reviews => Forall (fun r => isBotUser (review_user r) = false) reviews)).
    + intros c. apply getReviews_safe.
    + unfold fetchingReviews. same_collections.
  - intros reviews. destruct (0 <? List.length reviews)%nat eqn:El.
    + apply triple_modify. intros s (Hbot & Hw & Hkeys & Hin).
      split; [|split].
      * apply wellKeyed_setReviews; try assumption.
        -- apply Hin, Hpr.
        -- rewrite Forall_forall in Hkeys. apply Hkeys. simpl.
           apply in_map_iff. exists pr. auto.
        -- intros ->. discriminate.
      * exact Hkeys.
      * exact Hin.
    + apply triple_ret. intros s (_ & H). exact H.
Qed.

(** One repository: the collections stay consistent, and nothing is
    thrown. *)
Lemma processRepository_keeps (fuel : nat) (since : Z) (repo : Repository) :
  listed api repo ->
  triple (wellKeyed api) (processRepository api fuel since repo)
    (fun _ => wellKeyed api) (fun _ => False).
Proof.
  intros Hl. unfold processRepository.
  apply triple_tryCatch with (E' := wellKeyed api);
    [|intros e; apply triple_ret; auto].
  apply triple_bind with (R := fun prs s => wellKeyed api s).
  { eapply triple_weaken; [apply (getPullRequests_keeps (wellKeyed api))| | |].
    - apply wellKeyedBut_collections.
    - auto.
    - intros a s [_ H]. exact H.
    - auto. }
  intros pullRequests.
  apply triple_bind with
    (R := fun _ s => wellKeyedBut api (map pr_number pullRequests ++ []) s
                     /\ Forall (keyPresent s) []
                     /\ (forall pr, In pr pullRequests -> In pr (allPullRequests s))).
  { apply triple_modify. intros s Hs. split; [|split].
    - apply wellKeyedBut_pushPullRequests, Hs.
    - constructor.
    - intros pr Hpr. simpl. apply in_or_app. right. exact Hpr. }
  intros u1.
  apply triple_bind with (R := fun _ => fetchingReviews api repo pullRequests).
  { exact (writeKeys_spec pr_number repo
             (fun s => forall pr, In pr pullRequests -> In pr (allPullRequests s))
             (wellKeyed api) Hl (fun _ _ _ H => H) pullRequests [] []). }
  intros u2.
  apply triple_bind with (R := fun _ => fetchingReviews api repo pullRequests).
  { apply triple_forEach. intros pr Hpr. apply collectReviews_keeps; [exact Hl|].
    unfold slice0 in Hpr. rewrite <- (firstn_skipn 30 pullRequests).
    apply in_or_app. left. exact Hpr. }
  intros u3.
  apply triple_bind with (R := fun issues s => wellKeyed api s).
  { eapply triple_weaken; [apply (getIssues_keeps (wellKeyed api))| | |].
    - apply wellKeyedBut_collections.
    - intros s (H & _). exact H.
    - intros a s [_ H]. exact H.
    - auto. }
  intros issues.
  apply triple_bind with
    (R := fun _ s => wellKeyedBut api (map issue_number issues ++ []) s
                     /\ Forall (keyPresent s) [] /\ True).
  { apply triple_modify. intros s Hs. split; [|split].
    - apply wellKeyedBut_pushIssues, Hs.
    - constructor.
    - exact I. }
  intros u4.
  pose proof (writeKeys_spec issue_number repo (fun _ => True) (wellKeyed api) Hl
                (fun _ _ _ H => H) issues [] []) as W.
  eapply triple_weaken; [exact W| | |].
  - auto.
  - intros a s (H & _). exact H.
  - auto.
Qed.
End RunFacts.

(** ** A whole run *)

Section WholeRun.
Variable api : GitHub.

Lemma anything {A : Type} (m : M A) :
  triple (fun _ => True) m (fun _ _ => True) (fun _ => True).
Proof. intros s _. destruct (m s); exact I. Qed.

Lemma processRepository_no_throw (fuel : nat) (since : Z) (repo : Repository) :
  triple (fun _ => True) (processRepository api fuel since repo)
    (fun _ _ => True) (fun _ => False).
Proof.
  unfold processRepository.
  apply triple_tryCatch with (E' := fun _ => True); [apply anything|].
  intros e. apply triple_ret. auto.
Qed.

Lemma forEach_processRepository_no_throw (fuel : nat) (since : Z)
    (repos : list Repository) (s : Run) :
  match forEach repos (processRepository api fuel since) s with
  | Threw _ _ => False
  | _ => True
  end.
Proof.
  pose proof (triple_forEach (fun _ => True) repos (processRepository api fuel since)
                (fun _ => False)
                (fun repo _ => processRepository_no_throw fuel since repo) s I) as H.
  destruct (forEach repos (processRepository api fuel since) s); [exact I|exact H|exact I].
Qed.

Lemma fetch_value (r : Request) (P : Run -> Prop) :
  (forall s, P s -> P (send r s)) ->
  triple P (fetchFromGitHub api r) (fun a s => api r = Ok a /\ P s) P.
Proof.
  intros H s Hs. unfold fetchFromGitHub.
  destruct (api r); [split; [reflexivity|]|]; apply H, Hs.
Qed.

Lemma getRepositories_loop_listed (P : Run -> Prop) :
  (forall r s, P s -> P (send r s)) ->
  forall (fuel page : nat) (acc : list Repository),
    Forall (listed api) acc ->
    triple P (getRepositories_loop api fuel page acc)
      (fun repos s => Forall (listed api) repos /\ P s) P.
Proof.
  intros HP. induction fuel as [|fuel IH]; intros page acc Hacc; simpl.
  - intros s _. exact I.
  - apply triple_bind with (R := fun repos s => api (ReqRepos page) = Ok repos /\ P s).
    + apply (fetch_value (ReqRepos page)). apply HP.
    + intros repos.
      assert (Hall : api (ReqRepos page) = Ok repos -> Forall (listed api) (acc ++ repos)).
      { intros Hapi. apply Forall_app. split; [exact Hacc|].
        apply Forall_forall. intros repo Hin. exists page, repos. auto. }
      destruct (List.length repos =? 0)%nat.
      * apply triple_ret. intros s [_ Hs]. auto.
      * destruct (List.length repos <? perPage)%nat.
        -- apply triple_ret. intros s [Hapi Hs]. auto.
        -- intros s [Hapi Hs]. apply (IH (S page) (acc ++ repos) (Hall Hapi) s Hs).
Qed.

Lemma getRepositories_listed (P : Run -> Prop) (fuel : nat) :
  (forall r s, P s -> P (send r s)) ->
  triple P (getRepositories api fuel)
    (fun repos s => Forall (listed api) repos /\ P s) P.
Proof.
  intros HP. unfold getRepositories.
  apply triple_bind with (R := fun repos s => Forall (listed api) repos /\ P s).
  - apply getRepositories_loop_listed; [exact HP|constructor].
  - intros repos. apply triple_ret. intros s [H Hs]. split; [|exact Hs].
    apply Forall_forall. intros repo Hin. apply filter_In in Hin.
    rewrite Forall_forall in H. apply H, Hin.
Qed.

Lemma wellKeyed_start : wellKeyed api start.
Proof.
  repeat split; simpl; intros; contradiction.
Qed.

(** The state a run ends in is consistent, and the snapshot is computed
    from it. *)
Lemma generateAnalytics_wellKeyed (now : Z) (fuel : nat) :
  triple (wellKeyed api) (generateAnalytics api now fuel)
    (fun data s =>
       wellKeyed api s
       /\ reviewMetrics data
          = calculateReviewMetrics now (allPullRequests s) (allReviews s) (repoMap s)
       /\ issueMetrics data = calculateIssueMetrics now (allIssues s) (repoMap s))
    (fun _ => True).
Proof.
  unfold generateAnalytics.
  apply triple_bind with (R := fun repos s => Forall (listed api) repos /\ wellKeyed api s).
  - eapply triple_weaken; [apply (getRepositories_listed (wellKeyed api))| | |]; auto.
  - intros repos.
    apply triple_bind with (R := fun _ s => Forall (listed api) repos /\ wellKeyed api s).
    + intros s [Hl Hs].
      pose proof (triple_forEach (wellKeyed api) (slice0 15 repos)
                    (processRepository api fuel (daysAgo now 180)) (fun _ => False)) as H.
      assert (Hin : forall repo, In repo (slice0 15 repos) ->
                      triple (wellKeyed api)
                        (processRepository api fuel (daysAgo now 180) repo)
                        (fun _ => wellKeyed api) (fun _ => False)).
      { intros repo Hrepo. apply processRepository_keeps.
        rewrite Forall_forall in Hl. apply Hl.
        unfold slice0 in Hrepo. rewrite <- (firstn_skipn 15 repos).
        apply in_or_app. left. exact Hrepo. }
      specialize (H Hin s Hs).
      destruct (forEach _ _ s); [split; assumption|destruct H|exact I].
    + intros u. apply triple_bind with
        (R := fun s0 s => s0 = s /\ wellKeyed api s).
      * apply triple_current. intros s [_ Hs]. auto.
      * intros s0. apply triple_ret. intros s [-> Hs]. simpl. auto.
Qed.
End WholeRun.

(** X10.  [processRepository] never throws: a failure of any request made for a
    repository is caught in the loop of the orchestrator. *)
Theorem processRepository_never_throws
    (api : GitHub) (fuel : nat) (since : Z) (repo : Repository) (s : Run) :
  match processRepository api fuel since repo s with
  | Threw _ _ => False
  | Done _ _ | OutOfFuel => True
  end.
Proof.
  pose proof (processRepository_no_throw api fuel since repo s I) as H.
  destruct (processRepository api fuel since repo s); [exact I|exact H|exact I].
Qed.

(** X11.  When the pull requests of a repository cannot be fetched, the
    repository contributes nothing: the orchestrator goes on with the
    collections as they were. *)
Theorem processRepository_skips_failed_repository
    (api : GitHub) (fuel : nat) (since : Z) (repo : Repository) (s s' : Run)
    (e : string) :
  getPullRequests api fuel (repo_owner repo) (repo_name repo) since s = Threw e s' ->
  processRepository api fuel since repo s = Done tt s'
  /\ collections s' = collections s.
Proof.
  intros H. split.
  - unfold processRepository, tryCatch, bind. rewrite H. reflexivity.
  - pose proof (getPullRequests_loop_safe api (collections s) (repo_owner repo)
                  (repo_name repo) since fuel 1%nat [] (Forall_nil _) s eq_refl) as Hs.
    unfold getPullRequests in H. rewrite H in Hs. exact Hs.
Qed.

(** X13.  When the repositories cannot be listed the run fails with the error
    of that request, and asks nothing else.  When they are listed, the loop
    over the first 15 of them never throws, whatever the service answers,
    and the snapshot that the run produces counts the repositories
    processed, at most 15, and is computed from the collections of the
    final state at the instant of the run. *)
Theorem generateAnalytics_outcome (api : GitHub) (now : Z) (fuel : nat) (s : Run) :
  match getRepositories api fuel s with
  | Threw e s' => generateAnalytics api now fuel s = Threw e s'
  | OutOfFuel => generateAnalytics api now fuel s = OutOfFuel
  | Done repos s1 =>
      match forEach (slice0 15 repos) (processRepository api fuel (daysAgo now 180)) s1 with
      | Threw _ _ => False
      | Done _ _ | OutOfFuel => True
      end
      /\ match generateAnalytics api now fuel s with
         | Done data s' =>
             repositories data = Nat.min 15 (List.length repos)
             /\ organization data = ORG
             /\ lastUpdated data = now
             /\ reviewMetrics data
                = calculateReviewMetrics now (allPullRequests s') (allReviews s') (repoMap s')
             /\ issueMetrics data = calculateIssueMetrics now (allIssues s') (repoMap s')
         | Threw _ _ | OutOfFuel => True
         end
  end.
Proof.
  destruct (getRepositories api fuel s) as [repos s1|e s1|] eqn:E;
    unfold generateAnalytics; unfold bind at 1; rewrite E; [|reflexivity|reflexivity].
  unfold bind at 1.
  pose proof (forEach_processRepository_no_throw api fuel (daysAgo now 180)
                (slice0 15 repos) s1) as H.
  destruct (forEach (slice0 15 repos) (processRepository api fuel (daysAgo now 180)) s1)
    as [u s2|e s2|]; [|destruct H|split; exact I].
  split; [exact I|].
  unfold bind, current, ret.
  cbn [repositories organization lastUpdated reviewMetrics issueMetrics].
  unfold slice0. rewrite length_firstn. repeat split; reflexivity.
Qed.

(** ** What a consistent state gives to the aggregators *)

Section Resolution.
Variable api : GitHub.
Hypothesis plain : forall repo, listed api repo -> plainRepository repo.

Lemma present_value (s : Run) (key : string) :
  wellKeyed api s -> keyPresent s key ->
  exists name, JsObject.get (repoMap s) key = Some name /\ keyOfListed api key name.
Proof.
  intros (H1 & _) [name0 Hin]. destruct (In_get _ _ _ Hin) as [name Hget].
  exists name. split; [exact Hget|]. apply H1, get_In, Hget.
Qed.

Lemma resolves_number (s : Run) (n : Z) :
  wellKeyed api s -> hasKey api s n ->
  exists key name repo,
    findCompositeKey (repoMap s) n = Some key
    /\ JsObject.get (repoMap s) key = Some name
    /\ listed api repo /\ name = repo_name repo.
Proof.
  intros Hw [repo [Hl Hk]].
  destruct (present_value s _ Hw Hk) as [name [Hget (repo' & n' & Hl' & Hkey & Hname)]].
  destruct (plain repo Hl) as [(_ & Ho & _) (_ & Hn & _)].
  assert (Hne : name <> "").
  { rewrite Hname. apply (plain repo' Hl'). }
  assert (Hmatch : keyHasNumber (repoMap s) n (compositeKeyOf repo n) = true).
  { apply (keyHasNumber_written (repoMap s) repo n n name Ho Hn Hget Hne). reflexivity. }
  assert (Hinkeys : In (compositeKeyOf repo n) (JsObject.keys (repoMap s))).
  { apply In_keys. exact Hk. }
  destruct (find_found _ _ _ Hinkeys Hmatch) as [key Hfind].
  unfold findCompositeKey. rewrite Hfind.
  apply find_some in Hfind. destruct Hfind as [Hin _].
  apply In_keys in Hin.
  destruct (present_value s key Hw Hin) as [name1 [Hget1 (repo1 & n1 & Hl1 & _ & Hname1)]].
  exists key, name1, repo1. auto.
Qed.

Lemma stored_reviews_owned (s : Run) (key : string) (reviews : list GitHubReview) :
  wellKeyed api s -> In (key, reviews) (allReviews s) ->
  owningPullRequest (allPullRequests s) (repoMap s) key <> None.
Proof.
  intros Hw Hin. pose proof Hw as (_ & _ & _ & H4).
  destruct (H4 key reviews Hin) as (_ & _ & Hk & repo & pr & Hl & Hkey & Hpr).
  destruct (present_value s key Hw Hk) as [name [Hget (repo' & n' & Hl' & Hkey' & Hname)]].
  assert (Hn : pr_number pr = n').
  { apply (compositeKey_number_inj repo repo'); [apply plain, Hl|apply plain, Hl'|].
    rewrite <- Hkey, <- Hkey'. reflexivity. }
  rewrite Hkey'. rewrite Hkey', Hname in Hget.
  rewrite (owningPullRequest_written _ _ repo' n' (plain repo' Hl') Hget).
  destruct (find_found (fun p => pr_number p =? n') _ pr Hpr) as [p Hp].
  - apply Z.eqb_eq, Hn.
  - rewrite Hp. discriminate.
Qed.
End Resolution.

Lemma counted_all (pullRequests : list GitHubPullRequest)
    (entries : list (string * list GitHubReview)) (repoMap : JsObject.t string) :
  (forall e, In e entries -> owningPullRequest pullRequests repoMap (fst e) <> None) ->
  List.length
    (flat_map (fun entry =>
                 match owningPullRequest pullRequests repoMap (fst entry) with
                 | Some pr => map (pair pr) (snd entry)
                 | None => []
                 end) entries)
  = List.length (flat_map snd entries).
Proof.
  induction entries as [|e es IH]; intros H; simpl; [reflexivity|].
  rewrite !length_app, IH by (intros x Hx; apply H; right; exact Hx).
  destruct (owningPullRequest pullRequests repoMap (fst e)) eqn:E.
  - rewrite length_map. reflexivity.
  - exfalso. apply (H e); [left; reflexivity|exact E].
Qed.

Lemma totalReviews_counted (now : Z) (pullRequests : list GitHubPullRequest)
    (allReviews : JsObject.t (list GitHubReview)) (repoMap : JsObject.t string) :
  totalReviews (calculateReviewMetrics now pullRequests allReviews repoMap)
  = List.length (countedReviews pullRequests allReviews repoMap).
Proof.
  unfold calculateReviewMetrics. cbn [totalReviews]. rewrite reviewLoop_counted.
  pose proof (countReview_states now
                (countedReviews pullRequests allReviews repoMap) emptyAcc) as H.
  cbn zeta in H. destruct H as (_ & _ & _ & H). rewrite H. reflexivity.
Qed.

(** X14.  In a run over repositories whose owners and names are not empty
    and hold neither ['#'] nor ['/'], with items numbered by safe integers,
    every entry of the three published worklists carries the name of a
    repository the service listed: no lookup falls back to ["unknown"]. *)
Theorem published_repositories_are_listed (api : GitHub) (now : Z) (fuel : nat) :
  (forall repo, listed api repo -> plainRepository repo) ->
  safeNumbers api ->
  match generateAnalytics api now fuel start with
  | Done data _ =>
      Forall (fun e => exists repo, listed api repo /\ nr_repository e = repo_name repo)
             (prsNeedingReview (reviewMetrics data))
      /\ Forall (fun e => exists repo, listed api repo /\ rm_repository e = repo_name repo)
                (prsReadyToMerge (reviewMetrics data))
      /\ Forall (fun e => exists repo, listed api repo /\ pi_repository e = repo_name repo)
                (issuesPendingTriage (issueMetrics data))
  | Threw _ _ | OutOfFuel => True
  end.
Proof.
  intros plain _.
  pose proof (generateAnalytics_wellKeyed api now fuel start (wellKeyed_start api)) as H.
  destruct (generateAnalytics api now fuel start) as [data s| |]; [|exact I|exact I].
  destruct H as (Hw & Hr & Hi). rewrite Hr, Hi.
  pose proof Hw as (_ & H2 & H3 & _).
  assert (Hrepo : forall n, hasKey api s n ->
            exists repo, listed api repo
              /\ repositoryOf (repoMap s) (findCompositeKey (repoMap s) n) = repo_name repo).
  { intros n Hn.
    destruct (resolves_number api plain s n Hw Hn) as (key & name & repo & Hf & Hg & Hl & Hname).
    exists repo. split; [exact Hl|]. unfold repositoryOf. rewrite Hf, Hg. exact Hname. }
  split; [|split]; apply Forall_forall; intros e He.
  - unfold calculateReviewMetrics in He. cbn [prsNeedingReview] in He.
    apply In_slice0_sort in He. rewrite worklists_eq in He. cbn [fst] in He.
    apply in_map_iff in He. destruct He as [pr [<- Hpr]].
    apply filter_In in Hpr. destruct Hpr as [Hpr _].
    destruct (H2 pr Hpr) as [[]|Hk]. apply (Hrepo _ Hk).
  - unfold calculateReviewMetrics in He. cbn [prsReadyToMerge] in He.
    apply In_slice0_sort in He. rewrite worklists_eq in He. cbn [snd] in He.
    apply in_map_iff in He. destruct He as [pr [<- Hpr]].
    apply filter_In in Hpr. destruct Hpr as [Hpr _].
    destruct (H2 pr Hpr) as [[]|Hk]. apply (Hrepo _ Hk).
  - unfold calculateIssueMetrics in He. cbn [issuesPendingTriage] in He.
    apply In_slice0_sort in He.
    apply in_map_iff in He. destruct He as [issue [<- Hissue]].
    unfold pendingTriage_of, openIssues_of in Hissue.
    apply filter_In in Hissue. destruct Hissue as [Hissue _].
    apply filter_In in Hissue. destruct Hissue as [Hissue _].
    destruct (H3 issue Hissue) as [[]|Hk]. apply (Hrepo _ Hk).
Qed.

(** X15.  In a run over repositories whose owners and names are not empty
    and hold neither ['#'] nor ['/'], with items numbered by safe integers,
    every review the orchestrator stored is counted: [totalReviews] is the
    number of reviews in the reviews map; and no list stored in that map is
    empty or holds the review of a bot. *)
Theorem published_total_counts_stored_reviews (api : GitHub) (now : Z) (fuel : nat) :
  (forall repo, listed api repo -> plainRepository repo) ->
  safeNumbers api ->
  match generateAnalytics api now fuel start with
  | Done data s =>
      totalReviews (reviewMetrics data) = List.length (flat_map snd (allReviews s))
      /\ Forall (fun entry =>
                   snd entry <> []
                   /\ Forall (fun r => isBotUser (review_user r) = false) (snd entry))
                (allReviews s)
  | Threw _ _ | OutOfFuel => True
  end.
Proof.
  intros plain _.
  pose proof (generateAnalytics_wellKeyed api now fuel start (wellKeyed_start api)) as H.
  destruct (generateAnalytics api now fuel start) as [data s| |]; [|exact I|exact I].
  destruct H as (Hw & Hr & _). rewrite Hr. split.
  - rewrite totalReviews_counted. unfold countedReviews. rewrite counted_all.
    + apply Permutation_length, Permutation_flat_map, entries_perm.
    + intros [key reviews] He. simpl.
      apply (stored_reviews_owned api plain s key reviews Hw).
      eapply Permutation_in; [apply entries_perm|exact He].
  - destruct Hw as (_ & _ & _ & H4). apply Forall_forall. intros [key reviews] Hin.
    destruct (H4 key reviews Hin) as (Ha & Hb & _). simpl. auto.
Qed.

(** ** Counters of the review loop *)

Lemma countReview_windows (now : Z) (l : list (GitHubPullRequest * GitHubReview))
    (acc : ReviewAcc) :
  acc_reviewsLast7Days (fold_left (countReview now) l acc)
  = (acc_reviewsLast7Days acc
     + List.length (filter (fun e => review_submitted_at (snd e) >=? daysAgo now 7) l))%nat
  /\ acc_reviewsLast30Days (fold_left (countReview now) l acc)
     = (acc_reviewsLast30Days acc
        + List.length (filter (fun e => review_submitted_at (snd e) >=? daysAgo now 30) l))%nat.
Proof.
  revert acc. induction l as [|e l IH]; intros acc; simpl.
  - split; lia.
  - destruct (IH (countReview now acc e)) as [I7 I30]. rewrite I7, I30.
    unfold countReview, processReview. cbn [acc_reviewsLast7Days acc_reviewsLast30Days].
    destruct (review_submitted_at (snd e) >=? daysAgo now 7),
      (review_submitted_at (snd e) >=? daysAgo now 30); simpl; split; lia.
Qed.

Lemma filter_length_le_filter {A : Type} (p q : A -> bool) (l : list A) :
  (forall x, p x = true -> q x = true) ->
  (List.length (filter p l) <= List.length (filter q l))%nat.
Proof.
  intros H. induction l as [|x l IH]; simpl; [lia|].
  destruct (p x) eqn:E.
  - rewrite (H x E). simpl. lia.
  - destruct (q x); simpl; lia.
Qed.

Lemma eventsIn_total (l : list (GitHubPullRequest * GitHubReview)) :
  (eventsIn APPROVED l + eventsIn CHANGES_REQUESTED l + eventsIn COMMENTED l
   + eventsIn DISMISSED l = List.length l)%nat.
Proof.
  unfold eventsIn. induction l as [|e l IH]; simpl; [reflexivity|].
  destruct (review_state (snd e)); simpl; lia.
Qed.

(** X16.  The three counters of reviews count the reviews of the loop: all of
    them, those submitted at or after [daysAgo 7], the instant seven days
    before the run, and those submitted at or after [daysAgo 30], the
    instant thirty days before.  The windows nest, and the three buckets of
    states and the dismissed reviews add up to the total. *)
Theorem review_counters
    (now : Z) (pullRequests : list GitHubPullRequest)
    (allReviews : JsObject.t (list GitHubReview)) (repoMap : JsObject.t string) :
  let m := calculateReviewMetrics now pullRequests allReviews repoMap in
  let counted := countedReviews pullRequests allReviews repoMap in
  let d := reviewStateDistribution m in
  totalReviews m = List.length counted
  /\ reviewsLast7Days m
     = List.length (filter (fun e => daysAgo now 7 <=? review_submitted_at (snd e))
                           counted)
  /\ reviewsLast30Days m
     = List.length (filter (fun e => daysAgo now 30 <=? review_submitted_at (snd e))
                           counted)
  /\ (reviewsLast7Days m <= reviewsLast30Days m <= totalReviews m)%nat
  /\ (approved d + changesRequested d + commented d + eventsIn DISMISSED counted
      = totalReviews m)%nat
  /\ velocity_weekly m = reviewsLast7Days m
  /\ velocity_monthly m = reviewsLast30Days m.
Proof.
  intros m counted d.
  assert (Ht : totalReviews m = List.length counted) by apply totalReviews_counted.
  destruct (countReview_windows now counted emptyAcc) as [H7 H30].
  assert (E7 : reviewsLast7Days m
               = List.length (filter (fun e => daysAgo now 7
                                               <=? review_submitted_at (snd e)) counted)).
  { subst m. unfold calculateReviewMetrics. cbn [reviewsLast7Days].
    rewrite reviewLoop_counted. fold counted. rewrite H7. simpl.
    f_equal. apply filter_ext. intros e. apply Z.geb_leb. }
  assert (E30 : reviewsLast30Days m
                = List.length (filter (fun e => daysAgo now 30
                                                <=? review_submitted_at (snd e)) counted)).
  { subst m. unfold calculateReviewMetrics. cbn [reviewsLast30Days].
    rewrite reviewLoop_counted. fold counted. rewrite H30. simpl.
    f_equal. apply filter_ext. intros e. apply Z.geb_leb. }
  split; [exact Ht|]. split; [exact E7|]. split; [exact E30|].
  split; [|split; [|split; reflexivity]].
  - rewrite E7, E30, Ht. split.
    + apply filter_length_le_filter. intros e H.
      apply Z.leb_le in H. apply Z.leb_le. unfold daysAgo, msPerDay, msPerHour in *. lia.
    + apply filter_length_le.
  - rewrite Ht. rewrite <- (eventsIn_total counted).
    pose proof (countReview_states now counted emptyAcc) as Hs. cbn zeta in Hs.
    destruct Hs as (Ha & Hc & Hm & _).
    subst d m. unfold calculateReviewMetrics.
    cbn [reviewStateDistribution approved changesRequested commented].
    rewrite reviewLoop_counted. fold counted. rewrite Ha, Hc, Hm. simpl. lia.
Qed.

(** ** Worklists: youngest first, capped *)

Section AgeOrder.
Context {A : Type}.
Variable age : A -> Q.

Lemma insert_Sorted_age (x : A) (l : list A) :
  Sorted (fun a b => (age a <= age b)%Q) l ->
  Sorted (fun a b => (age a <= age b)%Q) (insert (fun a b => Qltb (age a) (age b)) x l).
Proof.
  induction l as [|y l IH]; intros Hs; simpl.
  - constructor; constructor.
  - inversion Hs as [|? ? Hl Hhd]; subst.
    destruct (Qltb (age y) (age x)) eqn:E.
    + constructor; [apply IH, Hl|].
      apply Qltb_lt in E.
      destruct l as [|z l]; simpl.
      * constructor. apply Qlt_le_weak, E.
      * destruct (Qltb (age z) (age x)); constructor.
        -- inversion Hhd; assumption.
        -- apply Qlt_le_weak, E.
    + constructor; [exact Hs|]. constructor. apply Qltb_ge, E.
Qed.

Lemma sort_Sorted_age (l : list A) :
  Sorted (fun a b => (age a <= age b)%Q) (sort (fun a b => Qltb (age a) (age b)) l).
Proof.
  induction l as [|x l IH]; simpl; [constructor|apply insert_Sorted_age, IH].
Qed.

Lemma sort_StronglySorted_age (l : list A) :
  StronglySorted (fun a b => (age a <= age b)%Q) (sort (fun a b => Qltb (age a) (age b)) l).
Proof.
  apply Sorted_StronglySorted; [|apply sort_Sorted_age].
  intros a b c Hab Hbc. eapply Qle_trans; eassumption.
Qed.

Lemma StronglySorted_cut (R : A -> A -> Prop) (l : list A) :
  StronglySorted R l ->
  forall n, StronglySorted R (firstn n l)
            /\ forall a b, In a (firstn n l) -> In b (skipn n l) -> R a b.
Proof.
  induction 1 as [|x l Hl IH Hx]; intros n.
  - rewrite firstn_nil, skipn_nil. split; [constructor|intros a b []].
  - destruct n as [|n]; simpl.
    + split; [constructor|intros a b []].
    + destruct (IH n) as [I1 I2]. split.
      * constructor; [exact I1|].
        rewrite Forall_forall in Hx |- *. intros y Hy. apply Hx.
        rewrite <- (firstn_skipn n l). apply in_or_app. left. exact Hy.
      * intros a b [<-|Ha] Hb.
        -- rewrite Forall_forall in Hx. apply Hx.
           rewrite <- (firstn_skipn n l). apply in_or_app. right. exact Hb.
        -- apply I2; assumption.
Qed.

(** What [sort((a, b) => a.age - b.age).slice(0, n)] keeps. *)
Lemma youngest_kept (n : nat) (l : list A) :
  let kept := slice0 n (sort (fun a b => Qltb (age a) (age b)) l) in
  Sorted (fun a b => (age a <= age b)%Q) kept
  /\ List.length kept = Nat.min n (List.length l)
  /\ exists omitted,
       Permutation (kept ++ omitted) l
       /\ forall a b, In a kept -> In b omitted -> (age a <= age b)%Q.
Proof.
  intros kept. subst kept.
  destruct (StronglySorted_cut _ _ (sort_StronglySorted_age l) n) as [H1 H2].
  split; [apply StronglySorted_Sorted, H1|].
  split; [apply slice0_sort_length|].
  exists (skipn n (sort (fun a b => Qltb (age a) (age b)) l)). split; [|exact H2].
  unfold slice0. rewrite firstn_skipn. apply Permutation_sym, sort_perm.
Qed.
End AgeOrder.

(** X18.  Each of the two published worklists of pull requests is sorted by
    ascending age, holds at most 20 entries, and keeps entries that are
    no older than any entry it leaves out. *)
Theorem review_worklists_youngest_first
    (now : Z) (pullRequests : list GitHubPullRequest)
    (allReviews : JsObject.t (list GitHubReview)) (repoMap : JsObject.t string) :
  let m := calculateReviewMetrics now pullRequests allReviews repoMap in
  let lists := worklists now pullRequests allReviews repoMap in
  (Sorted (fun a b => (nr_ageHours a <= nr_ageHours b)%Q) (prsNeedingReview m)
   /\ List.length (prsNeedingReview m) = Nat.min 20 (List.length (fst lists))
   /\ exists omitted,
        Permutation (prsNeedingReview m ++ omitted) (fst lists)
        /\ forall a b, In a (prsNeedingReview m) -> In b omitted ->
                       (nr_ageHours a <= nr_ageHours b)%Q)
  /\ (Sorted (fun a b => (rm_ageHours a <= rm_ageHours b)%Q) (prsReadyToMerge m)
      /\ List.length (prsReadyToMerge m) = Nat.min 20 (List.length (snd lists))
      /\ exists omitted,
           Permutation (prsReadyToMerge m ++ omitted) (snd lists)
           /\ forall a b, In a (prsReadyToMerge m) -> In b omitted ->
                          (rm_ageHours a <= rm_ageHours b)%Q).
Proof.
  intros m lists. split.
  - apply (youngest_kept nr_ageHours 20 (fst lists)).
  - apply (youngest_kept rm_ageHours 20 (snd lists)).
Qed.

(** X23.  The published list of issues pending triage is sorted by ascending
    age, holds the 50 youngest pending issues at most, one entry for each,
    and keeps entries that are no older than any entry it leaves out. *)
Theorem issue_worklist_youngest_first
    (now : Z) (issues : list GitHubIssue) (repoMap : JsObject.t string) :
  let m := calculateIssueMetrics now issues repoMap in
  let all := map (pendingIssueEntry now repoMap) (pendingTriage_of issues) in
  Sorted (fun a b => (pi_ageHours a <= pi_ageHours b)%Q) (issuesPendingTriage m)
  /\ List.length (issuesPendingTriage m) = Nat.min 50 (pendingTriage m)
  /\ exists omitted,
       Permutation (issuesPendingTriage m ++ omitted) all
       /\ forall a b, In a (issuesPendingTriage m) -> In b omitted ->
                      (pi_ageHours a <= pi_ageHours b)%Q.
Proof.
  intros m all.
  destruct (youngest_kept pi_ageHours 50 all) as (H1 & H2 & H3).
  split; [exact H1|]. split; [|exact H3].
  subst all. rewrite length_map in H2. exact H2.
Qed.

(** ** What the worklists list *)

(** X17.  An entry of the pull requests needing review comes from a pull request
    of the input that is open, not merged and not a draft, and is never
    marked as a draft; an entry of the pull requests ready to merge comes
    from such a pull request as well and shows at least one approval. *)
Theorem worklists_list_open_pull_requests
    (now : Z) (pullRequests : list GitHubPullRequest)
    (allReviews : JsObject.t (list GitHubReview)) (repoMap : JsObject.t string) :
  let m := calculateReviewMetrics now pullRequests allReviews repoMap in
  let listable pr :=
    In pr pullRequests /\ pr_state pr = "open" /\ pr_merged_at pr = None
    /\ pr_draft pr = false in
  Forall (fun e => nr_isDraft e = false
                   /\ exists pr, listable pr /\ nr_number e = pr_number pr
                                 /\ nr_url e = pr_html_url pr
                                 /\ nr_createdAt e = pr_created_at pr)
         (prsNeedingReview m)
  /\ Forall (fun e => (1 <= rm_approvals e)%nat
                      /\ exists pr, listable pr /\ rm_number e = pr_number pr
                                    /\ rm_url e = pr_html_url pr
                                    /\ rm_createdAt e = pr_created_at pr)
            (prsReadyToMerge m).
Proof.
  intros m listable.
  assert (Hr : forall pr, reviewable pr = true ->
                 pr_state pr = "open" /\ pr_merged_at pr = None /\ pr_draft pr = false).
  { intros pr H. unfold reviewable in H.
    apply andb_true_iff in H. destruct H as [H Hd].
    apply andb_true_iff in H. destruct H as [Ho Hm].
    apply String.eqb_eq in Ho. apply negb_true_iff in Hd.
    destruct (pr_merged_at pr); [discriminate|]. auto. }
  split; apply Forall_forall; intros e He.
  - subst m. unfold calculateReviewMetrics in He. cbn [prsNeedingReview] in He.
    apply In_slice0_sort in He. rewrite worklists_eq in He. cbn [fst] in He.
    apply in_map_iff in He. destruct He as [pr [<- Hpr]].
    apply filter_In in Hpr. destruct Hpr as [Hpr Hc].
    unfold classifiedNeedingReview in Hc. apply andb_true_iff in Hc.
    destruct Hc as [Hc _]. destruct (Hr pr Hc) as (Ho & Hm & Hd).
    simpl. split; [exact Hd|]. exists pr. unfold listable. auto 10.
  - subst m. unfold calculateReviewMetrics in He. cbn [prsReadyToMerge] in He.
    apply In_slice0_sort in He. rewrite worklists_eq in He. cbn [snd] in He.
    apply in_map_iff in He. destruct He as [pr [<- Hpr]].
    apply filter_In in Hpr. destruct Hpr as [Hpr Hc].
    unfold classifiedReadyToMerge in Hc. apply andb_true_iff in Hc.
    destruct Hc as [Hc Hready]. destruct (Hr pr Hc) as (Ho & Hm & Hd).
    simpl. split.
    + unfold readyToMerge, resolvedReviews in Hready.
      apply andb_true_iff in Hready. destruct Hready as [Ha _].
      apply Nat.ltb_lt in Ha. lia.
    + exists pr. unfold listable. auto 10.
Qed.

(** ** The fourteen days *)

Lemma formatDate_daysAgo (now i : Z) : formatDate (daysAgo now i) = formatDate now - i.
Proof.
  unfold formatDate, daysAgo.
  replace (now - i * msPerDay) with (now + (- i) * msPerDay) by lia.
  rewrite Z.div_add by (unfold msPerDay, msPerHour; lia). lia.
Qed.

Lemma lastFourteen_dates (now : Z) :
  map (fun i => formatDate (daysAgo now i)) lastFourteen = fourteenDays now.
Proof.
  unfold lastFourteen, fourteenDays. rewrite map_map. simpl.
  rewrite !formatDate_daysAgo. repeat (f_equal; try lia).
Qed.

Lemma fourteenDays_NoDup (now : Z) : NoDup (fourteenDays now).
Proof.
  unfold fourteenDays. apply Finite.Injective_map_NoDup; [|apply seq_NoDup].
  intros a b H. lia.
Qed.

Lemma filter_all {A : Type} (l : list A) : filter (fun _ => true) l = l.
Proof. induction l as [|x l IH]; simpl; [reflexivity|rewrite IH; reflexivity]. Qed.

Lemma filter_partition_length {A : Type} (p q : A -> bool) (l : list A) :
  (List.length (filter (fun x => q x && p x) l)
   + List.length (filter (fun x => negb (q x) && p x) l)
   = List.length (filter p l))%nat.
Proof.
  induction l as [|x l IH]; simpl; [reflexivity|].
  destruct (q x), (p x); simpl; lia.
Qed.

(** Over distinct days, the items of each day add up to no more than the
    items there are. *)
Lemma sum_over_days {A : Type} (key : A -> Z) (days : list Z) :
  NoDup days ->
  forall (p : A -> bool) (l : list A),
    (list_sum (map (fun d => List.length (filter (fun x => (key x =? d)%Z && p x) l)) days)
     <= List.length (filter p l))%nat.
Proof.
  induction 1 as [|d0 days Hd0 Hnd IH]; intros p l; simpl; [lia|].
  rewrite <- (filter_partition_length p (fun x => key x =? d0) l).
  apply Nat.add_le_mono_l.
  specialize (IH (fun x => negb (key x =? d0) && p x) l).
  eapply Nat.le_trans; [|exact IH].
  apply Nat.eq_le_incl. f_equal. apply map_ext_in. intros d Hd.
  f_equal. apply filter_ext. intros x.
  destruct (key x =? d) eqn:E; [|reflexivity].
  apply Z.eqb_eq in E. destruct (key x =? d0) eqn:E0; [|reflexivity].
  apply Z.eqb_eq in E0. exfalso. apply Hd0. rewrite <- E0, E. exact Hd.
Qed.

Lemma dailyReviewData_by_day (now : Z) (pullRequests : list GitHubPullRequest)
    (allReviews : JsObject.t (list GitHubReview)) (repoMap : JsObject.t string) :
  let counted := countedReviews pullRequests allReviews repoMap in
  dailyReviewData (calculateReviewMetrics now pullRequests allReviews repoMap)
  = map (fun day =>
           {| dr_date := day;
              dr_reviews := List.length (onDay day counted);
              dr_avgTimeHours := average (map latency (onDay day counted)) |})
        (fourteenDays now).
Proof.
  intros counted. unfold calculateReviewMetrics. cbn [dailyReviewData].
  rewrite <- lastFourteen_dates, map_map.
  rewrite reviewLoop_counted. fold counted.
  unfold dailyReviewData_of. apply map_ext. intros i.
  destruct (countReview_daily now counted emptyAcc (formatDate (daysAgo now i)))
    as [H1 H2].
  fold (dayOf (acc_dailyReviews (fold_left (countReview now) counted emptyAcc))
              (formatDate (daysAgo now i))).
  rewrite H1, H2. reflexivity.
Qed.

Lemma lastFourteen_oldest_first :
  lastFourteen = map (fun k => 13 - Z.of_nat k) (seq 0 14).
Proof. reflexivity. Qed.

(** X19.  The daily series of reviews has fourteen entries, dated
    [formatDate (daysAgo 13)], [formatDate (daysAgo 12)], down to
    [formatDate (daysAgo 0)]; each entry counts the reviews of the loop
    submitted on its date, an entry without reviews has the average 0, and
    when the fourteen dates are distinct the counts add up to no more than
    [totalReviews]. *)
Theorem daily_review_series
    (now : Z) (pullRequests : list GitHubPullRequest)
    (allReviews : JsObject.t (list GitHubReview)) (repoMap : JsObject.t string) :
  let m := calculateReviewMetrics now pullRequests allReviews repoMap in
  let counted := countedReviews pullRequests allReviews repoMap in
  map dr_date (dailyReviewData m)
  = map (fun k => formatDate (daysAgo now (13 - Z.of_nat k))) (seq 0 14)
  /\ Forall (fun d => dr_reviews d = List.length (onDay (dr_date d) counted)
                      /\ (dr_reviews d = 0%nat -> dr_avgTimeHours d = 0%Q))
            (dailyReviewData m)
  /\ (NoDup (map dr_date (dailyReviewData m)) ->
      (list_sum (map dr_reviews (dailyReviewData m)) <= totalReviews m)%nat).
Proof.
  intros m counted. split; [|split].
  - subst m. unfold calculateReviewMetrics. cbn [dailyReviewData].
    unfold dailyReviewData_of. rewrite map_map. cbn [dr_date].
    rewrite lastFourteen_oldest_first, map_map. reflexivity.
  - subst m. rewrite dailyReviewData_by_day. fold counted.
    apply Forall_forall. intros d Hd. apply in_map_iff in Hd.
    destruct Hd as [day [<- _]]. simpl. split; [reflexivity|].
    intros H. destruct (onDay day counted); [reflexivity|discriminate].
  - subst m. rewrite dailyReviewData_by_day. fold counted. rewrite !map_map.
    cbn [dr_date dr_reviews]. rewrite map_id. intros Hnd.
    rewrite totalReviews_counted. fold counted.
    pose proof (sum_over_days (fun e : GitHubPullRequest * GitHubReview =>
                                 formatDate (review_submitted_at (snd e)))
                  (fourteenDays now) Hnd (fun _ => true) counted) as H.
    rewrite filter_all in H.
    eapply Nat.le_trans; [|exact H].
    apply Nat.eq_le_incl. f_equal. apply map_ext. intros day.
    unfold onDay. f_equal. apply filter_ext. intros e. rewrite andb_true_r. reflexivity.
Qed.

(** ** Counters of the issue aggregator *)

Lemma exclusive_filters_length {A : Type} (p q : A -> bool) (l : list A) :
  (forall x, p x = true -> q x = false) ->
  (List.length (filter p l) + List.length (filter q l) <= List.length l)%nat.
Proof.
  intros H. induction l as [|x l IH]; simpl; [lia|].
  destruct (p x) eqn:E.
  - rewrite (H x E). simpl. lia.
  - destruct (q x); simpl; lia.
Qed.

Lemma covering_filters_length {A : Type} (p q : A -> bool) (l : list A) :
  (forall x, p x = true -> q x = false) ->
  Forall (fun x => p x = true \/ q x = true) l ->
  (List.length (filter p l) + List.length (filter q l) = List.length l)%nat.
Proof.
  intros H Hall. induction Hall as [|x l Hx Hl IH]; simpl; [reflexivity|].
  destruct (p x) eqn:E.
  - rewrite (H x E). simpl. lia.
  - destruct Hx as [Hx|Hx]; [discriminate|]. rewrite Hx. simpl. lia.
Qed.

Lemma bumpAge_total (d : AgeDistribution) (a : Q) :
  bucketsTotal (bumpAge d a) = S (bucketsTotal d).
Proof.
  unfold bumpAge, bucketsTotal.
  destruct (Qltb a 24); [simpl; lia|].
  destruct (Qltb a (24 * 7)); [simpl; lia|].
  destruct (Qltb a (24 * 30)); simpl; lia.
Qed.

Lemma ages_fold_total (now : Z) (l : list GitHubIssue) (d : AgeDistribution) :
  bucketsTotal (fold_left (fun d issue => bumpAge d (ageInHours now issue)) l d)
  = (bucketsTotal d + List.length l)%nat.
Proof.
  revert d. induction l as [|issue l IH]; intros d; simpl; [lia|].
  rewrite IH, bumpAge_total. lia.
Qed.

(** X22.  The counters of the issue aggregator: open and closed issues are
    counted apart and make up the total when every state is one of the
    two; the pending-triage issues are among the open ones, and each of
    them falls in exactly one age bucket; the recently triaged issues are
    those updated at or after [daysAgo 7], the instant seven days before
    the run, that have a label, whatever their state. *)
Theorem issue_counters
    (now : Z) (issues : list GitHubIssue) (repoMap : JsObject.t string) :
  let m := calculateIssueMetrics now issues repoMap in
  let d := ageDistribution m in
  totalIssues m = List.length issues
  /\ (openIssues m + closedIssues m <= totalIssues m)%nat
  /\ (Forall (fun issue => issue_state issue = "open" \/ issue_state issue = "closed")
             issues ->
      (openIssues m + closedIssues m = totalIssues m)%nat)
  /\ (pendingTriage m <= openIssues m)%nat
  /\ (lessThan24h d + oneToSevenDays d + sevenToThirtyDays d + moreThanThirtyDays d
      = pendingTriage m)%nat
  /\ recentlyTriaged m
     = List.length (filter (fun issue => (daysAgo now 7 <=? issue_updated_at issue)
                                         && negb (List.length (issue_labels issue) =? 0)%nat)
                           issues)
  /\ triage_weekly m = recentlyTriaged m.
Proof.
  intros m d.
  assert (Hex : forall issue : GitHubIssue,
            String.eqb (issue_state issue) "open" = true ->
            String.eqb (issue_state issue) "closed" = false).
  { intros issue H. apply String.eqb_eq in H. rewrite H. reflexivity. }
  split; [reflexivity|]. split; [|split; [|split; [|split; [|split]]]].
  - apply (exclusive_filters_length _ _ issues Hex).
  - intros Hall. apply (covering_filters_length _ _ issues Hex).
    eapply Forall_impl; [|exact Hall]. intros issue [H|H]; rewrite H; auto.
  - apply filter_length_le.
  - subst d m. unfold calculateIssueMetrics, ageDistribution_of.
    cbn [ageDistribution pendingTriage].
    pose proof (ages_fold_total now (pendingTriage_of issues) zeroAges) as H.
    unfold bucketsTotal in H. exact H.
  - subst m. unfold calculateIssueMetrics, recentlyTriaged_of. cbn [recentlyTriaged].
    f_equal. apply filter_ext. intros issue.
    rewrite Z.geb_leb. f_equal.
    destruct (List.length (issue_labels issue)); reflexivity.
  - reflexivity.
Qed.

Lemma list_sum_map_add {A : Type} (f g : A -> nat) (l : list A) :
  list_sum (map (fun x => f x + g x)%nat l)
  = (list_sum (map f l) + list_sum (map g l))%nat.
Proof. induction l as [|x l IH]; simpl; [reflexivity|rewrite IH; lia]. Qed.

(** X24.  The daily series of triage has fourteen entries, dated
    [formatDate (daysAgo 13)], [formatDate (daysAgo 12)], down to
    [formatDate (daysAgo 0)].  An entry counts as triaged the issues with a
    label that were updated on its date, and as pending the issues without
    label that were created on its date; its total is the sum of the two,
    and when the fourteen dates are distinct the totals add up to no more
    than the number of issues. *)
Theorem daily_triage_series
    (now : Z) (issues : list GitHubIssue) (repoMap : JsObject.t string) :
  let m := calculateIssueMetrics now issues repoMap in
  let labelled issue := negb (List.length (issue_labels issue) =? 0)%nat in
  map dt_date (dailyTriageData m)
  = map (fun k => formatDate (daysAgo now (13 - Z.of_nat k))) (seq 0 14)
  /\ Forall (fun d =>
               dt_triaged d
               = List.length (filter (fun issue =>
                                        (formatDate (issue_updated_at issue) =? dt_date d)
                                        && labelled issue) issues)
               /\ dt_pending d
                  = List.length (filter (fun issue =>
                                           (formatDate (issue_created_at issue) =? dt_date d)
                                           && negb (labelled issue)) issues)
               /\ dt_total d = (dt_triaged d + dt_pending d)%nat)
            (dailyTriageData m)
  /\ (NoDup (map dt_date (dailyTriageData m)) ->
      (list_sum (map dt_total (dailyTriageData m)) <= totalIssues m)%nat).
Proof.
  intros m labelled.
  assert (E0 : map dt_date (dailyTriageData m)
               = map (fun k => formatDate (daysAgo now (13 - Z.of_nat k))) (seq 0 14)).
  { subst m. unfold calculateIssueMetrics, dailyTriageData_of. cbn [dailyTriageData].
    rewrite map_map. cbn [dt_date].
    rewrite lastFourteen_oldest_first, map_map. reflexivity. }
  assert (E : dailyTriageData m
              = map (fun day =>
                       let t := List.length
                                  (filter (fun issue =>
                                             (formatDate (issue_updated_at issue) =? day)
                                             && labelled issue) issues) in
                       let p := List.length
                                  (filter (fun issue =>
                                             (formatDate (issue_created_at issue) =? day)
                                             && negb (labelled issue)) issues) in
                       {| dt_date := day; dt_triaged := t; dt_pending := p;
                          dt_total := (t + p)%nat |})
                    (fourteenDays now)).
  { subst m. unfold calculateIssueMetrics, dailyTriageData_of. cbn [dailyTriageData].
    rewrite <- lastFourteen_dates, map_map. apply map_ext. intros i.
    cbv zeta. f_equal.
    - f_equal. apply filter_ext. intros issue. f_equal. unfold labelled.
      destruct (List.length (issue_labels issue)); reflexivity.
    - f_equal. apply filter_ext. intros issue. f_equal. unfold labelled.
      destruct (List.length (issue_labels issue)); reflexivity.
    - f_equal; f_equal; apply filter_ext; intros issue; f_equal; unfold labelled;
        destruct (List.length (issue_labels issue)); reflexivity. }
  split; [exact E0|]. clear E0. rewrite E. split.
  - apply Forall_forall. intros d Hd. apply in_map_iff in Hd.
    destruct Hd as [day [<- _]]. cbv zeta. simpl. repeat split; reflexivity.
  - rewrite !map_map. cbv zeta. cbn [dt_date dt_total]. rewrite map_id. intros Hnd.
    rewrite (list_sum_map_add
               (fun day => List.length
                             (filter (fun issue =>
                                        (formatDate (issue_updated_at issue) =? day)
                                        && labelled issue) issues))
               (fun day => List.length
                             (filter (fun issue =>
                                        (formatDate (issue_created_at issue) =? day)
                                        && negb (labelled issue)) issues))).
    pose proof (sum_over_days (fun issue => formatDate (issue_updated_at issue))
                  (fourteenDays now) Hnd labelled issues) as H1.
    pose proof (sum_over_days (fun issue => formatDate (issue_created_at issue))
                  (fourteenDays now) Hnd
                  (fun issue => negb (labelled issue)) issues) as H2.
    pose proof (exclusive_filters_length labelled (fun issue => negb (labelled issue))
                  issues) as H3.
    assert (H4 : (List.length (filter labelled issues)
                  + List.length (filter (fun issue => negb (labelled issue)) issues)
                  <= List.length issues)%nat).
    { apply H3. intros x Hx. rewrite Hx. reflexivity. }
    change (totalIssues m) with (List.length issues). lia.
Qed.

(** ** The table of reviewers, for any logins *)

Lemma set_set {V : Type} (o : JsObject.t V) (k : string) (v0 v1 : V) :
  JsObject.set (JsObject.set o k v0) k v1 = JsObject.set o k v1.
Proof.
  unfold JsObject.set. induction o as [|[k0 x] rest IH]; simpl.
  - rewrite String.eqb_refl. reflexivity.
  - destruct (String.eqb k0 k) eqn:E; simpl; rewrite E; [reflexivity|].
    f_equal. exact IH.
Qed.

Lemma keys_set {V : Type} (o : JsObject.t V) (k : string) (v : V) :
  map fst (JsObject.set o k v)
  = match JsObject.get o k with
    | Some _ => map fst o
    | None => map fst o ++ [k]
    end.
Proof.
  unfold JsObject.set, JsObject.get. induction o as [|[k0 x] rest IH]; simpl; [reflexivity|].
  destruct (String.eqb k0 k) eqn:E; simpl; [reflexivity|].
  rewrite IH. destruct (assoc_get String.eqb rest k); reflexivity.
Qed.

Lemma get_None_keys {V : Type} (o : JsObject.t V) (k : string) :
  JsObject.get o k = None -> ~ In k (map fst o).
Proof.
  intros H Hin. apply in_map_iff in Hin. destruct Hin as [[k0 v] [Hk Hin]].
  simpl in Hk. subst k0. destruct (In_get _ _ _ Hin) as [v' Hv]. congruence.
Qed.

Lemma bumpReviewer_shape (stats : JsObject.t ReviewerStat) (u : GitHubUser) :
  NoDup (map fst stats) -> Forall (fun kv => (1 <= count (snd kv))%nat) stats ->
  NoDup (map fst (bumpReviewer stats u))
  /\ Forall (fun kv => (1 <= count (snd kv))%nat) (bumpReviewer stats u).
Proof.
  intros Hnd Hall. unfold bumpReviewer, JsObject.lookup.
  destruct (JsObject.get stats (login u)) as [st|] eqn:Hget.
  - rewrite Hget. split.
    + rewrite keys_set, Hget. exact Hnd.
    + apply Forall_forall. intros [k v] Hin. apply in_set_inv in Hin.
      destruct Hin as [[-> ->]|Hin]; [simpl; lia|].
      rewrite Forall_forall in Hall. apply (Hall _ Hin).
  - destruct (JsObject.inheritedName (login u)).
    + rewrite Hget. auto.
    + rewrite get_set, String.eqb_refl, set_set. split.
      * rewrite keys_set, Hget. apply NoDup_app.
        -- exact Hnd.
        -- constructor; [intros []|constructor].
        -- intros x Hx [<-|[]]. apply (get_None_keys _ _ Hget Hx).
      * apply Forall_forall. intros [k v] Hin. apply in_set_inv in Hin.
        destruct Hin as [[-> ->]|Hin]; [simpl; lia|].
        rewrite Forall_forall in Hall. apply (Hall _ Hin).
Qed.

Lemma bumpReviewer_fold_shape (us : list GitHubUser) :
  forall stats,
    NoDup (map fst stats) -> Forall (fun kv => (1 <= count (snd kv))%nat) stats ->
    NoDup (map fst (fold_left bumpReviewer us stats))
    /\ Forall (fun kv => (1 <= count (snd kv))%nat) (fold_left bumpReviewer us stats).
Proof.
  induction us as [|u us IH]; intros stats Hnd Hall; simpl; [auto|].
  destruct (bumpReviewer_shape stats u Hnd Hall) as [H1 H2]. apply IH; assumption.
Qed.

Lemma Sorted_firstn {A : Type} (R : A -> A -> Prop) (l : list A) :
  Sorted R l -> forall n, Sorted R (firstn n l).
Proof.
  induction 1 as [|x l Hl IH Hx]; intros n.
  - rewrite firstn_nil. constructor.
  - destruct n as [|n]; simpl; [constructor|].
    constructor; [apply IH|].
    destruct Hx; [rewrite firstn_nil; constructor|].
    destruct n; simpl; constructor. assumption.
Qed.

Lemma NoDup_firstn {A : Type} (l : list A) (n : nat) : NoDup l -> NoDup (firstn n l).
Proof.
  intros H. rewrite <- (firstn_skipn n l) in H. apply NoDup_app_remove_r in H. exact H.
Qed.

(** X20.  Whatever the logins, [topReviewers] holds at most ten entries, sorted
    by descending review count, no reviewer twice, each with at least one
    review. *)
Theorem top_reviewers_shape
    (now : Z) (pullRequests : list GitHubPullRequest)
    (allReviews : JsObject.t (list GitHubReview)) (repoMap : JsObject.t string) :
  let top := topReviewers (calculateReviewMetrics now pullRequests allReviews repoMap) in
  (List.length top <= 10)%nat
  /\ Sorted (fun a b => (reviewCount b <= reviewCount a)%nat) top
  /\ NoDup (map username top)
  /\ Forall (fun t => (1 <= reviewCount t)%nat) top.
Proof.
  intros top. subst top. unfold calculateReviewMetrics. cbn [topReviewers].
  rewrite reviewLoop_counted, countReview_stats.
  set (us := reviewers (countedReviews pullRequests allReviews repoMap)).
  destruct (bumpReviewer_fold_shape us JsObject.empty (NoDup_nil _) (Forall_nil _))
    as [Hnd Hall].
  set (stats := fold_left bumpReviewer us JsObject.empty) in *.
  set (key := fun e : string * ReviewerStat => count (snd e)).
  assert (Hperm : Permutation (sort (higher key) (JsObject.entries stats)) stats).
  { eapply Permutation_trans; [apply Permutation_sym, sort_perm|apply entries_perm]. }
  unfold topReviewers_of, slice0.
  change (fun a b : string * ReviewerStat => (count (snd b) <? count (snd a))%nat)
    with (higher key).
  split; [|split; [|split]].
  - rewrite length_map, length_firstn. lia.
  - apply Sorted_map. apply Sorted_firstn. apply (sort_Sorted key).
  - rewrite map_map. cbn [username].
    change (fun x : string * ReviewerStat => fst x) with (@fst string ReviewerStat).
    rewrite <- firstn_map. apply NoDup_firstn.
    eapply Permutation_NoDup; [apply Permutation_sym, Permutation_map, Hperm|exact Hnd].
  - apply Forall_forall. intros t Ht. apply in_map_iff in Ht.
    destruct Ht as [e [<- He]]. simpl.
    rewrite Forall_forall in Hall. apply (Hall e).
    eapply Permutation_in; [exact Hperm|].
    rewrite <- (firstn_skipn 10 (sort (higher key) (JsObject.entries stats))).
    apply in_or_app. left. exact He.
Qed.

(** ** Without any review *)

Lemma filter_none {A : Type} (f : A -> bool) (l : list A) :
  (forall x, f x = false) -> filter f l = [].
Proof.
  intros H. induction l as [|x l IH]; simpl; [reflexivity|]. rewrite H. exact IH.
Qed.

(** X21.  With an empty reviews map nothing is counted, nobody is ranked, no
    pull request is ready to merge, each of the fourteen days of the series
    is empty, and every pull request that is open, not merged and not a
    draft needs a review: all of them are counted as pending and 20 of them
    at most are listed. *)
Theorem no_reviews_at_all
    (now : Z) (pullRequests : list GitHubPullRequest) (repoMap : JsObject.t string) :
  let m := calculateReviewMetrics now pullRequests JsObject.empty repoMap in
  totalReviews m = 0%nat
  /\ reviewsLast7Days m = 0%nat /\ reviewsLast30Days m = 0%nat
  /\ (averageReviewTimeHours m == 0)%Q
  /\ topReviewers m = []
  /\ prsReadyToMerge m = []
  /\ List.length (dailyReviewData m) = 14%nat
  /\ Forall (fun d => dr_reviews d = 0%nat /\ dr_avgTimeHours d = 0%Q) (dailyReviewData m)
  /\ pending (reviewStateDistribution m) = List.length (filter reviewable pullRequests)
  /\ List.length (prsNeedingReview m)
     = Nat.min 20 (List.length (filter reviewable pullRequests)).
Proof.
  intros m.
  assert (Hneed : filter (classifiedNeedingReview JsObject.empty repoMap) pullRequests
                  = filter reviewable pullRequests).
  { apply filter_ext. intros pr. unfold classifiedNeedingReview, resolvedReviews.
    destruct (findCompositeKey repoMap (pr_number pr)); simpl; apply andb_true_r. }
  assert (Hready : filter (classifiedReadyToMerge JsObject.empty repoMap) pullRequests = []).
  { apply filter_none. intros pr. unfold classifiedReadyToMerge, resolvedReviews.
    destruct (findCompositeKey repoMap (pr_number pr)); simpl; apply andb_false_r. }
  subst m. unfold calculateReviewMetrics.
  cbn [totalReviews reviewsLast7Days reviewsLast30Days averageReviewTimeHours topReviewers
       prsReadyToMerge dailyReviewData reviewStateDistribution pending prsNeedingReview].
  rewrite slice0_sort_length, worklists_eq. cbn [fst snd]. rewrite Hready, Hneed, length_map.
  repeat split; try reflexivity.
  apply Forall_forall. intros d Hd. unfold dailyReviewData_of in Hd.
  apply in_map_iff in Hd. destruct Hd as [i [<- _]]. split; reflexivity.
Qed.

(** ** A repository whose issues cannot be fetched *)

Section KeptPullRequests.
Variable api : GitHub.
Variable repo : Repository.

Let keyOf (pr : GitHubPullRequest) : string := compositeKeyOf repo (pr_number pr).

Lemma writeKeys_present {X : Type} (number : X -> Z) (F : Run -> Prop) (E : Run -> Prop) :
  (forall j v s, F s -> F (setRepoMap j v s)) ->
  forall (l : list X) (keys : list string),
    triple (fun s => Forall (keyPresent s) keys /\ F s)
           (forEach l (fun x => modify (setRepoMap (compositeKeyOf repo (number x))
                                                   (repo_name repo))))
           (fun _ s => Forall (keyPresent s)
                         (keys ++ map (fun x => compositeKeyOf repo (number x)) l)
                       /\ F s)
           E.
Proof.
  intros HF. induction l as [|x l IH]; intros keys; simpl.
  - apply triple_ret. intros s H. rewrite app_nil_r. exact H.
  - apply triple_bind with
      (R := fun _ s => Forall (keyPresent s) (keys ++ [compositeKeyOf repo (number x)])
                       /\ F s).
    + apply triple_modify. intros s [H1 H2]. split; [|apply HF, H2].
      apply Forall_app. split.
      * eapply Forall_impl; [|exact H1]. intros key. apply keyPresent_setRepoMap.
      * constructor; [|constructor]. exists (repo_name repo). simpl. apply in_set_new.
    + intros u. eapply triple_weaken;
        [apply (IH (keys ++ [compositeKeyOf repo (number x)]))| | |]; auto.
      intros a s [H1 H2]. rewrite <- app_assoc in H1. auto.
Qed.

Lemma processRepository_after_pull_requests (fuel : nat) (since : Z)
    (prs : list GitHubPullRequest) (before : list GitHubPullRequest) :
  let kept s := allPullRequests s = before ++ prs
                /\ Forall (keyPresent s) (map keyOf prs) in
  triple (fun s => allPullRequests s = before)
    (modify (pushPullRequests prs) ;;;
     forEach prs
       (fun pr => modify (setRepoMap (compositeKeyOf repo (pr_number pr)) (repo_name repo))) ;;;
     forEach (slice0 30 prs) (collectReviews api repo) ;;;
     issues <- getIssues api fuel (repo_owner repo) (repo_name repo) since ;;
     modify (pushIssues issues) ;;;
     forEach issues
       (fun issue =>
          modify (setRepoMap (compositeKeyOf repo (issue_number issue)) (repo_name repo))))%run
    (fun _ => kept) kept.
Proof.
  intros kept.
  assert (Hsame : forall s s', collections s = collections s' -> kept s -> kept s').
  { unfold kept. same_collections. }
  apply triple_bind with
    (R := fun _ s => Forall (keyPresent s) [] /\ allPullRequests s = before ++ prs).
  { apply triple_modify. intros s Hs. split; [constructor|]. simpl. rewrite Hs. reflexivity. }
  intros u1. apply triple_bind with (R := fun _ => kept).
  { eapply triple_weaken;
      [apply (writeKeys_present pr_number (fun s => allPullRequests s = before ++ prs) kept
                (fun _ _ _ H => H) prs [])| | |]; auto.
    intros a s [H1 H2]. split; assumption. }
  intros u2. apply triple_bind with (R := fun _ => kept).
  { apply triple_forEach. intros pr _. unfold collectReviews.
    apply triple_bind with (R := fun _ => kept).
    - eapply triple_weaken;
        [apply (triple_frame_total _
                  (fun reviews => Forall (fun r => isBotUser (review_user r) = false) reviews)
                  kept kept (fun c => getReviews_safe api c _ _ _) Hsame)| | |]; auto.
      intros a s [_ H]. exact H.
    - intros reviews. destruct (0 <? List.length reviews)%nat.
      + apply triple_modify. intros s H. exact H.
      + apply triple_ret. auto. }
  intros u3. apply triple_bind with (R := fun _ => kept).
  { eapply triple_weaken; [apply (getIssues_keeps api kept _ _ _ _ Hsame)| | |]; auto.
    intros a s [_ H]. exact H. }
  intros issues. apply triple_bind with (R := fun _ => kept).
  { apply triple_modify. intros s H. exact H. }
  intros u4.
  eapply triple_weaken;
    [apply (writeKeys_present issue_number
              (fun s => allPullRequests s = before ++ prs) kept
              (fun _ _ _ H => H) issues (map keyOf prs))| | |]; auto.
  - intros s [H1 H2]. auto.
  - intros a s [H1 H2]. split; [exact H2|].
    apply Forall_app in H1. apply H1.
Qed.
End KeptPullRequests.

(** X12.  Once the pull requests of a repository are fetched they stay in the
    collection, with their keys in the repository map, whatever happens to
    the requests for its reviews and its issues. *)
Theorem processRepository_keeps_pull_requests
    (api : GitHub) (fuel : nat) (since : Z) (repo : Repository)
    (s s1 : Run) (prs : list GitHubPullRequest) :
  getPullRequests api fuel (repo_owner repo) (repo_name repo) since s = Done prs s1 ->
  match processRepository api fuel since repo s with
  | Done _ s' =>
      allPullRequests s' = allPullRequests s ++ prs
      /\ Forall (keyPresent s') (map (fun pr => compositeKeyOf repo (pr_number pr)) prs)
  | Threw _ _ => False
  | OutOfFuel => True
  end.
Proof.
  intros H.
  assert (H1 : allPullRequests s1 = allPullRequests s).
  { pose proof (getPullRequests_loop_safe api (collections s) (repo_owner repo)
                  (repo_name repo) since fuel 1%nat [] (Forall_nil _) s eq_refl) as Hs.
    unfold getPullRequests in H. rewrite H in Hs. destruct Hs as [_ Hs].
    unfold untouched, collections in Hs. injection Hs as Hs _ _ _. exact Hs. }
  pose proof (processRepository_after_pull_requests api repo fuel since prs
                (allPullRequests s) s1 H1) as K.
  unfold processRepository, tryCatch. unfold bind at 1. rewrite H.
  cbv zeta in K.
  match goal with
  | K : match ?k s1 with _ => _ end |- _ => destruct (k s1) as [u s'|e s'|]
  end; [exact K|exact K|exact I].
Qed.

(** ** The run ends *)

Lemma settled_ret {A : Type} (a : A) : settled (ret a) (ret a).
Proof. intros s. split; [discriminate|reflexivity]. Qed.

Lemma settled_modify (f : Run -> Run) : settled (modify f) (modify f).
Proof. intros s. split; [discriminate|reflexivity]. Qed.

Lemma settled_current : settled current current.
Proof. intros s. split; [discriminate|reflexivity]. Qed.

Lemma settled_fetch (api : GitHub) (r : Request) :
  settled (fetchFromGitHub api r) (fetchFromGitHub api r).
Proof.
  intros s. split; [|reflexivity]. unfold fetchFromGitHub.
  destruct (api r); discriminate.
Qed.

Lemma settled_bind {A B : Type} (m1 m2 : M A) (k1 k2 : A -> M B) :
  settled m1 m2 -> (forall a, settled (k1 a) (k2 a)) ->
  settled (bind m1 k1) (bind m2 k2).
Proof.
  intros Hm Hk s. unfold bind. destruct (Hm s) as [H1 H2]. rewrite H2.
  destruct (m1 s) as [a s'|e s'|].
  - apply Hk.
  - split; [discriminate|reflexivity].
  - contradiction.
Qed.

Lemma settled_tryCatch {A : Type} (m1 m2 : M A) (h1 h2 : string -> M A) :
  settled m1 m2 -> (forall e, settled (h1 e) (h2 e)) ->
  settled (tryCatch m1 h1) (tryCatch m2 h2).
Proof.
  intros Hm Hh s. unfold tryCatch. destruct (Hm s) as [H1 H2]. rewrite H2.
  destruct (m1 s) as [a s'|e s'|].
  - split; [discriminate|reflexivity].
  - apply Hh.
  - contradiction.
Qed.

Lemma settled_forEach {A : Type} (l : list A) (body1 body2 : A -> M unit) :
  (forall x, settled (body1 x) (body2 x)) ->
  settled (forEach l body1) (forEach l body2).
Proof.
  intros H. induction l as [|x l IH]; simpl.
  - apply settled_ret.
  - apply settled_bind; [apply H|]. intros _. exact IH.
Qed.

Section Ends.
Variable api : GitHub.
Variable n : nat.
Hypothesis Hn : pagesEndBy api n.

Lemma getRepositories_loop_settled :
  forall (f1 f2 page : nat) (acc : list Repository),
    (n < page + f1)%nat -> (0 < f1)%nat -> (n < page + f2)%nat -> (0 < f2)%nat ->
    settled (getRepositories_loop api f1 page acc) (getRepositories_loop api f2 page acc).
Proof.
  induction f1 as [|f1 IH]; intros f2 page acc H1 P1 H2 P2; [lia|].
  destruct f2 as [|f2]; [lia|].
  intros s. cbn [getRepositories_loop]. unfold bind, fetchFromGitHub.
  destruct (api (ReqRepos page)) as [repos|text] eqn:E;
    [|split; [discriminate|reflexivity]].
  destruct (List.length repos =? 0)%nat; [apply settled_ret|].
  destruct (List.length repos <? perPage)%nat eqn:L; [apply settled_ret|].
  apply Nat.ltb_ge in L.
  assert (page < n)%nat.
  { destruct (Nat.lt_ge_cases page n) as [|G]; [assumption|].
    destruct (Hn page G) as [Hr _]. specialize (Hr repos E). lia. }
  apply IH; lia.
Qed.

Lemma getPullRequests_loop_settled (owner repo : string) (since : Z) :
  forall (f1 f2 page : nat) (acc : list GitHubPullRequest),
    (n < page + f1)%nat -> (0 < f1)%nat -> (n < page + f2)%nat -> (0 < f2)%nat ->
    settled (getPullRequests_loop api f1 owner repo since page acc)
            (getPullRequests_loop api f2 owner repo since page acc).
Proof.
  induction f1 as [|f1 IH]; intros f2 page acc H1 P1 H2 P2; [lia|].
  destruct f2 as [|f2]; [lia|].
  intros s. cbn [getPullRequests_loop]. unfold bind, fetchFromGitHub.
  destruct (api (ReqPulls owner repo page)) as [prs|text] eqn:E;
    [|split; [discriminate|reflexivity]].
  destruct (List.length prs =? 0)%nat; [apply settled_ret|].
  destruct (lastPullRequestPage since prs) eqn:L; [apply settled_ret|].
  unfold lastPullRequestPage in L. apply orb_false_iff in L. destruct L as [L _].
  apply Nat.ltb_ge in L.
  assert (page < n)%nat.
  { destruct (Nat.lt_ge_cases page n) as [|G]; [assumption|].
    destruct (Hn page G) as (_ & Hr & _). specialize (Hr owner repo prs E). lia. }
  apply IH; lia.
Qed.

Lemma getIssues_loop_settled (owner repo : string) (since : Z) :
  forall (f1 f2 page : nat) (acc : list GitHubIssue),
    (n < page + f1)%nat -> (0 < f1)%nat -> (n < page + f2)%nat -> (0 < f2)%nat ->
    settled (getIssues_loop api f1 owner repo since page acc)
            (getIssues_loop api f2 owner repo since page acc).
Proof.
  induction f1 as [|f1 IH]; intros f2 page acc H1 P1 H2 P2; [lia|].
  destruct f2 as [|f2]; [lia|].
  intros s. cbn [getIssues_loop]. unfold bind, fetchFromGitHub.
  destruct (api (ReqIssues owner repo since page)) as [issues|text] eqn:E;
    [|split; [discriminate|reflexivity]].
  destruct (List.length issues =? 0)%nat; [apply settled_ret|].
  destruct (List.length issues <? perPage)%nat eqn:L; [apply settled_ret|].
  apply Nat.ltb_ge in L.
  assert (page < n)%nat.
  { destruct (Nat.lt_ge_cases page n) as [|G]; [assumption|].
    destruct (Hn page G) as (_ & _ & Hr). specialize (Hr owner repo since issues E). lia. }
  apply IH; lia.
Qed.

Lemma getReviews_settled (owner repo : string) (prNumber : Z) :
  settled (getReviews api owner repo prNumber) (getReviews api owner repo prNumber).
Proof.
  unfold getReviews. apply settled_tryCatch.
  - apply settled_bind; [apply settled_fetch|]. intros reviews. apply settled_ret.
  - intros e. apply settled_ret.
Qed.

Lemma collectReviews_settled (repo : Repository) (pr : GitHubPullRequest) :
  settled (collectReviews api repo pr) (collectReviews api repo pr).
Proof.
  unfold collectReviews. apply settled_bind; [apply getReviews_settled|].
  intros reviews. destruct (0 <? List.length reviews)%nat;
    [apply settled_modify|apply settled_ret].
Qed.

Lemma processRepository_settled (f1 f2 : nat) (since : Z) (repo : Repository) :
  (n < f1)%nat -> (n < f2)%nat ->
  settled (processRepository api f1 since repo) (processRepository api f2 since repo).
Proof.
  intros H1 H2. unfold processRepository. apply settled_tryCatch.
  - apply settled_bind.
    { unfold getPullRequests. apply getPullRequests_loop_settled; lia. }
    intros prs. apply settled_bind; [apply settled_modify|]. intros _.
    apply settled_bind.
    { apply settled_forEach. intros pr. apply settled_modify. }
    intros _. apply settled_bind.
    { apply settled_forEach. intros pr. apply collectReviews_settled. }
    intros _. apply settled_bind.
    { unfold getIssues. apply getIssues_loop_settled; lia. }
    intros issues. apply settled_bind; [apply settled_modify|]. intros _.
    apply settled_forEach. intros issue. apply settled_modify.
  - intros e. apply settled_ret.
Qed.

Lemma generateAnalytics_settled (now : Z) (f1 f2 : nat) :
  (n < f1)%nat -> (n < f2)%nat ->
  settled (generateAnalytics api now f1) (generateAnalytics api now f2).
Proof.
  intros H1 H2. unfold generateAnalytics. apply settled_bind.
  { unfold getRepositories. apply settled_bind.
    - apply getRepositories_loop_settled; lia.
    - intros repos. apply settled_ret. }
  intros repos. apply settled_bind.
  { apply settled_forEach. intros repo. apply processRepository_settled; assumption. }
  intros _. apply settled_bind; [apply settled_current|].
  intros s. apply settled_ret.
Qed.
End Ends.

(** X25.  When from some page on every list request is answered with an
    error or with a page that is not full, the run ends, with a snapshot or
    with an error, and the fuel given to its loops beyond that page has no
    effect on the outcome. *)
Theorem generateAnalytics_ends
    (api : GitHub) (now : Z) (n fuel fuel' : nat) (s : Run) :
  pagesEndBy api n -> (n < fuel)%nat -> (n < fuel')%nat ->
  generateAnalytics api now fuel s <> OutOfFuel
  /\ generateAnalytics api now fuel' s = generateAnalytics api now fuel s.
Proof.
  intros Hn H1 H2. exact (generateAnalytics_settled api n Hn now fuel fuel' H1 H2 s).
Qed.

(** ** The requests for reviews *)

Lemma reviewRequests_send (r : Request) (s : Run) :
  reviewRequests (send r s)
  = (reviewRequests s + (if isReviewRequest r then 1 else 0))%nat.
Proof.
  unfold reviewRequests, send. cbn [sent]. rewrite filter_app, length_app.
  simpl. destruct (isReviewRequest r); reflexivity.
Qed.

Section RequestBudget.
Variable api : GitHub.

Lemma fetch_list_quiet (r : Request) (c : nat) :
  isReviewRequest r = false ->
  triple (fun s => reviewRequests s = c) (fetchFromGitHub api r)
    (fun _ s => reviewRequests s = c) (fun s => reviewRequests s = c).
Proof.
  intros Hr. apply triple_fetch. intros s Hs. rewrite reviewRequests_send, Hr. lia.
Qed.

Lemma getRepositories_loop_quiet (c : nat) :
  forall (fuel page : nat) (acc : list Repository),
    triple (fun s => reviewRequests s = c) (getRepositories_loop api fuel page acc)
      (fun _ s => reviewRequests s = c) (fun s => reviewRequests s = c).
Proof.
  induction fuel as [|fuel IH]; intros page acc; simpl.
  - intros s _. exact I.
  - apply triple_bind with (R := fun _ s => reviewRequests s = c);
      [exact (fetch_list_quiet (ReqRepos page) c eq_refl)|].
    intros repos. destruct (List.length repos =? 0)%nat; [apply triple_ret; auto|].
    destruct (List.length repos <? perPage)%nat; [apply triple_ret; auto|apply IH].
Qed.

Lemma getPullRequests_loop_quiet (owner repo : string) (since : Z) (c : nat) :
  forall (fuel page : nat) (acc : list GitHubPullRequest),
    triple (fun s => reviewRequests s = c)
      (getPullRequests_loop api fuel owner repo since page acc)
      (fun _ s => reviewRequests s = c) (fun s => reviewRequests s = c).
Proof.
  induction fuel as [|fuel IH]; intros page acc; simpl.
  - intros s _. exact I.
  - apply triple_bind with (R := fun _ s => reviewRequests s = c);
      [exact (fetch_list_quiet (ReqPulls owner repo page) c eq_refl)|].
    intros prs. destruct (List.length prs =? 0)%nat; [apply triple_ret; auto|].
    destruct (lastPullRequestPage since prs); [apply triple_ret; auto|apply IH].
Qed.

Lemma getIssues_loop_quiet (owner repo : string) (since : Z) (c : nat) :
  forall (fuel page : nat) (acc : list GitHubIssue),
    triple (fun s => reviewRequests s = c)
      (getIssues_loop api fuel owner repo since page acc)
      (fun _ s => reviewRequests s = c) (fun s => reviewRequests s = c).
Proof.
  induction fuel as [|fuel IH]; intros page acc; simpl.
  - intros s _. exact I.
  - apply triple_bind with (R := fun _ s => reviewRequests s = c);
      [exact (fetch_list_quiet (ReqIssues owner repo since page) c eq_refl)|].
    intros issues. destruct (List.length issues =? 0)%nat; [apply triple_ret; auto|].
    destruct (List.length issues <? perPage)%nat; [apply triple_ret; auto|apply IH].
Qed.

Lemma collectReviews_one (repo : Repository) (pr : GitHubPullRequest) (c : nat) :
  triple (fun s => reviewRequests s = c) (collectReviews api repo pr)
    (fun _ s => reviewRequests s = S c) (fun _ => False).
Proof.
  intros s Hs. unfold collectReviews, getReviews, tryCatch, bind, fetchFromGitHub, ret.
  destruct (api (ReqReviews (repo_owner repo) (repo_name repo) (pr_number pr)))
    as [reviews|text].
  - destruct (0 <? List.length (filter _ reviews))%nat;
      unfold modify, setReviews, reviewRequests; cbn [sent];
      fold (reviewRequests (send (ReqReviews (repo_owner repo) (repo_name repo)
                                             (pr_number pr)) s));
      rewrite reviewRequests_send; simpl; lia.
  - simpl. rewrite reviewRequests_send. simpl. lia.
Qed.

Lemma forEach_collectReviews (repo : Repository) :
  forall (prs : list GitHubPullRequest) (c : nat),
    triple (fun s => reviewRequests s = c) (forEach prs (collectReviews api repo))
      (fun _ s => reviewRequests s = (c + List.length prs)%nat) (fun _ => False).
Proof.
  induction prs as [|pr prs IH]; intros c; simpl.
  - apply triple_ret. intros s Hs. lia.
  - apply triple_bind with (R := fun _ s => reviewRequests s = S c);
      [apply collectReviews_one|].
    intros _. eapply triple_weaken; [apply (IH (S c))| | |].
    + auto.
    + intros u s Hs. simpl in Hs. lia.
    + auto.
Qed.

Lemma forEach_setRepoMap_quiet {A : Type} (l : list A) (key : A -> string)
    (name : string) (P : nat -> Prop) :
  triple (fun s => P (reviewRequests s))
    (forEach l (fun x => modify (setRepoMap (key x) name)))
    (fun _ s => P (reviewRequests s)) (fun _ => False).
Proof.
  apply triple_forEach. intros x _. apply triple_modify. intros s Hs. exact Hs.
Qed.

Lemma processRepository_budget (fuel : nat) (since : Z) (repo : Repository) (c : nat) :
  triple (fun s => reviewRequests s = c) (processRepository api fuel since repo)
    (fun _ s => (c <= reviewRequests s <= c + 30)%nat) (fun _ => False).
Proof.
  unfold processRepository.
  apply triple_tryCatch with (E' := fun s => (c <= reviewRequests s <= c + 30)%nat).
  2:{ intros e. apply triple_ret. auto. }
  apply triple_bind with (R := fun _ s => reviewRequests s = c).
  { unfold getPullRequests.
    eapply triple_weaken; [apply (getPullRequests_loop_quiet _ _ _ c)| | |];
      cbv beta; intros; lia. }
  intros prs.
  apply triple_bind with (R := fun _ s => reviewRequests s = c).
  { apply triple_modify. intros s Hs. exact Hs. }
  intros _.
  apply triple_bind with (R := fun _ s => reviewRequests s = c).
  { eapply triple_weaken;
      [apply (forEach_setRepoMap_quiet prs
                (fun pr => compositeKeyOf repo (pr_number pr)) (repo_name repo)
                (fun k => k = c))| | |]; cbv beta; intros; tauto. }
  intros _.
  assert (Hlen : (List.length (slice0 30 prs) <= 30)%nat).
  { unfold slice0. rewrite length_firstn. lia. }
  apply triple_bind
    with (R := fun _ s => reviewRequests s = (c + List.length (slice0 30 prs))%nat).
  { eapply triple_weaken; [apply (forEach_collectReviews repo _ c)| | |];
      cbv beta; intros; tauto. }
  intros _.
  apply triple_bind
    with (R := fun _ s => reviewRequests s = (c + List.length (slice0 30 prs))%nat).
  { unfold getIssues.
    eapply triple_weaken;
      [apply (getIssues_loop_quiet _ _ _ (c + List.length (slice0 30 prs))%nat)| | |];
      cbv beta; intros; lia. }
  intros issues.
  apply triple_bind
    with (R := fun _ s => reviewRequests s = (c + List.length (slice0 30 prs))%nat).
  { apply triple_modify. intros s Hs. exact Hs. }
  intros _.
  eapply triple_weaken;
    [apply (forEach_setRepoMap_quiet issues
              (fun issue => compositeKeyOf repo (issue_number issue)) (repo_name repo)
              (fun k => k = (c + List.length (slice0 30 prs))%nat))| | |];
    cbv beta; intros; try tauto; lia.
Qed.

Lemma forEach_processRepository_budget (fuel : nat) (since : Z) :
  forall (repos : list Repository) (c : nat),
    triple (fun s => reviewRequests s = c)
      (forEach repos (processRepository api fuel since))
      (fun _ s => (c <= reviewRequests s <= c + 30 * List.length repos)%nat)
      (fun _ => False).
Proof.
  induction repos as [|repo repos IH]; intros c; simpl.
  - apply triple_ret. intros s Hs. lia.
  - apply triple_bind with (R := fun _ s => (c <= reviewRequests s <= c + 30)%nat);
      [apply processRepository_budget|].
    intros u s Hs. specialize (IH (reviewRequests s) s eq_refl).
    destruct (forEach repos (processRepository api fuel since) s) as [v s'|e s'|];
      [lia|exact IH|exact I].
Qed.
End RequestBudget.

(** X26.  Whatever the service answers, processing one repository asks for
    the reviews of at most 30 pull requests; a run that produces a snapshot
    has asked for reviews at most 30 times for each repository it
    processed, and no run asks for reviews more than 450 times. *)
Theorem review_requests_bounded (api : GitHub) (now : Z) (fuel : nat) (s : Run) :
  (forall since repo,
      match processRepository api fuel since repo s with
      | Done _ s' => (reviewRequests s <= reviewRequests s' <= reviewRequests s + 30)%nat
      | Threw _ _ => False
      | OutOfFuel => True
      end)
  /\ match generateAnalytics api now fuel s with
     | Done data s' =>
         (reviewRequests s' <= reviewRequests s + 30 * repositories data)%nat
         /\ (repositories data <= 15)%nat
     | Threw _ s' => (reviewRequests s' <= reviewRequests s + 450)%nat
     | OutOfFuel => True
     end.
Proof.
  split.
  { intros since repo.
    exact (processRepository_budget api fuel since repo (reviewRequests s) s eq_refl). }
  assert (H : triple (fun s0 => reviewRequests s0 = reviewRequests s)
                (generateAnalytics api now fuel)
                (fun data s' =>
                   (reviewRequests s' <= reviewRequests s + 30 * repositories data)%nat
                   /\ (repositories data <= 15)%nat)
                (fun s' => reviewRequests s' = reviewRequests s)).
  { unfold generateAnalytics.
    apply triple_bind with (R := fun _ s0 => reviewRequests s0 = reviewRequests s).
    { unfold getRepositories.
      apply triple_bind with (R := fun _ s0 => reviewRequests s0 = reviewRequests s);
        [apply getRepositories_loop_quiet|].
      intros repos. apply triple_ret. auto. }
    intros repos.
    apply triple_bind
      with (R := fun _ s0 => (reviewRequests s0
                              <= reviewRequests s + 30 * List.length (slice0 15 repos))%nat).
    { eapply triple_weaken;
        [apply (forEach_processRepository_budget api fuel _ _ (reviewRequests s))| | |];
        cbv beta; intros; try tauto; lia. }
    intros _. apply triple_bind
      with (R := fun _ s0 => (reviewRequests s0
                              <= reviewRequests s + 30 * List.length (slice0 15 repos))%nat).
    { apply triple_current. auto. }
    intros s0. apply triple_ret. intros s1 Hs. cbn [repositories].
    split; [exact Hs|]. unfold slice0. rewrite length_firstn. lia. }
  specialize (H s eq_refl).
  destruct (generateAnalytics api now fuel s) as [data s'|e s'|]; [exact H| |exact I].
  rewrite H. lia.
Qed.

(** ** What a run asks the service *)

Section Queries.
Variable api : GitHub.
Variable now : Z.

Lemma expected_send (r : Request) (s : Run) :
  expected api now r ->
  Forall (expected api now) (sent s) -> Forall (expected api now) (sent (send r s)).
Proof.
  intros Hr Hs. unfold send. cbn [sent]. apply Forall_app. split; [exact Hs|].
  constructor; [exact Hr|constructor].
Qed.

Lemma fetch_expected (r : Request) :
  expected api now r ->
  triple (fun s => Forall (expected api now) (sent s)) (fetchFromGitHub api r)
    (fun a s => api r = Ok a /\ Forall (expected api now) (sent s))
    (fun s => Forall (expected api now) (sent s)).
Proof.
  intros Hr. apply fetch_value. intros s. apply expected_send, Hr.
Qed.

Lemma fetch_keeps_expected (r : Request) :
  expected api now r ->
  triple (fun s => Forall (expected api now) (sent s)) (fetchFromGitHub api r)
    (fun _ s => Forall (expected api now) (sent s))
    (fun s => Forall (expected api now) (sent s)).
Proof.
  intros Hr s Hs. unfold fetchFromGitHub.
  destruct (api r); apply expected_send; assumption.
Qed.

Lemma getRepositories_loop_expected :
  forall (fuel page : nat) (acc : list Repository),
    Forall (listed api) acc ->
    triple (fun s => Forall (expected api now) (sent s))
      (getRepositories_loop api fuel page acc)
      (fun repos s => Forall (listed api) repos /\ Forall (expected api now) (sent s))
      (fun s => Forall (expected api now) (sent s)).
Proof.
  induction fuel as [|fuel IH]; intros page acc Hacc; simpl.
  - intros s _. exact I.
  - apply triple_bind
      with (R := fun repos s => api (ReqRepos page) = Ok repos
                                /\ Forall (expected api now) (sent s)).
    + apply (fetch_expected (ReqRepos page)). exact I.
    + intros repos.
      assert (Hall : api (ReqRepos page) = Ok repos -> Forall (listed api) (acc ++ repos)).
      { intros Hapi. apply Forall_app. split; [exact Hacc|].
        apply Forall_forall. intros repo Hin. exists page, repos. auto. }
      destruct (List.length repos =? 0)%nat.
      * apply triple_ret. intros s [_ Hs]. auto.
      * destruct (List.length repos <? perPage)%nat.
        -- apply triple_ret. intros s [Hapi Hs]. auto.
        -- intros s [Hapi Hs]. apply (IH (S page) (acc ++ repos) (Hall Hapi) s Hs).
Qed.

Lemma getPullRequests_loop_expected (owner name : string) (since : Z) :
  ofActiveRepository api owner name ->
  forall (fuel page : nat) (acc : list GitHubPullRequest),
    triple (fun s => Forall (expected api now) (sent s))
      (getPullRequests_loop api fuel owner name since page acc)
      (fun _ s => Forall (expected api now) (sent s))
      (fun s => Forall (expected api now) (sent s)).
Proof.
  intros Hr. induction fuel as [|fuel IH]; intros page acc; simpl.
  - intros s _. exact I.
  - apply triple_bind with (R := fun _ s => Forall (expected api now) (sent s)).
    + exact (fetch_keeps_expected (ReqPulls owner name page) Hr).
    + intros prs. destruct (List.length prs =? 0)%nat; [apply triple_ret; auto|].
      destruct (lastPullRequestPage since prs); [apply triple_ret; auto|apply IH].
Qed.

Lemma getIssues_loop_expected (owner name : string) :
  ofActiveRepository api owner name ->
  forall (fuel page : nat) (acc : list GitHubIssue),
    triple (fun s => Forall (expected api now) (sent s))
      (getIssues_loop api fuel owner name (daysAgo now 180) page acc)
      (fun _ s => Forall (expected api now) (sent s))
      (fun s => Forall (expected api now) (sent s)).
Proof.
  intros Hr. induction fuel as [|fuel IH]; intros page acc; simpl.
  - intros s _. exact I.
  - apply triple_bind with (R := fun _ s => Forall (expected api now) (sent s)).
    + exact (fetch_keeps_expected (ReqIssues owner name (daysAgo now 180) page)
               (conj Hr eq_refl)).
    + intros issues. destruct (List.length issues =? 0)%nat; [apply triple_ret; auto|].
      destruct (List.length issues <? perPage)%nat; [apply triple_ret; auto|apply IH].
Qed.

Lemma collectReviews_expected (repo : Repository) (pr : GitHubPullRequest) :
  ofActiveRepository api (repo_owner repo) (repo_name repo) ->
  triple (fun s => Forall (expected api now) (sent s)) (collectReviews api repo pr)
    (fun _ s => Forall (expected api now) (sent s))
    (fun s => Forall (expected api now) (sent s)).
Proof.
  intros Hr. unfold collectReviews.
  apply triple_bind with (R := fun _ s => Forall (expected api now) (sent s)).
  - unfold getReviews.
    apply triple_tryCatch with (E' := fun s => Forall (expected api now) (sent s)).
    + apply triple_bind with (R := fun _ s => Forall (expected api now) (sent s)).
      * exact (fetch_keeps_expected
                 (ReqReviews (repo_owner repo) (repo_name repo) (pr_number pr)) Hr).
      * intros reviews. apply triple_ret. auto.
    + intros e. apply triple_ret. auto.
  - intros reviews. destruct (0 <? List.length reviews)%nat.
    + apply triple_modify. intros s Hs. exact Hs.
    + apply triple_ret. auto.
Qed.

Lemma processRepository_expected (fuel : nat) (repo : Repository) :
  ofActiveRepository api (repo_owner repo) (repo_name repo) ->
  triple (fun s => Forall (expected api now) (sent s))
    (processRepository api fuel (daysAgo now 180) repo)
    (fun _ s => Forall (expected api now) (sent s))
    (fun s => Forall (expected api now) (sent s)).
Proof.
  intros Hr. unfold processRepository.
  apply triple_tryCatch with (E' := fun s => Forall (expected api now) (sent s)).
  2:{ intros e. apply triple_ret. auto. }
  apply triple_bind with (R := fun _ s => Forall (expected api now) (sent s)).
  { unfold getPullRequests. apply getPullRequests_loop_expected, Hr. }
  intros prs.
  apply triple_bind with (R := fun _ s => Forall (expected api now) (sent s)).
  { apply triple_modify. intros s Hs. exact Hs. }
  intros u1.
  apply triple_bind with (R := fun _ s => Forall (expected api now) (sent s)).
  { apply triple_forEach. intros pr _. apply triple_modify. intros s Hs. exact Hs. }
  intros u2.
  apply triple_bind with (R := fun _ s => Forall (expected api now) (sent s)).
  { apply triple_forEach. intros pr _. apply collectReviews_expected, Hr. }
  intros u3.
  apply triple_bind with (R := fun _ s => Forall (expected api now) (sent s)).
  { unfold getIssues. apply getIssues_loop_expected, Hr. }
  intros issues.
  apply triple_bind with (R := fun _ s => Forall (expected api now) (sent s)).
  { apply triple_modify. intros s Hs. exact Hs. }
  intros u4.
  apply triple_forEach. intros issue _. apply triple_modify. intros s Hs. exact Hs.
Qed.

Lemma generateAnalytics_expected (fuel : nat) :
  triple (fun s => Forall (expected api now) (sent s)) (generateAnalytics api now fuel)
    (fun _ s => Forall (expected api now) (sent s))
    (fun s => Forall (expected api now) (sent s)).
Proof.
  unfold generateAnalytics.
  apply triple_bind
    with (R := fun repos s =>
                 Forall (fun repo => ofActiveRepository api (repo_owner repo) (repo_name repo))
                        repos
                 /\ Forall (expected api now) (sent s)).
  { unfold getRepositories.
    apply triple_bind
      with (R := fun repos s => Forall (listed api) repos
                                /\ Forall (expected api now) (sent s)).
    - apply getRepositories_loop_expected. constructor.
    - intros repos. apply triple_ret. intros s [Hl Hs]. split; [|exact Hs].
      apply Forall_forall. intros repo Hin. apply filter_In in Hin.
      destruct Hin as [Hin Hactive]. rewrite Forall_forall in Hl.
      exists repo. repeat split; [apply Hl, Hin|exact Hactive]. }
  intros repos.
  apply triple_bind with (R := fun _ s => Forall (expected api now) (sent s)).
  { intros s [Hl Hs]. revert s Hs. apply triple_forEach. intros repo Hin.
    apply processRepository_expected. rewrite Forall_forall in Hl. apply Hl.
    unfold slice0 in Hin. rewrite <- (firstn_skipn 15 repos).
    apply in_or_app. left. exact Hin. }
  intros u. apply triple_bind with (R := fun _ s => Forall (expected api now) (sent s)).
  { apply triple_current. auto. }
  intros s0. apply triple_ret. auto.
Qed.
End Queries.

(** X27.  Besides listing the repositories, a run only asks about
    repositories that the service listed as neither archived nor disabled,
    and asks for issues with the cutoff of 180 days before the run. *)
Theorem only_active_repositories_queried (api : GitHub) (now : Z) (fuel : nat) :
  match generateAnalytics api now fuel start with
  | Done _ s | Threw _ s => Forall (expected api now) (sent s)
  | OutOfFuel => True
  end.
Proof.
  pose proof (generateAnalytics_expected api now fuel start (Forall_nil _)) as H.
  destruct (generateAnalytics api now fuel start); [exact H|exact H|exact I].
Qed.

(** ** The further properties on concrete runs *)

Lemma smartSleep_paces_witness :
  smartSleep (Some "4999") 500 <= smartSleep (Some "80") 500
  /\ (smartSleep (Some "80") 500 = 200 <-> 500 < 80)
  /\ (smartSleep (Some "80") 500 = 400 <-> 100 < 80 <= 500)
  /\ (smartSleep (Some "80") 500 = 1000 <-> 80 <= 100)
  /\ smartSleep None 500 = 500
  /\ smartSleep (Some "") 500 = 500
  /\ (forall h, h <> "" -> Js.parseInt h = None -> smartSleep (Some h) 500 = 1000).
Proof.
  apply (smartSleep_paces 500 "80" "4999" 80 4999).
  - discriminate.
  - discriminate.
  - reflexivity.
  - reflexivity.
  - lia.
Defined.

Lemma page_cases {A : Type} (p0 p1 : list A) (i : nat) (x : list A) :
  nth_error ([p0] ++ [p1]) i = Some x -> (i = 0%nat /\ x = p0) \/ (i = 1%nat /\ x = p1).
Proof.
  destruct i as [|[|i]]; simpl; intros H.
  - injection H as <-. left. auto.
  - injection H as <-. right. auto.
  - destruct i; discriminate.
Defined.

Lemma getRepositories_stops_witness :
  getRepositories Case.paged 2 start
  = Done (filter (fun repo => negb (repo_archived repo) && negb (repo_disabled repo))
                 (List.concat ([Case.hundredRepositories] ++ [Case.lastRepositories])))
         (sendAll (map ReqRepos (seq 1 2)) start).
Proof.
  apply (getRepositories_stops Case.paged [Case.hundredRepositories]
           Case.lastRepositories 2 start).
  - intros i repos H. destruct (page_cases _ _ _ _ H) as [[-> ->]|[-> ->]]; reflexivity.
  - constructor; [|constructor]. vm_compute. lia.
  - vm_compute. lia.
  - simpl. lia.
Defined.

Lemma getIssues_stops_witness :
  getIssues Case.paged 2 ORG "A" Scenario.since start
  = Done (filter (fun issue => negb (issue_pull_request issue)
                               && negb (isBotUser (Some (issue_user issue)))
                               && (issue_updated_at issue >=? Scenario.since))
                 (List.concat ([Case.fullPageOfIssues] ++ [Case.lastPageOfIssues])))
         (sendAll (map (ReqIssues ORG "A" Scenario.since) (seq 1 2)) start).
Proof.
  apply (getIssues_stops Case.paged ORG "A" Scenario.since [Case.fullPageOfIssues]
           Case.lastPageOfIssues 2 start).
  - intros i issues H. destruct (page_cases _ _ _ _ H) as [[-> ->]|[-> ->]]; reflexivity.
  - constructor; [|constructor]. vm_compute. lia.
  - vm_compute. lia.
  - simpl. lia.
Defined.

Lemma getPullRequests_fails_whole_witness :
  exists error,
    getPullRequests Case.paged 2 ORG "A" Scenario.since start
    = Threw error (sendAll (map (ReqPulls ORG "A") (seq 1 2)) start).
Proof.
  apply (getPullRequests_fails_whole Case.paged ORG "A" Scenario.since
           [Scenario.fullPage] "Bad Gateway" 2 start).
  - intros i prs H. destruct i as [|i]; simpl in H.
    + injection H as <-. reflexivity.
    + destruct i; discriminate.
  - reflexivity.
  - constructor; [|constructor]. split; [vm_compute; lia|].
    apply Forall_forall. intros pr Hin. apply repeat_spec in Hin. subst pr.
    apply Z.leb_le. vm_compute. reflexivity.
  - simpl. lia.
Defined.

Lemma compositeKey_read_back_witness :
  keyHasNumber Case.keyed 12 (compositeKeyOf (Sample.repository "A") 12) = true
  /\ keyHasNumber Case.keyed 1 (compositeKeyOf (Sample.repository "A") 12) = false
  /\ forall m, keyHasNumber Case.keyed m (compositeKeyOf (Sample.repository "A") 12) = true
               <-> m = 12.
Proof.
  split; [reflexivity|]. split; [reflexivity|].
  apply (compositeKey_read_back Case.keyed (Sample.repository "A") 12 "A").
  - unfold Js.safeInteger. lia.
  - reflexivity.
  - reflexivity.
  - reflexivity.
  - discriminate.
Defined.

Lemma plain_sample (name : string) :
  name = "A" \/ name = "B" -> plainRepository (Sample.repository name).
Proof.
  intros [-> | ->]; repeat split; try reflexivity; discriminate.
Defined.

Lemma compositeKey_owner_witness :
  find (fun p => pr_number p =? 12) Case.twelves = Some (Sample.pull "B" 12 "open" None 24)
  /\ owningPullRequest Case.twelves Case.keyed (compositeKeyOf (Sample.repository "A") 12)
     = find (fun p => pr_number p =? 12) Case.twelves.
Proof.
  split; [reflexivity|].
  apply (compositeKey_owner Case.twelves Case.keyed (Sample.repository "A") 12).
  - unfold Js.safeInteger. lia.
  - apply plain_sample. left. reflexivity.
  - reflexivity.
Defined.

Lemma processRepository_skips_failed_repository_witness :
  processRepository Case.pullsDown 5 Scenario.since (Sample.repository "B") start
  = Done tt (send (ReqPulls ORG "B" 1) start)
  /\ collections (send (ReqPulls ORG "B" 1) start) = collections start.
Proof.
  apply (processRepository_skips_failed_repository Case.pullsDown 5 Scenario.since
           (Sample.repository "B") start (send (ReqPulls ORG "B" 1) start)
           "GitHub API: Service Unavailable").
  reflexivity.
Defined.

Lemma processRepository_keeps_pull_requests_witness :
  match processRepository Case.issuesDown 5 Scenario.since (Sample.repository "B") start with
  | Done _ s' =>
      allPullRequests s' = allPullRequests start ++ [Sample.openB1]
      /\ Forall (keyPresent s')
                (map (fun pr => compositeKeyOf (Sample.repository "B") (pr_number pr))
                     [Sample.openB1])
  | Threw _ _ => False
  | OutOfFuel => True
  end.
Proof.
  apply (processRepository_keeps_pull_requests Case.issuesDown 5 Scenario.since
           (Sample.repository "B") start (send (ReqPulls ORG "B" 1) start) [Sample.openB1]).
  vm_compute. reflexivity.
Defined.

Lemma listed_busy (repo : Repository) :
  listed Case.busy repo -> plainRepository repo.
Proof.
  intros (page & repos & Hapi & Hin).
  destruct page as [|[|page]]; simpl in Hapi; injection Hapi as <-.
  - destruct Hin.
  - destruct Hin as [<-|[<-|[]]]; apply plain_sample; auto.
  - destruct Hin.
Defined.

Lemma safe_small (n : Z) : 0 <= n < 100 -> Js.safeInteger n.
Proof. unfold Js.safeInteger. lia. Defined.

Lemma safeNumbers_busy : safeNumbers Case.busy.
Proof.
  split.
  - intros owner repo page prs Hapi.
    destruct page as [|[|page]]; simpl in Hapi;
      [injection Hapi as <-; constructor| |injection Hapi as <-; constructor].
    destruct (String.eqb repo "A"); injection Hapi as <-;
      repeat constructor; apply safe_small; simpl; lia.
  - intros owner repo since page issues Hapi.
    destruct page as [|[|page]]; simpl in Hapi;
      [injection Hapi as <-; constructor| |injection Hapi as <-; constructor].
    destruct (String.eqb repo "A"); injection Hapi as <-;
      repeat constructor; apply safe_small; simpl; lia.
Defined.

Lemma published_repositories_are_listed_witness :
  match generateAnalytics Case.busy Sample.now 5 start with
  | Done data _ =>
      Forall (fun e => exists repo, listed Case.busy repo
                                    /\ nr_repository e = repo_name repo)
             (prsNeedingReview (reviewMetrics data))
      /\ Forall (fun e => exists repo, listed Case.busy repo
                                       /\ rm_repository e = repo_name repo)
                (prsReadyToMerge (reviewMetrics data))
      /\ Forall (fun e => exists repo, listed Case.busy repo
                                       /\ pi_repository e = repo_name repo)
                (issuesPendingTriage (issueMetrics data))
  | Threw _ _ | OutOfFuel => True
  end.
Proof.
  apply (published_repositories_are_listed Case.busy Sample.now 5).
  - exact listed_busy.
  - exact safeNumbers_busy.
Defined.

Lemma published_total_counts_stored_reviews_witness :
  match generateAnalytics Case.busy Sample.now 5 start with
  | Done data s =>
      totalReviews (reviewMetrics data) = List.length (flat_map snd (allReviews s))
      /\ Forall (fun entry =>
                   snd entry <> []
                   /\ Forall (fun r => isBotUser (review_user r) = false) (snd entry))
                (allReviews s)
  | Threw _ _ | OutOfFuel => True
  end.
Proof.
  apply (published_total_counts_stored_reviews Case.busy Sample.now 5).
  - exact listed_busy.
  - exact safeNumbers_busy.
Defined.

(** The run over the two busy repositories: the three worklists and the
    repositories they name, and the review that is stored and counted. *)
Example busy_run :
  exists data s,
    Sample.published Case.busy = Some (data, s)
    /\ map (fun e => (nr_number e, nr_repository e)) (prsNeedingReview (reviewMetrics data))
       = [(3, "B"); (2, "A")]
    /\ map (fun e => (rm_number e, rm_repository e)) (prsReadyToMerge (reviewMetrics data))
       = [(1, "A")]
    /\ map (fun e => (pi_number e, pi_repository e))
           (issuesPendingTriage (issueMetrics data))
       = [(4, "A"); (6, "B")]
    /\ totalReviews (reviewMetrics data) = 1%nat
    /\ List.length (flat_map snd (allReviews s)) = 1%nat.
Proof.
  eexists. eexists. split; [vm_compute; reflexivity|].
  repeat split; vm_compute; reflexivity.
Qed.

(** The run over the two repositories stores one review and counts it. *)
Example two_repositories_one_review :
  exists data s,
    Sample.published Sample.twoRepositories = Some (data, s)
    /\ totalReviews (reviewMetrics data) = 1%nat
    /\ List.length (flat_map snd (allReviews s)) = 1%nat.
Proof.
  eexists. eexists. split; [vm_compute; reflexivity|]. split; vm_compute; reflexivity.
Qed.

Lemma paged_ends : pagesEndBy Case.paged 2.
Proof.
  intros page Hp. destruct page as [|[|[|page]]]; try lia.
  - split; [|split].
    + intros repos E. injection E as <-. vm_compute. lia.
    + intros owner repo prs E. discriminate E.
    + intros owner repo since issues E. injection E as <-. vm_compute. lia.
  - split; [|split].
    + intros repos E. discriminate E.
    + intros owner repo prs E. discriminate E.
    + intros owner repo since issues E. discriminate E.
Defined.

Lemma generateAnalytics_ends_witness :
  generateAnalytics Case.paged Sample.now 3 start <> OutOfFuel
  /\ generateAnalytics Case.paged Sample.now 7 start
     = generateAnalytics Case.paged Sample.now 3 start.
Proof.
  apply (generateAnalytics_ends Case.paged Sample.now 2 3 7 start).
  - exact paged_ends.
  - lia.
  - lia.
Defined.
